(** * BIA document assembly and confidence scoring

    A shallow embedding of [backend/src/services/BIAService.js] (classes
    [BIAService] and [RoosterService]), of
    [backend/src/services/DataIntegrationService.js] and of the routes of the
    BIA, data-source and health controllers that call them, with the
    properties of the assembly pipeline stated on the embedded functions.

    JavaScript numbers are IEEE-754 binary64 values: they are modelled by
    Rocq's primitive floats, so that sums, quotients and comparisons are the
    ones the program computes.  Objects keep their properties in insertion
    order and are association lists whose keys are distinct.  What is
    printed on the console is not modelled, but the conversion to a string of
    a value interpolated in a logged message is, since it can throw. *)

From Stdlib Require Import ZArith String List Bool Floats Uint63 Lia.
From stdpp Require Import base option gmap strings pretty.
Import ListNotations.

Set Warnings "-inexact-float,-register-all".
Local Open Scope string_scope.
Local Open Scope float_scope.

(** ** JavaScript values *)

Inductive value : Type :=
| Undefined
| Null
| Bool (b : bool)
| Num (f : float)
| Str (s : string)
| Arr (items : list value)
| Obj (props : list (string * value))
| Native (name : string).   (* a built-in function or object *)

Coercion Num : float >-> value.
Coercion Str : string >-> value.

Declare Scope js_scope.
Delimit Scope js_scope with js.
Bind Scope js_scope with value.

(** An object-literal entry [k: v]. *)
Definition prop (k : string) (v : value) : string * value := (k, v).
Notation "k ::= v" := (prop k v) (at level 60, no associativity).

(** An array literal of strings. *)
Definition strs (l : list string) : value := Arr (map Str l).

(** *** Completions

    Evaluation ends normally or with an exception; an awaited promise may
    also never settle ([Pending]).  Conversions whose result is a numeral or
    the text of a number (ToNumber of a string, ToString of a number, and
    ToPrimitive of arrays and objects where its result is used) are left out
    of the model: an evaluation that needs one ends in [Unmodelled]. *)

Inductive exn : Type :=
| TypeError (msg : string)
| SyntaxError (msg : string)
| Error (msg : string)
| SystemError (code : string).

(** [error.message]. *)
Definition exn_message (e : exn) : string :=
  match e with
  | TypeError msg | SyntaxError msg | Error msg | SystemError msg => msg
  end.

Inductive completion (A : Type) : Type :=
| Normal (a : A)
| Throw (e : exn)
| Unmodelled
| Pending.
Arguments Normal {A} a.
Arguments Throw {A} e.
Arguments Unmodelled {A}.
Arguments Pending {A}.

#[global] Instance completion_ret : MRet completion := @Normal.
#[global] Instance completion_bind : MBind completion := fun A B f m =>
  match m with
  | Normal a => f a
  | Throw e => Throw e
  | Unmodelled => Unmodelled
  | Pending => Pending
  end.

(** [catch (error) { throw new Error(`<prefix>${error.message}`) }]. *)
Definition rethrow {A} (prefix : string) (c : completion A) : completion A :=
  match c with
  | Throw e => Throw (Error (prefix ++ exn_message e))
  | other => other
  end.

(** *** Truthiness, [||], [===] *)

Definition is_nan (f : float) : bool := negb (f =? f).

Definition truthy (v : value) : bool :=
  match v with
  | Undefined | Null => false
  | Bool b => b
  | Num f => negb (f =? 0) && negb (is_nan f)
  | Str s => negb (String.eqb s "")
  | Arr _ | Obj _ | Native _ => true
  end.

Definition js_or (a b : value) : value := if truthy a then a else b.
Notation "a || b" := (js_or a b) (at level 50, left associativity) : js_scope.

Definition strict_eq (a b : value) : bool :=
  match a, b with
  | Undefined, Undefined | Null, Null => true
  | Bool x, Bool y => Bool.eqb x y
  | Num x, Num y => x =? y
  | Str x, Str y => String.eqb x y
  | _, _ => false  (* objects compare by identity; never needed below *)
  end.

(** *** Property access *)

Fixpoint assoc (k : string) (ps : list (string * value)) : option value :=
  match ps with
  | [] => None
  | (k', v) :: ps' => if String.eqb k k' then Some v else assoc k ps'
  end.

(** The properties every ordinary object inherits from [Object.prototype]. *)
Definition Object_prototype (k : string) : option value :=
  if String.eqb k "constructor" then Some (Native "Object")
  else if String.eqb k "__proto__" then Some (Native "Object.prototype")
  else if existsb (String.eqb k)
            ["__defineGetter__"; "__defineSetter__"; "hasOwnProperty";
             "__lookupGetter__"; "__lookupSetter__"; "isPrototypeOf";
             "propertyIsEnumerable"; "toString"; "valueOf"; "toLocaleString"]
       then Some (Native ("Object.prototype." ++ k))
  else None.

(** [o[k]] on an object: own property first, then the prototype. *)
Definition get_member (ps : list (string * value)) (k : string) : value :=
  match assoc k ps with
  | Some v => v
  | None => default Undefined (Object_prototype k)
  end.

(** [v.k] for a property name written in the program.  None of the names
    this program reads is defined on a primitive, an array or a function,
    so such a read gives [undefined]. *)
Definition field (v : value) (k : string) : completion value :=
  match v with
  | Undefined =>
      Throw (TypeError ("Cannot read properties of undefined (reading '" ++ k ++ "')"))
  | Null =>
      Throw (TypeError ("Cannot read properties of null (reading '" ++ k ++ "')"))
  | Obj ps => Normal (get_member ps k)
  | _ => Normal Undefined
  end.

(** [v?.k]: [undefined] when [v] is nullish; on anything else it is [v.k]. *)
Definition opt_field (v : value) (k : string) : value :=
  match v with
  | Obj ps => get_member ps k
  | _ => Undefined
  end.
Notation "v ?. k" := (opt_field v k) (at level 18, left associativity) : js_scope.

(** *** Values interpolated in a logged message

    [console.log(`... ${v} ...`)] converts [v] to a string before it prints.
    The text is lost with the console, but the conversion can throw.
    ToString of an object calls its [toString] and, if that is not callable,
    its [valueOf]; the inherited [toString] gives "[object Object]", the
    inherited [valueOf] gives the object back, and a TypeError is thrown
    when no primitive was obtained.  ToString of an array joins the strings
    of its elements.  Calling a built-in that an object holds as its own
    [toString] or [valueOf] is not modelled. *)
Definition OrdinaryToPrimitive (props : list (string * value)) : completion unit :=
  match get_member props "toString" with
  | Native f =>
      if String.eqb f "Object.prototype.toString" then Normal tt else Unmodelled
  | _ =>
      match get_member props "valueOf" with
      | Native f =>
          if String.eqb f "Object.prototype.valueOf"
          then Throw (TypeError "Cannot convert object to primitive value")
          else Unmodelled
      | _ => Throw (TypeError "Cannot convert object to primitive value")
      end
  end.

Fixpoint interpolate (v : value) : completion unit :=
  match v with
  | Undefined | Null | Bool _ | Num _ | Str _ => Normal tt
  | Native _ => Normal tt
  | Arr items =>
      (fix join (items : list value) : completion unit :=
         match items with
         | [] => Normal tt
         | item :: rest => _ ← interpolate item; join rest
         end) items
  | Obj props => OrdinaryToPrimitive props
  end.

(** ToPropertyKey, for the values whose conversion is modelled. *)
Definition to_key (v : value) : completion string :=
  match v with
  | Str s => Normal s
  | Undefined => Normal "undefined"
  | Null => Normal "null"
  | Bool true => Normal "true"
  | Bool false => Normal "false"
  | _ => Unmodelled
  end.

(** [table[key]] with a computed key. *)
Definition index (table : list (string * value)) (key : value) : completion value :=
  k ← to_key key; Normal (get_member table k).

(** *** Numbers *)

Definition of_nat (n : nat) : float := PrimFloat.of_uint63 (Uint63.of_Z (Z.of_nat n)).

Definition of_Z (n : Z) : float :=
  if (n <? 0)%Z then - PrimFloat.of_uint63 (Uint63.of_Z (- n))
  else PrimFloat.of_uint63 (Uint63.of_Z n).

Definition to_number (v : value) : completion float :=
  match v with
  | Undefined => Normal nan
  | Null => Normal 0
  | Bool true => Normal 1
  | Bool false => Normal 0
  | Num f => Normal f
  | _ => Unmodelled
  end.

(** [Math.min] of two numbers: [NaN] if either is, and [-0] below [+0]. *)
Definition fmin (a b : float) : float :=
  if is_nan a || is_nan b then nan
  else if a <? b then a
  else if b <? a then b
  else if get_sign a then a else b.

Definition Math_min (a b : value) : completion value :=
  x ← to_number a; y ← to_number b; Normal (Num (fmin x y)).

(** [Math.round]: the nearest integer, ties towards +infinity.  A finite
    float is [m * 2^e]; with [e < 0] the result is
    [floor ((2m + 2^(-e)) / 2^(1-e))], which is exact in [Z]. *)
Definition Math_round (x : float) : float :=
  match Prim2SF x with
  | S754_finite s m e =>
      if (0 <=? e)%Z then x
      else
        let sm := if s then Z.neg m else Z.pos m in
        let n := ((2 * sm + 2 ^ (- e)) / 2 ^ (1 - e))%Z in
        if (n =? 0)%Z then (if s then -0 else 0) else of_Z n
  | _ => x
  end.

(** [a + b]: the sum of two numbers, or the concatenation of two strings;
    a string with any other operand needs a conversion to string. *)
Definition js_add (a b : value) : completion value :=
  match a, b with
  | Str s, Str t => Normal (Str (s ++ t))
  | Str _, _ | _, Str _ => Unmodelled
  | _, _ => x ← to_number a; y ← to_number b; Normal (Num (x + y))
  end.

(** [scores.reduce((a, b) => a + b, init)]. *)
Fixpoint reduce_add (acc : value) (l : list value) : completion value :=
  match l with
  | [] => Normal acc
  | b :: l' => s ← js_add acc b; reduce_add s l'
  end.

(** ** The request *)

(** The six payload slots of [autoPopulatedData]; a failed source is [null]. *)
Record AutoPopulatedData : Type := {
  registry : value;
  pagerDuty : value;
  hr : value;
  financial : value;
  monitoring : value;
  predictions : value
}.

Record BIARequest : Type := {
  functionName : value;
  functionType : value;
  driName : value;
  driTeam : value;
  regionalOverlays : value;
  autoPopulatedData : AutoPopulatedData
}.

(** What the run-time environment supplies to one call of [generateBIA]. *)
Record Env : Type := {
  uuidv4 : string;          (* uuidv4() *)
  now_iso : string;         (* new Date().toISOString() *)
  next_quarter : string     (* format(now + 3 months, 'yyyy-MM-dd') *)
}.

(** ** The document store

    The tables [bia_documents] and [bia_audit_log] of the database schema
    (migration 001), with the columns the approval flow is about. *)

Inductive BIAStatus : Type :=
  draft | pending_approval | approved | rejected | archived.

Record bia_document : Type := {
  function_name : string;
  status : BIAStatus;
  version : string
}.

Record audit_entry : Type := {
  bia_id : string;
  action : string;
  old_values : value;
  new_values : value;
  comments : value
}.

Record Database : Type := {
  bia_documents : gmap string bia_document;   (* by primary key [id] *)
  bia_audit_log : list audit_entry
}.

Fixpoint map_completion {A B} (f : A -> completion B) (l : list A) : completion (list B) :=
  match l with
  | [] => Normal []
  | x :: l' => y ← f x; ys ← map_completion f l'; Normal (y :: ys)
  end.

(** ** class BIAService *)

Module BIAService.

Local Open Scope js_scope.

Definition generatePersonnelSection (hrData pagerDutyData : value) : completion value :=
  confidence_score ← Math_min (hrData ?. "confidence_score" || 0.5)
                              (pagerDutyData ?. "confidence_score" || 0.5);
  Normal (Obj [
    "team_size" ::= hrData ?. "team_size" || "Unknown";
    "key_personnel" ::= hrData ?. "key_personnel" || Arr [
      Obj ["name" ::= "Tech Lead (TBD)"; "role" ::= "Technical Leadership"; "backup" ::= "Senior Engineer"];
      Obj ["name" ::= "Product Manager (TBD)"; "role" ::= "Product Strategy"; "backup" ::= "Associate PM"];
      Obj ["name" ::= "Operations Manager (TBD)"; "role" ::= "Operations"; "backup" ::= "Senior Ops"]
    ];
    "escalation_policy" ::= pagerDutyData ?. "escalation_policy" || "Standard escalation path";
    "on_call_schedule" ::= pagerDutyData ?. "on_call_schedule" || "24/7 rotation";
    "manager_chain" ::= hrData ?. "manager_chain" || strs ["Team Lead"; "Manager"; "Director"; "VP"];
    "business_hours" ::= hrData ?. "business_hours" || "24/7 operations";
    "confidence_score" ::= confidence_score;
    "data_sources" ::= strs ["HR Systems"; "PagerDuty"];
    "auto_populated" ::= Bool true
  ]).

Definition calculateImpactMatrix (financialData : value) : value :=
  Obj [
    "low" ::= "Minimal customer impact, <$100K revenue";
    "medium" ::= "Moderate customer impact, $100K-$1M revenue";
    "high" ::= "Significant customer impact, $1M-$10M revenue";
    "critical" ::= "Severe customer impact, >$10M revenue"
  ].

Definition generateBusinessImpactSection (financialData predictions : value) : completion value :=
  let impactMatrix := calculateImpactMatrix financialData in
  low ← field impactMatrix "low";
  medium ← field impactMatrix "medium";
  high ← field impactMatrix "high";
  critical ← field impactMatrix "critical";
  Normal (Obj [
    "daily_revenue_impact" ::= financialData ?. "daily_revenue_impact" || "TBD";
    "monthly_revenue_impact" ::= financialData ?. "monthly_revenue_impact" || "TBD";
    "active_customers" ::= financialData ?. "active_customers" || "TBD";
    "transaction_volume" ::= financialData ?. "transaction_volume"
                             || Obj ["daily" ::= "TBD"; "peak_hourly" ::= "TBD"];
    "customer_segments" ::= financialData ?. "customer_segments"
                            || Obj ["enterprise" ::= "TBD"; "smb" ::= "TBD"; "consumer" ::= "TBD"];
    "impact_timeline" ::= Obj [
      "1_4_hours" ::= low;
      "4_24_hours" ::= medium;
      "1_7_days" ::= high;
      "7_plus_days" ::= critical
    ];
    "predictive_impact" ::= Obj [
      "twelve_month_forecast" ::= predictions ?. "performance_predictions" ?. "availability_forecast" || "TBD";
      "risk_level" ::= predictions ?. "risk_assessment" ?. "overall_risk" || "Medium";
      "improvement_potential" ::= predictions ?. "rto_analysis" ?. "improvement_potential" || "TBD"
    ];
    "confidence_score" ::= financialData ?. "confidence_score" || 0.6;
    "data_sources" ::= strs ["Financial Systems"; "Analytics APIs"; "Rooster Predictions"];
    "auto_populated" ::= Bool true
  ]).

Definition generateTechnologySection (registryData : value) : completion value :=
  Normal (Obj [
    "core_technologies" ::= registryData ?. "technology_stack" || strs ["Unknown"];
    "service_dependencies" ::= registryData ?. "dependencies" || strs ["Unknown"];
    "reliability_tier" ::= registryData ?. "reliability_tier" || "Unknown";
    "deployment_info" ::= registryData ?. "deployment_info" || Obj [
      "regions" ::= strs ["Unknown"];
      "replicas" ::= "Unknown";
      "auto_scaling" ::= "Unknown"
    ];
    "documentation" ::= Obj [
      "runbook_url" ::= registryData ?. "runbook_url" || "TBD";
      "documentation_url" ::= registryData ?. "documentation_url" || "TBD";
      "slack_channel" ::= registryData ?. "slack_channel" || "TBD"
    ];
    "confidence_score" ::= registryData ?. "confidence_score" || 0.7;
    "data_sources" ::= strs ["Registry (Snowflake)"; "CMDB"];
    "auto_populated" ::= Bool true
  ]).

Definition generateRecoverySection (predictions monitoringData : value) : completion value :=
  confidence_score ← Math_min (predictions ?. "confidence_overall" || 0.7)
                              (monitoringData ?. "confidence_score" || 0.7);
  Normal (Obj [
    "rto" ::= Obj [
      "current" ::= predictions ?. "rto_analysis" ?. "current_estimate" || "4 hours";
      "target" ::= predictions ?. "rto_analysis" ?. "twelve_month_forecast" || "2 hours";
      "confidence" ::= predictions ?. "rto_analysis" ?. "confidence_score" || 0.7
    ];
    "rpo" ::= Obj [
      "current" ::= predictions ?. "rpo_analysis" ?. "current_estimate" || "1 hour";
      "target" ::= predictions ?. "rpo_analysis" ?. "twelve_month_forecast" || "30 minutes";
      "confidence" ::= predictions ?. "rpo_analysis" ?. "confidence_score" || 0.7
    ];
    "current_availability" ::= monitoringData ?. "current_availability" || "99.5%";
    "sla_target" ::= monitoringData ?. "sla_target" || "99.9%";
    "mttr" ::= monitoringData ?. "performance_metrics" ?. "avg_response_time" || "TBD";
    "recovery_timeline" ::= Obj [
      "detection" ::= "0-15 minutes";
      "initial_response" ::= "15-30 minutes";
      "mitigation" ::= "30 minutes - 2 hours";
      "full_recovery" ::= "2-4 hours"
    ];
    "scenarios" ::= predictions ?. "scenarios" || Obj [
      "best_case" ::= Obj ["rto" ::= "TBD"; "rpo" ::= "TBD"; "probability" ::= "25%"];
      "most_likely" ::= Obj ["rto" ::= "TBD"; "rpo" ::= "TBD"; "probability" ::= "50%"];
      "worst_case" ::= Obj ["rto" ::= "TBD"; "rpo" ::= "TBD"; "probability" ::= "25%"]
    ];
    "confidence_score" ::= confidence_score;
    "data_sources" ::= strs ["Rooster Predictions"; "Monitoring Systems"; "Historical Data"];
    "auto_populated" ::= Bool true
  ]).

(** *** Rule tables *)

Definition getBCMClassification (functionType : value) : completion value :=
  let classifications := [
    "product" ::= "Critical - Customer Facing";
    "platform" ::= "Important - Business Enabling";
    "support" ::= "Supporting - Internal Operations";
    "infrastructure" ::= "Critical - Foundation Service";
    "compliance" ::= "Important - Regulatory Required"
  ] in
  v ← index classifications functionType; Normal (v || "To Be Determined").

Definition getMTPD (functionType : value) : completion value :=
  let mtpds := [
    "product" ::= "2 hours";
    "platform" ::= "4 hours";
    "support" ::= "24 hours";
    "infrastructure" ::= "1 hour";
    "compliance" ::= "8 hours"
  ] in
  v ← index mtpds functionType; Normal (v || "4 hours").

Definition getMBCO (functionType : value) : completion value :=
  let mbcos := [
    "product" ::= "80% capacity within MTPD";
    "platform" ::= "60% capacity within MTPD";
    "support" ::= "50% capacity within MTPD";
    "infrastructure" ::= "95% capacity within MTPD";
    "compliance" ::= "70% capacity within MTPD"
  ] in
  v ← index mbcos functionType; Normal (v || "60% capacity within MTPD").

Definition getResourceRequirements (functionType : value) : completion value :=
  let resources := [
    "product" ::= "Dedicated DR site, 24/7 support";
    "platform" ::= "Hot standby, business hours support";
    "support" ::= "Workarounds, extended hours support";
    "infrastructure" ::= "Real-time replication, immediate response";
    "compliance" ::= "Backup systems, priority restoration"
  ] in
  v ← index resources functionType; Normal (v || "Standard backup procedures").

Definition getComplianceRequirements (functionType : value) : completion value :=
  let requirements := [
    "product" ::= strs ["PCI-DSS"; "SOX Controls"; "Data Privacy"];
    "platform" ::= strs ["SOX Controls"; "Data Privacy"; "Security Standards"];
    "support" ::= strs ["Data Privacy"; "Access Controls"];
    "infrastructure" ::= strs ["Security Standards"; "Audit Logging"; "Change Management"];
    "compliance" ::= strs ["All Applicable Standards"; "Regulatory Reporting"; "Audit Trail"]
  ] in
  v ← index requirements functionType; Normal (v || strs ["Standard Controls"]).

Definition getDataClassification (functionType : value) : value :=
  if strict_eq functionType "product" then "PII/Financial" else "Internal/Confidential".

Definition getRegulatoryImpact (functionType : value) : value :=
  if strict_eq functionType "product" then "High - Customer facing"
  else "Medium - Internal operations".

Definition getLegalEntity (region : value) : completion value :=
  let entities := [
    "na" ::= "Block, Inc. (Delaware)";
    "eu" ::= "Block Europe Limited (Ireland)";
    "apac" ::= "Block Japan KK"
  ] in
  v ← index entities region; Normal (v || "TBD").

Definition getRegulatoryFramework (region : value) : completion value :=
  let frameworks := [
    "na" ::= "SOX/FDIC";
    "eu" ::= "GDPR/DORA";
    "apac" ::= "JFSA (Japan)"
  ] in
  v ← index frameworks region; Normal (v || "Local Regulations").

Definition getDataResidency (region : value) : completion value :=
  let residency := [
    "na" ::= "US/Canada Only";
    "eu" ::= "EU Only";
    "apac" ::= "Local + Singapore"
  ] in
  v ← index residency region; Normal (v || "Local Requirements").

Definition getLocalRequirements (region : value) : value :=
  strs ["Data localization"; "Local incident reporting"; "Regulatory notifications"].

Definition getRegionalRTO (region : value) : completion value :=
  let rtos := [
    "na" ::= "2 hours";
    "eu" ::= "4 hours";
    "apac" ::= "6 hours"
  ] in
  v ← index rtos region; Normal (v || "4 hours").

Definition getRegionalRPO (region : value) : completion value :=
  let rpos := [
    "na" ::= "30 minutes";
    "eu" ::= "1 hour";
    "apac" ::= "2 hours"
  ] in
  v ← index rpos region; Normal (v || "1 hour").

Definition getNextTestDate (env : Env) : value := Str (next_quarter env).

(** *** Rule-derived sections *)

Definition generateRiskComplianceSection (registryData functionType : value) : completion value :=
  complianceRequirements ← getComplianceRequirements functionType;
  Normal (Obj [
    "compliance_requirements" ::= complianceRequirements;
    "data_classification" ::= getDataClassification functionType;
    "regulatory_impact" ::= getRegulatoryImpact functionType;
    "security_considerations" ::= strs [
      "Data encryption in transit and at rest";
      "Access controls and authentication";
      "Audit logging and monitoring";
      "Incident response procedures"
    ];
    "confidence_score" ::= 0.8;
    "data_sources" ::= strs ["Compliance Database"; "Security Policies"];
    "auto_populated" ::= Bool true
  ]).

Definition generateISO22301Section (env : Env) (functionType predictions : value) : completion value :=
  business_function_classification ← getBCMClassification functionType;
  mtpd ← getMTPD functionType;
  mbco ← getMBCO functionType;
  resource_requirements ← getResourceRequirements functionType;
  Normal (Obj [
    "business_function_classification" ::= business_function_classification;
    "mtpd" ::= mtpd;
    "mbco" ::= mbco;
    "resource_requirements" ::= resource_requirements;
    "continuity_strategies" ::= strs [
      "Automated failover procedures";
      "Geographic redundancy";
      "Data backup and recovery";
      "Alternative processing sites"
    ];
    "testing_requirements" ::= Obj [
      "frequency" ::= "Quarterly";
      "scope" ::= "Full system recovery";
      "success_criteria" ::= "RTO/RPO targets met";
      "next_test_date" ::= getNextTestDate env
    ];
    "risk_assessment" ::= predictions ?. "risk_assessment" || Obj [
      "overall_risk" ::= "Medium";
      "risk_factors" ::= strs ["Standard operational risks"];
      "mitigation_recommendations" ::= strs ["Standard mitigation strategies"]
    ];
    "confidence_score" ::= 0.85;
    "data_sources" ::= strs ["ISO 22301 Framework"; "BCM Policies"; "Rooster Analysis"];
    "auto_populated" ::= Bool true
  ]).

(** *** Regional overlays *)

Definition generateRegionalOverlay (overlay : value) : completion value :=
  region ← field overlay "region";
  legal_entity ← getLegalEntity region;
  regulatory_framework ← getRegulatoryFramework region;
  data_residency ← getDataResidency region;
  regional_rto ← getRegionalRTO region;
  regional_rpo ← getRegionalRPO region;
  Normal (Obj [
    "region" ::= region;
    "legal_entity" ::= legal_entity;
    "regulatory_framework" ::= regulatory_framework;
    "data_residency" ::= data_residency;
    "local_requirements" ::= getLocalRequirements region;
    "regional_rto" ::= regional_rto;
    "regional_rpo" ::= regional_rpo;
    "confidence_score" ::= 0.75;
    "auto_populated" ::= Bool true
  ]).

(** [regionalOverlays.map(...)]: only an array has [map]. *)
Definition generateRegionalOverlays (regionalOverlays : value) : completion value :=
  match regionalOverlays with
  | Arr overlays => items ← map_completion generateRegionalOverlay overlays; Normal (Arr items)
  | _ => Throw (TypeError "regionalOverlays.map is not a function")
  end.

(** *** Data-source summary and confidence assessment *)

(** One [if (payload) sources.push({...})] step.  The payload is truthy
    where its properties are read, so [.] never throws there. *)
Definition push_source (name : string) (payload : value) (score_key time_key : string)
    (sources : list value) : list value :=
  if truthy payload then
    sources ++ [Obj [
      "name" ::= name;
      "status" ::= "connected";
      "confidence" ::= payload ?. score_key;
      "last_updated" ::= payload ?. time_key
    ]]
  else sources.

Definition generateDataSourceSummary (autoPopulatedData : AutoPopulatedData) : value :=
  let sources := [] in
  let sources := push_source "Registry (Snowflake)" (registry autoPopulatedData)
                   "confidence_score" "last_updated" sources in
  let sources := push_source "PagerDuty" (pagerDuty autoPopulatedData)
                   "confidence_score" "last_updated" sources in
  let sources := push_source "HR Systems" (hr autoPopulatedData)
                   "confidence_score" "last_updated" sources in
  let sources := push_source "Financial Systems" (financial autoPopulatedData)
                   "confidence_score" "last_updated" sources in
  let sources := push_source "Monitoring Systems" (monitoring autoPopulatedData)
                   "confidence_score" "last_updated" sources in
  let sources := push_source "Rooster Predictions" (predictions autoPopulatedData)
                   "confidence_overall" "generated_at" sources in
  Arr sources.

(** One [if (score) scores.push(score)] step. *)
Definition push_score (score : value) (scores : list value) : list value :=
  if truthy score then scores ++ [score] else scores.

(** The [scores] array that [calculateConfidenceScores] fills. *)
Definition collect_scores (autoPopulatedData : AutoPopulatedData) : list value :=
  let scores := [] in
  let scores := push_score (registry autoPopulatedData ?. "confidence_score") scores in
  let scores := push_score (pagerDuty autoPopulatedData ?. "confidence_score") scores in
  let scores := push_score (hr autoPopulatedData ?. "confidence_score") scores in
  let scores := push_score (financial autoPopulatedData ?. "confidence_score") scores in
  let scores := push_score (monitoring autoPopulatedData ?. "confidence_score") scores in
  let scores := push_score (predictions autoPopulatedData ?. "confidence_overall") scores in
  scores.

Definition calculateConfidenceScores (autoPopulatedData : AutoPopulatedData) : completion value :=
  let scores := collect_scores autoPopulatedData in
  overallConfidence ←
    (if (0 <? length scores)%nat
     then sum ← reduce_add 0 scores; total ← to_number sum;
          Normal (total / of_nat (length scores))
     else Normal 0.5);
  Normal (Obj [
    "overall_confidence" ::= Num (Math_round (overallConfidence * 100) / 100);
    "data_completeness" ::= Num (of_nat (length scores) / 6 * 100);
    "confidence_level" ::=
      (if 0.8 <=? overallConfidence then "High"
       else if 0.6 <=? overallConfidence then "Medium" else "Low");
    "recommendations" ::=
      (if overallConfidence <? 0.7 then strs [
         "Verify data source connections";
         "Update missing information";
         "Schedule data validation review"
       ] else Arr [])
  ]).

(** *** Database operations (scaffolding: they log and return) *)

Definition storeBIA (biaDocument : value) (db : Database) : completion value * Database :=
  (id ← field biaDocument "id"; _ ← interpolate id; Normal id, db).

Definition getBIAById (id : value) (db : Database) : completion value * Database :=
  (_ ← interpolate id; Normal Null, db).

Definition updateBIAStatus (id status comments : value) (db : Database)
    : completion value * Database :=
  (_ ← interpolate id; _ ← interpolate status; Normal (Bool true), db).

Definition listBIAs (filters : value) (db : Database) : value * Database :=
  (Arr [], db).

(** *** generateBIA *)

(** The object literal bound to [biaDocument]. *)
Definition biaDocument (env : Env) (biaRequest : BIARequest) : completion value :=
  let autoPopulatedData := autoPopulatedData biaRequest in
  let functionType := functionType biaRequest in
  personnel_information ←
    generatePersonnelSection (hr autoPopulatedData) (pagerDuty autoPopulatedData);
  business_impact ←
    generateBusinessImpactSection (financial autoPopulatedData) (predictions autoPopulatedData);
  technology_dependencies ← generateTechnologySection (registry autoPopulatedData);
  recovery_requirements ←
    generateRecoverySection (predictions autoPopulatedData) (monitoring autoPopulatedData);
  risk_compliance ← generateRiskComplianceSection (registry autoPopulatedData) functionType;
  iso_22301_compliance ←
    generateISO22301Section env functionType (predictions autoPopulatedData);
  regional_overlays ←
    (if truthy (regionalOverlays biaRequest)
     then generateRegionalOverlays (regionalOverlays biaRequest)
     else Normal (Arr []));
  confidence_assessment ← calculateConfidenceScores autoPopulatedData;
  Normal (Obj [
    "id" ::= uuidv4 env;
    "function_name" ::= functionName biaRequest;
    "function_type" ::= functionType;
    "dri_name" ::= driName biaRequest;
    "dri_team" ::= driTeam biaRequest;
    "generated_at" ::= now_iso env;
    "status" ::= "draft";
    "version" ::= "1.0";
    "personnel_information" ::= personnel_information;
    "business_impact" ::= business_impact;
    "technology_dependencies" ::= technology_dependencies;
    "recovery_requirements" ::= recovery_requirements;
    "risk_compliance" ::= risk_compliance;
    "iso_22301_compliance" ::= iso_22301_compliance;
    "regional_overlays" ::= regional_overlays;
    "predictive_analysis" ::= predictions autoPopulatedData;
    "data_sources" ::= generateDataSourceSummary autoPopulatedData;
    "confidence_assessment" ::= confidence_assessment
  ]).

(** The function name is logged first; the [catch] clause logs and
    rethrows. *)
Definition generateBIA (env : Env) (biaRequest : BIARequest) (db : Database)
    : completion value * Database :=
  match (_ ← interpolate (functionName biaRequest); biaDocument env biaRequest) with
  | Normal doc =>
      match storeBIA doc db with
      | (Normal _, db') => (Normal doc, db')
      | (Throw e, db') => (Throw e, db')
      | (Unmodelled, db') => (Unmodelled, db')
      | (Pending, db') => (Pending, db')
      end
  | Throw e => (Throw e, db)
  | Unmodelled => (Unmodelled, db)
  | Pending => (Pending, db)
  end.

End BIAService.

(** ** class RoosterService *)

(** The temporary directory, as far as the service sees it: path to content. *)
Abbreviation FileSystem := (gmap string string).

(** How the [python3] child process ends, if it does.  (A process killed
    by a signal closes with code [null], which the handler treats like a
    non-zero code.) *)
Inductive proc_end : Type :=
| spawn_error (e : exn)                 (* the 'error' event *)
| close (code : Z) (stderr : string)    (* the 'close' event *)
| never_closes.                         (* neither event: the process hangs *)

(** What the environment does during one call of [generatePredictions]. *)
Record RoosterEnv : Type := {
  date_now_input : N;              (* Date.now() for the input file name *)
  date_now_output : N;             (* Date.now() for the output file name *)
  input_timestamp : string;        (* new Date().toISOString() in roosterInput *)
  result_timestamp : string;       (* new Date().toISOString() in the result *)
  write_succeeds : bool;           (* does fs.writeFile succeed? *)
  output_written : option string;  (* what the process writes to the output file *)
  process_end : proc_end
}.

Definition path_join (dir name : string) : string := dir ++ "/" ++ name.

Definition writeFile (ok : bool) (path data : string) (fs : FileSystem)
    : completion unit * FileSystem :=
  if ok then (Normal tt, <[path := data]> fs) else (Throw (SystemError "ENOENT"), fs).

Definition readFile (path : string) (fs : FileSystem) : completion string :=
  match fs !! path with
  | Some data => Normal data
  | None => Throw (SystemError "ENOENT")
  end.

Definition unlink (path : string) (fs : FileSystem) : completion unit * FileSystem :=
  match fs !! path with
  | Some _ => (Normal tt, delete path fs)
  | None => (Throw (SystemError "ENOENT"), fs)
  end.

Module RoosterService.

Local Open Scope js_scope.

Section WithJSON.

(** [JSON.parse] ([None] for a [SyntaxError]) and [JSON.stringify]. *)
Variable JSON_parse : string -> option value.
Variable JSON_stringify : value -> string.

(** [roosterData.x] throws when [roosterData] is nullish, at the first
    read; on anything else [.] and [?.] agree. *)
Definition formatRoosterOutput (generated_at : string) (roosterData : value)
    : completion value :=
  _ ← field roosterData "current_rto";
  Normal (Obj [
    "rto_analysis" ::= Obj [
      "current_estimate" ::= roosterData ?. "current_rto" || "45 minutes";
      "confidence_score" ::= roosterData ?. "confidence" || 0.8;
      "twelve_month_forecast" ::= roosterData ?. "forecast_rto" || "35 minutes";
      "improvement_potential" ::= roosterData ?. "improvement" || "22%"
    ];
    "rpo_analysis" ::= Obj [
      "current_estimate" ::= roosterData ?. "current_rpo" || "15 minutes";
      "confidence_score" ::= roosterData ?. "rpo_confidence" || 0.75;
      "twelve_month_forecast" ::= roosterData ?. "forecast_rpo" || "10 minutes";
      "improvement_potential" ::= roosterData ?. "rpo_improvement" || "33%"
    ];
    "risk_assessment" ::= Obj [
      "overall_risk" ::= roosterData ?. "risk_level" || "Medium";
      "risk_factors" ::= roosterData ?. "risk_factors" || strs [
        "Elevated latency trends";
        "Dependency complexity";
        "Limited redundancy"
      ];
      "mitigation_recommendations" ::= roosterData ?. "recommendations" || strs [
        "Implement circuit breakers";
        "Add regional failover";
        "Optimize database queries"
      ]
    ];
    "performance_predictions" ::= Obj [
      "availability_forecast" ::= roosterData ?. "availability_forecast" || "99.92%";
      "capacity_utilization" ::= roosterData ?. "capacity_forecast" || "68%";
      "scaling_requirements" ::= roosterData ?. "scaling_needs" || "Moderate growth expected"
    ];
    "scenarios" ::= Obj [
      "best_case" ::= Obj [
        "rto" ::= roosterData ?. "best_case_rto" || "25 minutes";
        "rpo" ::= roosterData ?. "best_case_rpo" || "5 minutes";
        "probability" ::= "25%"
      ];
      "most_likely" ::= Obj [
        "rto" ::= roosterData ?. "likely_rto" || "35 minutes";
        "rpo" ::= roosterData ?. "likely_rpo" || "10 minutes";
        "probability" ::= "50%"
      ];
      "worst_case" ::= Obj [
        "rto" ::= roosterData ?. "worst_case_rto" || "60 minutes";
        "rpo" ::= roosterData ?. "worst_case_rpo" || "30 minutes";
        "probability" ::= "25%"
      ]
    ];
    "data_sources" ::= roosterData ?. "data_sources" || strs [
      "Historical incident data";
      "Performance metrics";
      "Dependency analysis";
      "Capacity planning models"
    ];
    "generated_at" ::= generated_at;
    "rooster_version" ::= roosterData ?. "version" || "2.0";
    "confidence_overall" ::= roosterData ?. "overall_confidence" || 0.82
  ]).

(** The object [getFallbackPredictions] returns. *)
Definition fallbackPredictions (generated_at : string) : value :=
  Obj [
    "rto_analysis" ::= Obj [
      "current_estimate" ::= "45 minutes";
      "confidence_score" ::= 0.6;
      "twelve_month_forecast" ::= "40 minutes";
      "improvement_potential" ::= "11%"
    ];
    "rpo_analysis" ::= Obj [
      "current_estimate" ::= "15 minutes";
      "confidence_score" ::= 0.6;
      "twelve_month_forecast" ::= "12 minutes";
      "improvement_potential" ::= "20%"
    ];
    "risk_assessment" ::= Obj [
      "overall_risk" ::= "Medium";
      "risk_factors" ::= strs [
        "Limited historical data";
        "Standard architecture patterns";
        "Typical operational complexity"
      ];
      "mitigation_recommendations" ::= strs [
        "Establish baseline monitoring";
        "Implement standard DR procedures";
        "Regular testing and validation"
      ]
    ];
    "performance_predictions" ::= Obj [
      "availability_forecast" ::= "99.5%";
      "capacity_utilization" ::= "70%";
      "scaling_requirements" ::= "Standard growth patterns"
    ];
    "scenarios" ::= Obj [
      "best_case" ::= Obj ["rto" ::= "30 minutes"; "rpo" ::= "8 minutes"; "probability" ::= "25%"];
      "most_likely" ::= Obj ["rto" ::= "45 minutes"; "rpo" ::= "15 minutes"; "probability" ::= "50%"];
      "worst_case" ::= Obj ["rto" ::= "90 minutes"; "rpo" ::= "30 minutes"; "probability" ::= "25%"]
    ];
    "data_sources" ::= strs [
      "Industry benchmarks";
      "Standard patterns";
      "Conservative estimates"
    ];
    "generated_at" ::= generated_at;
    "rooster_version" ::= "fallback";
    "confidence_overall" ::= 0.6;
    "note" ::= "Fallback predictions used - integrate with Rooster for enhanced accuracy"
  ].

(** The function name is logged, then the object is returned. *)
Definition getFallbackPredictions (generated_at : string) (functionName : value)
    : completion value :=
  _ ← interpolate functionName;
  Normal (fallbackPredictions generated_at).

(** The promise of [executeRoosterPython]: the process runs, possibly
    writing the output file; the promise is rejected on a spawn error, on a
    non-zero exit code, and when reading, parsing or formatting the output
    throws.  There is no timer: while the process emits neither event the
    promise stays pending. *)
Definition executeRoosterPython (env : RoosterEnv) (roosterPath inputFile outputFile : string)
    (fs : FileSystem) : completion value * FileSystem :=
  let fs := match output_written env with
            | Some data => <[outputFile := data]> fs
            | None => fs
            end in
  match process_end env with
  | spawn_error e => (Throw e, fs)
  | close code stderr =>
      if (code =? 0)%Z then
        (outputData ← readFile outputFile fs;
         match JSON_parse outputData with
         | Some predictions => formatRoosterOutput (result_timestamp env) predictions
         | None => Throw (SyntaxError "Unexpected token in JSON")
         end, fs)
      else
        (Throw (Error ("Rooster failed with code " ++ pretty code ++ ": " ++ stderr)), fs)
  | never_closes => (Pending, fs)
  end.

(** [try { unlink(inputFile); unlink(outputFile) } catch { warn }]. *)
Definition cleanup (inputFile outputFile : string) (fs : FileSystem) : FileSystem :=
  match unlink inputFile fs with
  | (Normal _, fs) => snd (unlink outputFile fs)
  | (_, fs) => fs
  end.

Definition inputFile_of (env : RoosterEnv) : string :=
  path_join "/Users/mshevchik/rooster_bia" ("temp_input_" ++ pretty (date_now_input env) ++ ".json").

Definition outputFile_of (env : RoosterEnv) : string :=
  path_join "/Users/mshevchik/rooster_bia" ("temp_output_" ++ pretty (date_now_output env) ++ ".json").

(** The body of the [try] block of [generatePredictions]; it begins by
    logging the function name. *)
Definition generatePredictions_try (env : RoosterEnv) (functionName inputData : value)
    (fs : FileSystem) : completion value * FileSystem :=
  let roosterPath := "/Users/mshevchik/rooster_bia" in
  let inputFile := inputFile_of env in
  let outputFile := outputFile_of env in
  match (_ ← interpolate functionName;
         registry_data ← field inputData "registryData";
         monitoring_data ← field inputData "monitoringData";
         Normal (Obj [
           "function_name" ::= functionName;
           "registry_data" ::= registry_data;
           "monitoring_data" ::= monitoring_data;
           "analysis_type" ::= "comprehensive";
           "prediction_horizon" ::= "12_months";
           "scenarios" ::= strs ["best_case"; "worst_case"; "most_likely"];
           "timestamp" ::= input_timestamp env
         ])) with
  | Normal roosterInput =>
      match writeFile (write_succeeds env) inputFile (JSON_stringify roosterInput) fs with
      | (Normal _, fs) =>
          match executeRoosterPython env roosterPath inputFile outputFile fs with
          | (Normal predictions, fs) => (Normal predictions, cleanup inputFile outputFile fs)
          | (c, fs) => (c, fs)
          end
      | (Throw e, fs) => (Throw e, fs)
      | (Unmodelled, fs) => (Unmodelled, fs)
      | (Pending, fs) => (Pending, fs)
      end
  | Throw e => (Throw e, fs)
  | Unmodelled => (Unmodelled, fs)
  | Pending => (Pending, fs)
  end.

(** [catch (error) { return this.getFallbackPredictions(functionName) }];
    what [getFallbackPredictions] throws is not caught. *)
Definition generatePredictions (env : RoosterEnv) (functionName inputData : value)
    (fs : FileSystem) : completion value * FileSystem :=
  match generatePredictions_try env functionName inputData fs with
  | (Throw _, fs) => (getFallbackPredictions (result_timestamp env) functionName, fs)
  | r => r
  end.

End WithJSON.

(** [fs.access(path)]: [None] when the path is accessible, the message of
    the error otherwise. *)
Definition getServiceHealth (access : string -> option string) (last_check : string)
    : value :=
  let roosterPath := "/Users/mshevchik/rooster_bia" in
  match access roosterPath with
  | None =>
      let scriptPath := path_join roosterPath "rto_rpo_predictor.py" in
      match access scriptPath with
      | None =>
          Obj [
            "status" ::= "healthy";
            "rooster_path" ::= roosterPath;
            "script_available" ::= Bool true;
            "last_check" ::= last_check
          ]
      | Some message =>
          Obj [
            "status" ::= "unavailable";
            "error" ::= message;
            "fallback_mode" ::= Bool true;
            "last_check" ::= last_check
          ]
      end
  | Some message =>
      Obj [
        "status" ::= "unavailable";
        "error" ::= message;
        "fallback_mode" ::= Bool true;
        "last_check" ::= last_check
      ]
  end.

End RoosterService.

(** ** class DataIntegrationService *)

Module DataIntegrationService.

Local Open Scope js_scope.

Record FusionEnv : Type := {
  random_record : N;          (* Math.floor(Math.random() * 10000), first draw *)
  random_url : N;             (* the same, second draw *)
  next_review_date : string;  (* a year from now, toLocaleDateString() *)
  pushed_at : string          (* new Date().toISOString() *)
}.

(** The object bound to [fusionResult]. *)
Definition fusionResult (env : FusionEnv) (comments : value) : value :=
  Obj [
    "record_id" ::= ("BIA-" ++ pretty (random_record env))%string;
    "status" ::= "active";
    "fusion_url" ::= ("https://fusion.block.xyz/bia/BIA-" ++ pretty (random_url env))%string;
    "next_review_date" ::= next_review_date env;
    "iso_compliance" ::= "verified";
    "comments" ::= comments || "";
    "automated_actions" ::= strs [
      "BCM team notified";
      "Continuity plan review scheduled";
      "Stakeholder notifications sent";
      "Risk register updated"
    ];
    "pushed_at" ::= pushed_at env
  ].

(** The push is simulated: the method logs the id, waits and builds its
    answer; the [catch] clause wraps what was thrown. *)
Definition pushToFusion (env : FusionEnv) (biaId comments : value) : completion value :=
  rethrow "Failed to push to Fusion: "
    (_ ← interpolate biaId;
     Normal (fusionResult env comments)).

(** *** The source adapters (scaffolding: each builds a mock payload)

    Each adapter logs its argument and builds its payload inside a [try]
    whose [catch] rethrows an [Error].  [getRegistryData] also builds a query
    text with [functionName.toLowerCase()]: a function name that is no string
    makes it throw. *)
Definition getRegistryData (last_updated : string) (functionName : value)
    : completion value :=
  rethrow "Failed to fetch Registry data: "
    (_ ← interpolate functionName;
     match functionName with
     | Str name =>
         Normal (Obj [
           "app_name" ::= functionName;
           "description" ::= (name ++ " service")%string;
           "reliability_tier" ::= "Tier 1";
           "team_id" ::= "unknown";
           "slack_channel" ::= "#unknown";
           "documentation_url" ::= "https://docs.internal.block.xyz/unknown";
           "runbook_url" ::= "https://runbooks.internal.block.xyz/unknown";
           "dependencies" ::= strs ["Authentication Service"; "Database Cluster"; "Cache Layer"];
           "technology_stack" ::= strs ["Node.js"; "PostgreSQL"; "Redis"; "Kubernetes"];
           "deployment_info" ::= Obj [
             "regions" ::= strs ["us-west-2"; "us-east-1"];
             "replicas" ::= 3;
             "auto_scaling" ::= Bool true
           ];
           "confidence_score" ::= 0.7;
           "data_source" ::= "Registry (Snowflake)";
           "last_updated" ::= last_updated
         ])
     | Undefined =>
         Throw (TypeError "Cannot read properties of undefined (reading 'toLowerCase')")
     | Null =>
         Throw (TypeError "Cannot read properties of null (reading 'toLowerCase')")
     | Num _ | Bool _ | Arr _ =>
         Throw (TypeError "functionName.toLowerCase is not a function")
     | Obj props =>
         match get_member props "toLowerCase" with
         | Native _ => Unmodelled
         | _ => Throw (TypeError "functionName.toLowerCase is not a function")
         end
     | Native _ => Unmodelled
     end).

Definition getPagerDutyData (last_updated : string) (functionName : value)
    : completion value :=
  rethrow "Failed to fetch PagerDuty data: "
    (_ ← interpolate functionName;
     Normal (Obj [
       "service_name" ::= functionName;
       "escalation_policy" ::= "L1 Ops → L2 Engineering → Manager → Director";
       "escalation_timeout" ::= "15 minutes per level";
       "on_call_schedule" ::= "Follow-the-sun rotation";
       "incident_stats" ::= Obj [
         "last_30_days" ::= 3;
         "mttr_minutes" ::= 45;
         "p1_incidents" ::= 1;
         "p2_incidents" ::= 2
       ];
       "availability_sla" ::= "99.9%";
       "current_status" ::= "operational";
       "confidence_score" ::= 0.8;
       "data_source" ::= "PagerDuty API";
       "last_updated" ::= last_updated
     ])).

Definition getHRData (last_updated : string) (teamName : value) : completion value :=
  rethrow "Failed to fetch HR data: "
    (_ ← interpolate teamName;
     Normal (Obj [
       "team_name" ::= teamName;
       "team_size" ::= 25;
       "key_personnel" ::= Arr [
         Obj ["name" ::= "Tech Lead (TBD)"; "role" ::= "Technical Leadership"; "backup" ::= "Senior Engineer"];
         Obj ["name" ::= "Product Manager (TBD)"; "role" ::= "Product Strategy"; "backup" ::= "Associate PM"];
         Obj ["name" ::= "Operations Manager (TBD)"; "role" ::= "Day-to-day Operations"; "backup" ::= "Senior Ops"]
       ];
       "manager_chain" ::= strs [
         "Team Lead";
         "Engineering Manager";
         "Director of Engineering";
         "VP Engineering"
       ];
       "team_location" ::= "Distributed (SF, NYC, Remote)";
       "business_hours" ::= "24/7 on-call rotation";
       "confidence_score" ::= 0.6;
       "data_source" ::= "HR Systems API";
       "last_updated" ::= last_updated
     ])).

Definition getFinancialData (last_updated : string) (functionName : value)
    : completion value :=
  rethrow "Failed to fetch Financial data: "
    (_ ← interpolate functionName;
     Normal (Obj [
       "function_name" ::= functionName;
       "daily_revenue_impact" ::= "$1.2M";
       "monthly_revenue_impact" ::= "$36M";
       "active_customers" ::= 250000;
       "transaction_volume" ::= Obj [
         "daily" ::= 1500000;
         "peak_hourly" ::= 180000
       ];
       "revenue_per_transaction" ::= "$0.80";
       "customer_segments" ::= Obj [
         "enterprise" ::= "15%";
         "smb" ::= "60%";
         "consumer" ::= "25%"
       ];
       "confidence_score" ::= 0.75;
       "data_source" ::= "Financial Analytics API";
       "last_updated" ::= last_updated
     ])).

Definition getMonitoringData (last_updated : string) (functionName : value)
    : completion value :=
  rethrow "Failed to fetch Monitoring data: "
    (_ ← interpolate functionName;
     Normal (Obj [
       "service_name" ::= functionName;
       "current_availability" ::= "99.85%";
       "sla_target" ::= "99.9%";
       "performance_metrics" ::= Obj [
         "avg_response_time" ::= "250ms";
         "p95_response_time" ::= "500ms";
         "p99_response_time" ::= "1.2s";
         "error_rate" ::= "0.15%"
       ];
       "infrastructure_health" ::= Obj [
         "cpu_utilization" ::= "65%";
         "memory_utilization" ::= "70%";
         "disk_utilization" ::= "45%";
         "network_latency" ::= "15ms"
       ];
       "recent_incidents" ::= Arr [
         Obj [
           "date" ::= "2024-09-15";
           "duration" ::= "23 minutes";
           "impact" ::= "Elevated latency";
           "root_cause" ::= "Database connection pool exhaustion"
         ]
       ];
       "confidence_score" ::= 0.9;
       "data_source" ::= "Monitoring Systems API";
       "last_updated" ::= last_updated
     ])).

(** The draws and dates of one call of [checkFusionRecord]. *)
Record CheckEnv : Type := {
  random_exists : float;         (* Math.random(), for exists *)
  random_check_id : N;           (* Math.floor(Math.random() * 10000) *)
  check_last_updated : string;   (* a date within 90 days, toLocaleDateString() *)
  random_action : float          (* Math.random(), for action_required *)
}.

(** The object bound to [mockFusionCheck]. *)
Definition mockFusionCheck (env : CheckEnv) : value :=
  Obj [
    "exists" ::= Bool (0.6 <? random_exists env);
    "record_id" ::= ("BIA-" ++ pretty (random_check_id env))%string;
    "last_updated" ::= check_last_updated env;
    "status" ::= "active";
    "action_required" ::= (if 0.6 <? random_action env then "update" else "create")
  ].

Definition checkFusionRecord (env : CheckEnv) (functionName : value) : completion value :=
  rethrow "Failed to check Fusion: "
    (_ ← interpolate functionName;
     Normal (mockFusionCheck env)).

(** *** Health of the data sources *)

Definition health_ok (response_time last_check : string) : value :=
  Obj ["status" ::= "healthy"; "response_time" ::= response_time; "last_check" ::= last_check].

Definition checkRegistryHealth (last_check : string) : value := health_ok "150ms" last_check.
Definition checkPagerDutyHealth (last_check : string) : value := health_ok "200ms" last_check.
Definition checkHRHealth (last_check : string) : value := health_ok "300ms" last_check.
Definition checkFinancialHealth (last_check : string) : value := health_ok "250ms" last_check.
Definition checkMonitoringHealth (last_check : string) : value := health_ok "100ms" last_check.
Definition checkFusionHealth (last_check : string) : value := health_ok "180ms" last_check.

(** [check.status === 'fulfilled' ? check.value : { status: 'error' }]; an
    outcome of [Promise.allSettled] is [Some value] when fulfilled and [None]
    when rejected (the reason is never read). *)
Definition health_entry (check : option value) : value :=
  match check with
  | Some v => v
  | None => Obj ["status" ::= "error"]
  end.

(** What [getDataSourceHealth] returns for the six settled checks.  Reading
    [healthChecks[i].status] with fewer than six outcomes throws, and the
    [catch] answers with overall 'error'. *)
Definition summarizeHealth (healthChecks : list (option value)) : value :=
  match healthChecks with
  | c0 :: c1 :: c2 :: c3 :: c4 :: c5 :: _ =>
      Obj [
        "registry" ::= health_entry c0;
        "pagerduty" ::= health_entry c1;
        "hr" ::= health_entry c2;
        "financial" ::= health_entry c3;
        "monitoring" ::= health_entry c4;
        "fusion" ::= health_entry c5;
        "overall" ::=
          (if (4 <=? length (List.filter (fun c => match c with Some _ => true | None => false end)
                               healthChecks))%nat
           then "healthy" else "degraded")
      ]
  | _ =>
      Obj [
        "overall" ::= "error";
        "message" ::= "Cannot read properties of undefined (reading 'status')"
      ]
  end.

(** The six checks are scaffolding and always fulfil; [t0] .. [t5] are the
    times at which they run. *)
Definition getDataSourceHealth (t0 t1 t2 t3 t4 t5 : string) : value :=
  summarizeHealth [
    Some (checkRegistryHealth t0);
    Some (checkPagerDutyHealth t1);
    Some (checkHRHealth t2);
    Some (checkFinancialHealth t3);
    Some (checkMonitoringHealth t4);
    Some (checkFusionHealth t5)
  ].

End DataIntegrationService.

Module BiaController.

Import DataIntegrationService.

(** An outcome of [Promise.allSettled]. *)
Inductive settled : Type :=
| fulfilled (v : value)
| rejected (reason : exn).

(** [outcome.status === 'fulfilled' ? outcome.value : null]. *)
Definition settled_value (outcome : settled) : value :=
  match outcome with
  | fulfilled v => v
  | rejected _ => Null
  end.

(** The [autoPopulatedData] that [POST /api/bia/generate] hands to
    [generateBIA]. *)
Definition gathered (registryData pagerDutyData hrData financialData monitoringData : settled)
    (predictiveAnalysis : value) : AutoPopulatedData :=
  {| registry := settled_value registryData;
     pagerDuty := settled_value pagerDutyData;
     hr := settled_value hrData;
     financial := settled_value financialData;
     monitoring := settled_value monitoringData;
     predictions := predictiveAnalysis |}.

(** The body of [POST /api/bia/approve]; its fields are strings when present. *)
Record ApproveBody : Type := {
  biaId : option string;
  comments : option string
}.

Record Response : Type := {
  http_status : Z;
  json : value
}.

(** The document store and the pushes to Fusion made so far. *)
Record World : Type := {
  db : Database;
  fusion_pushes : list (value * value)
}.

Definition body_value (o : option string) : value :=
  match o with Some s => Str s | None => Undefined end.

(** An entry of [errors.array()]: the error of a body field. *)
Definition validation_error (v : value) (msg path : string) : value :=
  Obj [
    "type" ::= "field";
    "value" ::= v;
    "msg" ::= msg;
    "path" ::= path;
    "location" ::= "body"
  ].

(** [body('biaId').notEmpty()]; [comments] is optional and a string. *)
Definition validationResult (body : ApproveBody) : list value :=
  match biaId body with
  | Some s =>
      if String.eqb s "" then [validation_error (Str s) "BIA ID is required" "biaId"] else []
  | None => [validation_error Undefined "BIA ID is required" "biaId"]
  end.

(** The answer of the [catch] clause. *)
Definition approval_failed (e : exn) : Response :=
  {| http_status := 500;
     json := Obj [
       "error" ::= "Failed to approve BIA";
       "message" ::= exn_message e
     ] |}.

(** The handler.  With a body whose fields are strings neither the logged
    id nor [pushToFusion] nor [updateBIAStatus] throws, so the [catch]
    clause is not entered; it is modelled all the same. *)
Definition approve (env : FusionEnv) (approvedAt : string) (body : ApproveBody) (w : World)
    : completion Response * World :=
  match validationResult body with
  | (_ :: _) as errors =>
      (Normal {| http_status := 400; json := Obj ["errors" ::= Arr errors] |}, w)
  | [] =>
      let biaId := body_value (biaId body) in
      let comments := body_value (comments body) in
      (* Push to Fusion *)
      match (_ ← interpolate biaId; pushToFusion env biaId comments) with
      | Normal fusionResult =>
          let pushes := (fusion_pushes w ++ [(biaId, comments)])%list in
          (* Update BIA status *)
          let '(updated, db') := BIAService.updateBIAStatus biaId "approved" comments (db w) in
          let w := {| db := db'; fusion_pushes := pushes |} in
          match updated with
          | Normal _ =>
              (Normal
                 {| http_status := 200;
                    json := Obj [
                      "success" ::= Bool true;
                      "fusionRecord" ::= fusionResult;
                      "approvedAt" ::= approvedAt
                    ] |}, w)
          | Throw e => (Normal (approval_failed e), w)
          | Unmodelled => (Unmodelled, w)
          | Pending => (Pending, w)
          end
      | Throw e => (Normal (approval_failed e), w)
      | Unmodelled => (Unmodelled, w)
      | Pending => (Pending, w)
      end
  end.

(** *** POST /api/bia/generate *)

(** One outcome of [Promise.allSettled] for an adapter call. *)
Definition settle (c : completion value) : completion settled :=
  match c with
  | Normal v => Normal (fulfilled v)
  | Throw e => Normal (rejected e)
  | Unmodelled => Unmodelled
  | Pending => Pending
  end.

(** [outcome.status]. *)
Definition settled_status (outcome : settled) : value :=
  match outcome with
  | fulfilled _ => Str "fulfilled"
  | rejected _ => Str "rejected"
  end.

(** The body of the request; its fields are strings when present, except
    [regionalOverlays], which is any JSON value. *)
Record GenerateBody : Type := {
  body_functionName : option string;
  body_functionType : option string;
  body_driName : option string;
  body_driTeam : option string;
  body_regionalOverlays : option value
}.

(** The validation chain of the route: [functionName] not empty,
    [functionType] one of the five, [regionalOverlays] an array if given
    ([optional()] skips a value that is [undefined]). *)
Definition validateGenerate (body : GenerateBody) : list value :=
  ((match body_functionName body with
    | Some s =>
        if String.eqb s ""
        then [validation_error (Str s) "Function name is required" "functionName"] else []
    | None => [validation_error Undefined "Function name is required" "functionName"]
    end)
   ++ (match body_functionType body with
       | Some s =>
           if existsb (String.eqb s)
                ["product"; "platform"; "support"; "infrastructure"; "compliance"]
           then [] else [validation_error (Str s) "Invalid function type" "functionType"]
       | None => [validation_error Undefined "Invalid function type" "functionType"]
       end)
   ++ (match body_regionalOverlays body with
       | None | Some Undefined | Some (Arr _) => []
       | Some v => [validation_error v "Invalid value" "regionalOverlays"]
       end))%list.

(** What the environment supplies to one request. *)
Record GenerateEnv : Type := {
  registry_time : string;
  pagerduty_time : string;
  hr_time : string;
  financial_time : string;
  monitoring_time : string;
  rooster : RoosterEnv;
  bia_env : Env;
  fusion_check : CheckEnv;
  responded_at : string
}.

(** The answer of the [catch] clause. *)
Definition generation_failed (e : exn) (timestamp : string) : Response :=
  {| http_status := 500;
     json := Obj [
       "error" ::= "Failed to generate BIA";
       "message" ::= exn_message e;
       "timestamp" ::= timestamp
     ] |}.

Section Generate.

Variable JSON_parse : string -> option value.
Variable JSON_stringify : value -> string.

Definition generate (env : GenerateEnv) (body : GenerateBody) (w : World) (fs : FileSystem)
    : completion Response * World * FileSystem :=
  match validateGenerate body with
  | (_ :: _) as errors =>
      (Normal {| http_status := 400; json := Obj ["errors" ::= Arr errors] |}, w, fs)
  | [] =>
      let functionName := body_value (body_functionName body) in
      let functionType := body_value (body_functionType body) in
      let driName := body_value (body_driName body) in
      let driTeam := body_value (body_driTeam body) in
      let regionalOverlays :=
        match body_regionalOverlays body with Some v => v | None => Undefined end in
      (* Step 1: Gather data from all sources *)
      match (_ ← interpolate functionName;
             registryData ← settle (getRegistryData (registry_time env) functionName);
             pagerDutyData ← settle (getPagerDutyData (pagerduty_time env) functionName);
             hrData ← settle (getHRData (hr_time env) driTeam);
             financialData ← settle (getFinancialData (financial_time env) functionName);
             monitoringData ← settle (getMonitoringData (monitoring_time env) functionName);
             Normal (registryData, pagerDutyData, hrData, financialData, monitoringData)) with
      | Normal (registryData, pagerDutyData, hrData, financialData, monitoringData) =>
          (* Step 2: Use Rooster for predictive analysis *)
          let '(predicted, fs) :=
            RoosterService.generatePredictions JSON_parse JSON_stringify (rooster env)
              functionName
              (Obj [
                 "registryData" ::= settled_value registryData;
                 "monitoringData" ::= settled_value monitoringData
               ]) fs in
          match predicted with
          | Normal predictiveAnalysis =>
              (* Step 3: Generate BIA document *)
              let '(generated, db') :=
                BIAService.generateBIA (bia_env env)
                  {| functionName := functionName;
                     functionType := functionType;
                     driName := driName;
                     driTeam := driTeam;
                     regionalOverlays := regionalOverlays;
                     autoPopulatedData :=
                       gathered registryData pagerDutyData hrData financialData
                         monitoringData predictiveAnalysis |}
                  (db w) in
              let w := {| db := db'; fusion_pushes := fusion_pushes w |} in
              match generated with
              | Normal biaDocument =>
                  (* Step 4: Check Fusion for existing records *)
                  match checkFusionRecord (fusion_check env) functionName with
                  | Normal fusionCheck =>
                      (Normal
                         {| http_status := 200;
                            json := Obj [
                              "success" ::= Bool true;
                              "bia" ::= biaDocument;
                              "fusionStatus" ::= fusionCheck;
                              "dataSourceStatus" ::= Obj [
                                "registry" ::= settled_status registryData;
                                "pagerDuty" ::= settled_status pagerDutyData;
                                "hr" ::= settled_status hrData;
                                "financial" ::= settled_status financialData;
                                "monitoring" ::= settled_status monitoringData
                              ];
                              "generatedAt" ::= responded_at env
                            ] |}, w, fs)
                  | Throw e => (Normal (generation_failed e (responded_at env)), w, fs)
                  | Unmodelled => (Unmodelled, w, fs)
                  | Pending => (Pending, w, fs)
                  end
              | Throw e => (Normal (generation_failed e (responded_at env)), w, fs)
              | Unmodelled => (Unmodelled, w, fs)
              | Pending => (Pending, w, fs)
              end
          | Throw e => (Normal (generation_failed e (responded_at env)), w, fs)
          | Unmodelled => (Unmodelled, w, fs)
          | Pending => (Pending, w, fs)
          end
      | Throw e => (Normal (generation_failed e (responded_at env)), w, fs)
      | Unmodelled => (Unmodelled, w, fs)
      | Pending => (Pending, w, fs)
      end
  end.

End Generate.

(** *** GET /api/bia/:id and GET /api/bia *)

(** [id] is the route parameter, a string. *)
Definition getById (id : string) (w : World) : completion Response * World :=
  let '(found, db') := BIAService.getBIAById (Str id) (db w) in
  let w := {| db := db'; fusion_pushes := fusion_pushes w |} in
  match found with
  | Normal bia =>
      if truthy bia then (Normal {| http_status := 200; json := bia |}, w)
      else (Normal {| http_status := 404; json := Obj ["error" ::= "BIA not found"] |}, w)
  | Throw _ =>
      (Normal {| http_status := 500; json := Obj ["error" ::= "Failed to retrieve BIA"] |}, w)
  | Unmodelled => (Unmodelled, w)
  | Pending => (Pending, w)
  end.

(** [filters] is the object built from the query: [status], [functionType]
    and the [parseInt] of [limit] and [offset]. *)
Definition listAll (filters : value) (w : World) : Response * World :=
  let '(biaList, db') := BIAService.listBIAs filters (db w) in
  ({| http_status := 200; json := biaList |},
   {| db := db'; fusion_pushes := fusion_pushes w |}).

End BiaController.

(** ** Data-source routes: POST /api/data-sources/test-connection *)

Module DataSourceController.

Import DataIntegrationService BiaController.

Local Open Scope js_scope.

(** The [switch] on [dataSource] compares with [===]; the adapter is called
    with [functionName || 'test']; an adapter that throws is answered by the
    [catch] clause. *)
Definition testConnection (last_updated timestamp : string) (dataSource functionName : value)
    : completion Response :=
  let tested (result : completion value) : completion Response :=
    match result with
    | Normal testResult =>
        Normal {| http_status := 200;
                  json := Obj [
                    "success" ::= Bool true;
                    "dataSource" ::= dataSource;
                    "testResult" ::= testResult;
                    "timestamp" ::= timestamp
                  ] |}
    | Throw e =>
        Normal {| http_status := 500;
                  json := Obj [
                    "success" ::= Bool false;
                    "error" ::= exn_message e;
                    "timestamp" ::= timestamp
                  ] |}
    | Unmodelled => Unmodelled
    | Pending => Pending
    end in
  if strict_eq dataSource "registry" then
    tested (getRegistryData last_updated (functionName || "test"))
  else if strict_eq dataSource "pagerduty" then
    tested (getPagerDutyData last_updated (functionName || "test"))
  else if strict_eq dataSource "hr" then
    tested (getHRData last_updated (functionName || "test"))
  else if strict_eq dataSource "financial" then
    tested (getFinancialData last_updated (functionName || "test"))
  else if strict_eq dataSource "monitoring" then
    tested (getMonitoringData last_updated (functionName || "test"))
  else
    Normal {| http_status := 400; json := Obj ["error" ::= "Invalid data source"] |}.

End DataSourceController.

(** ** Health routes *)

Module HealthController.

Import DataIntegrationService BiaController.

Local Open Scope js_scope.

(** What the process reports about itself. *)
Record ProcessInfo : Type := {
  response_time_ms : value;
  node_env : value;          (* process.env.NODE_ENV *)
  uptime : value;
  memory_usage : value;
  node_version : value;
  platform : value
}.

(** [outcome.status === 'fulfilled' && outcome.value.k === 'healthy']; reading
    [k] from a value that is [null] or [undefined] throws. *)
Definition fulfilled_healthy (outcome : option value) (k : string) : completion bool :=
  match outcome with
  | Some v => reported ← field v k; Normal (strict_eq reported "healthy")
  | None => Normal false
  end.

(** GET /api/health.  The two services are awaited with
    [Promise.allSettled]; an outcome is [Some value] when fulfilled and
    [None] when rejected.  [failed_at] is the time read in the [catch]
    clause. *)
Definition health (info : ProcessInfo) (timestamp failed_at : string)
    (dataSourceHealth roosterHealth : option value) : completion Response :=
  match (match fulfilled_healthy dataSourceHealth "overall" with
         | Normal true => fulfilled_healthy roosterHealth "status"
         | other => other
         end) with
  | Normal servicesHealthy =>
      Normal
      {| http_status := if servicesHealthy then 200 else 503;
         json := Obj [
           "status" ::= (if servicesHealthy then "healthy" else "degraded");
           "timestamp" ::= timestamp;
           "response_time_ms" ::= response_time_ms info;
           "version" ::= "1.0.0";
           "environment" ::= node_env info || "development";
           "services" ::= Obj [
             "data_sources" ::= health_entry dataSourceHealth;
             "rooster_engine" ::= health_entry roosterHealth
           ];
           "system" ::= Obj [
             "uptime" ::= uptime info;
             "memory_usage" ::= memory_usage info;
             "node_version" ::= node_version info;
             "platform" ::= platform info
           ]
         ] |}
  | Throw e =>
      Normal
      {| http_status := 503;
         json := Obj [
           "status" ::= "error";
           "timestamp" ::= failed_at;
           "error" ::= exn_message e
         ] |}
  | Unmodelled => Unmodelled
  | Pending => Pending
  end.

(** Both service calls catch their own errors, so both outcomes are
    fulfilled. *)
Definition healthRoute (info : ProcessInfo) (timestamp failed_at : string)
    (access : string -> option string) (t0 t1 t2 t3 t4 t5 tr : string)
    : completion Response :=
  health info timestamp failed_at
    (Some (getDataSourceHealth t0 t1 t2 t3 t4 t5))
    (Some (RoosterService.getServiceHealth access tr)).

(** GET /api/health/readiness: [checks.every(check => check.status === 'fulfilled')]. *)
Definition readiness (timestamp : string) (checks : list (option value)) : Response :=
  let ready := forallb (fun c => match c with Some _ => true | None => false end) checks in
  {| http_status := if ready then 200 else 503;
     json := Obj [
       "ready" ::= Bool ready;
       "timestamp" ::= timestamp;
       "checks" ::= Num (of_nat (length checks))
     ] |}.

Definition readinessRoute (timestamp : string) (access : string -> option string)
    (t0 tr : string) : Response :=
  readiness timestamp
    [Some (checkRegistryHealth t0); Some (RoosterService.getServiceHealth access tr)].

End HealthController.

(** * Properties *)

Import BIAService.

(** ** The six sources *)

Inductive source : Type :=
  Registry | PagerDuty | HR | Financial | Monitoring | Predictions.

(** In the order in which the aggregator visits them. *)
Definition all_sources : list source :=
  [Registry; PagerDuty; HR; Financial; Monitoring; Predictions].

Definition slot (s : source) (d : AutoPopulatedData) : value :=
  match s with
  | Registry => registry d
  | PagerDuty => pagerDuty d
  | HR => hr d
  | Financial => financial d
  | Monitoring => monitoring d
  | Predictions => predictions d
  end.

Definition set_slot (s : source) (v : value) (d : AutoPopulatedData) : AutoPopulatedData :=
  match s with
  | Registry => {| registry := v; pagerDuty := pagerDuty d; hr := hr d;
                   financial := financial d; monitoring := monitoring d;
                   predictions := predictions d |}
  | PagerDuty => {| registry := registry d; pagerDuty := v; hr := hr d;
                    financial := financial d; monitoring := monitoring d;
                    predictions := predictions d |}
  | HR => {| registry := registry d; pagerDuty := pagerDuty d; hr := v;
             financial := financial d; monitoring := monitoring d;
             predictions := predictions d |}
  | Financial => {| registry := registry d; pagerDuty := pagerDuty d; hr := hr d;
                    financial := v; monitoring := monitoring d;
                    predictions := predictions d |}
  | Monitoring => {| registry := registry d; pagerDuty := pagerDuty d; hr := hr d;
                     financial := financial d; monitoring := v;
                     predictions := predictions d |}
  | Predictions => {| registry := registry d; pagerDuty := pagerDuty d; hr := hr d;
                      financial := financial d; monitoring := monitoring d;
                      predictions := v |}
  end.

(** The property that carries a source's confidence. *)
Definition score_key (s : source) : string :=
  match s with
  | Predictions => "confidence_overall"
  | _ => "confidence_score"
  end.

Definition source_name (s : source) : string :=
  match s with
  | Registry => "Registry (Snowflake)"
  | PagerDuty => "PagerDuty"
  | HR => "HR Systems"
  | Financial => "Financial Systems"
  | Monitoring => "Monitoring Systems"
  | Predictions => "Rooster Predictions"
  end.

(** What the aggregator tests and pushes for a source. *)
Definition score_read (d : AutoPopulatedData) (s : source) : value :=
  (slot s d ?. score_key s)%js.

(** A source succeeded when its slot holds a payload. *)
Definition succeeded (d : AutoPopulatedData) (s : source) : bool := truthy (slot s d).

(** The number a payload reports as its confidence ([NaN] if it is none). *)
Definition score_of (d : AutoPopulatedData) (s : source) : float :=
  match score_read d s with
  | Num f => f
  | _ => nan
  end.

(** A source either failed (its slot is [null]) or delivered a payload with
    a usable confidence: a number other than [0] and [NaN]. *)
Definition reports_score (d : AutoPopulatedData) (s : source) : bool :=
  match slot s d with
  | Null => true
  | Obj _ => match score_read d s with
             | Num f => truthy (Num f)
             | _ => false
             end
  | _ => false
  end.

(** No source at all: every slot is [null]. *)
Definition all_absent : AutoPopulatedData :=
  {| registry := Null; pagerDuty := Null; hr := Null;
     financial := Null; monitoring := Null; predictions := Null |}.

(** A payload that carries nothing but a confidence. *)
Definition scored (key : string) (f : float) : value := Obj [key ::= f].

(** The member [k] of a result. *)
Definition member (k : string) (c : completion value) : completion value :=
  match c with
  | Normal v => Normal (v ?. k)%js
  | other => other
  end.

(** No [null] and no [undefined] anywhere in a value. *)
Fixpoint populated (v : value) : bool :=
  match v with
  | Undefined | Null => false
  | Arr items => forallb populated items
  | Obj props => forallb (fun p => populated (snd p)) props
  | _ => true
  end.

(** The mean the aggregator computes over a list of numbers. *)
Definition mean (scores : list float) : float :=
  match scores with
  | [] => 0.5
  | _ => fold_left PrimFloat.add scores 0 / of_nat (length scores)
  end.

(** The assessment of a list of usable confidences. *)
Definition assessment (scores : list float) : value :=
  let overallConfidence := mean scores in
  Obj [
    "overall_confidence" ::= Num (Math_round (overallConfidence * 100) / 100);
    "data_completeness" ::= Num (of_nat (length scores) / 6 * 100);
    "confidence_level" ::=
      (if 0.8 <=? overallConfidence then "High"
       else if 0.6 <=? overallConfidence then "Medium" else "Low");
    "recommendations" ::=
      (if overallConfidence <? 0.7 then strs [
         "Verify data source connections";
         "Update missing information";
         "Schedule data validation review"
       ] else Arr [])
  ].

(** The property that carries a source's time stamp. *)
Definition time_key (s : source) : string :=
  match s with
  | Predictions => "generated_at"
  | _ => "last_updated"
  end.

(** The entry of the [data_sources] summary for a source. *)
Definition summary_entry (d : AutoPopulatedData) (s : source) : value :=
  Obj [
    "name" ::= source_name s;
    "status" ::= "connected";
    "confidence" ::= score_read d s;
    "last_updated" ::= (slot s d ?. time_key s)%js
  ].

(** All six sources succeed, with confidences 0.9, 0.8, 0.6, 0.75, 0.9
    and 0.82 in the order in which they are gathered. *)
Definition full_success : AutoPopulatedData :=
  {| registry := scored "confidence_score" 0.9;
     pagerDuty := scored "confidence_score" 0.8;
     hr := scored "confidence_score" 0.6;
     financial := scored "confidence_score" 0.75;
     monitoring := scored "confidence_score" 0.9;
     predictions := scored "confidence_overall" 0.82 |}.

(** Only the registry answers, and reports a confidence of 0. *)
Definition registry_at_zero : AutoPopulatedData :=
  set_slot Registry
    (Obj ["confidence_score" ::= 0; "last_updated" ::= "2024-09-15T00:00:00.000Z"])
    all_absent.

(** Two of the six sources answer: HR at 0.6 and monitoring at 0.9. *)
Definition two_of_six : AutoPopulatedData :=
  set_slot HR (scored "confidence_score" 0.6)
    (set_slot Monitoring (scored "confidence_score" 0.9) all_absent).

(** What a source contributes to a section's confidence: its own score when
    it succeeded, the section's default when it failed. *)
Definition contribution (d : AutoPopulatedData) (s : source) (dflt : float) : float :=
  if succeeded d s then score_of d s else dflt.

(** HR answers at 0.9 and PagerDuty fails; the other slots are null. *)
Definition hr_only : AutoPopulatedData :=
  set_slot HR (scored "confidence_score" 0.9) all_absent.

Definition sample_env : Env :=
  {| uuidv4 := "2f1c3c1e-6f0a-4c3b-9a51-1d2e3f4a5b6c";
     now_iso := "2024-09-15T10:00:00.000Z";
     next_quarter := "2024-12-15" |}.

(** A store with one document, in status draft, and an empty audit log. *)
Definition draft_document : bia_document :=
  {| function_name := "PaymentsCore"; status := draft; version := "1.0" |}.

Definition draft_world : BiaController.World :=
  {| BiaController.db :=
       {| bia_documents := {["bia-1" := draft_document]}; bia_audit_log := [] |};
     BiaController.fusion_pushes := [] |}.

Definition approve_bia_1 : BiaController.ApproveBody :=
  {| BiaController.biaId := Some "bia-1"; BiaController.comments := Some "ok" |}.

Definition sample_fusion_env : DataIntegrationService.FusionEnv :=
  {| DataIntegrationService.random_record := 4711;
     DataIntegrationService.random_url := 1234;
     DataIntegrationService.next_review_date := "9/15/2025";
     DataIntegrationService.pushed_at := "2024-09-15T10:00:02.000Z" |}.

(** The predictive engine is unavailable: the process cannot be spawned,
    it exits with a non-zero code, or what it wrote does not parse. *)
Inductive unavailable (JSON_parse : string -> option value) (env : RoosterEnv) : Prop :=
| spawn_failed e :
    process_end env = spawn_error e -> unavailable JSON_parse env
| nonzero_exit code stderr :
    process_end env = close code stderr -> code <> 0%Z -> unavailable JSON_parse env
| malformed_output stderr data :
    process_end env = close 0 stderr -> output_written env = Some data ->
    JSON_parse data = None -> unavailable JSON_parse env.

(** The script is missing: python3 exits with code 2 and writes nothing. *)
Definition script_missing : RoosterEnv :=
  {| date_now_input := 1726394400000;
     date_now_output := 1726394400000;
     input_timestamp := "2024-09-15T10:00:00.000Z";
     result_timestamp := "2024-09-15T10:00:00.050Z";
     write_succeeds := true;
     output_written := None;
     process_end := close 2 "python3: can't open file 'rto_rpo_predictor.py'" |}.

(** [{ registryData: null, monitoringData: null }]. *)
Definition no_snapshots : value :=
  Obj ["registryData" ::= Null; "monitoringData" ::= Null].

(** A regional overlay of the documented shape: an object whose region is
    a string. *)
Definition overlay_ok (overlay : value) : bool :=
  match overlay with
  | Obj props => match get_member props "region" with
                 | Str _ => true
                 | _ => false
                 end
  | _ => false
  end.

(** No overlays requested, or an array of well-shaped overlays. *)
Definition overlays_ok (regionalOverlays : value) : bool :=
  match regionalOverlays with
  | Undefined | Null => true
  | Arr overlays => forallb overlay_ok overlays
  | _ => false
  end.

(** A value that can be printed in a logged message: its conversion to a
    string completes.  Strings, numbers, booleans, [null] and [undefined]
    can; an object whose own [toString] is no function cannot. *)
Definition loggable (v : value) : bool :=
  match interpolate v with
  | Normal _ => true
  | _ => false
  end.

(** A request as the generate route builds it: the function name can be
    logged, the function type is a string, every source failed or reports a
    usable confidence, and the overlays are well shaped. *)
Definition request_ok (req : BIARequest) : bool :=
  loggable (functionName req)
  && match functionType req with Str _ => true | _ => false end
  && forallb (reports_score (autoPopulatedData req)) all_sources
  && overlays_ok (regionalOverlays req).

Definition with_predictions (v : value) (req : BIARequest) : BIARequest :=
  {| functionName := functionName req;
     functionType := functionType req;
     driName := driName req;
     driTeam := driTeam req;
     regionalOverlays := regionalOverlays req;
     autoPopulatedData := set_slot Predictions v (autoPopulatedData req) |}.

(** The document assembled from its ten computed parts. *)
Definition assembled (env : Env) (req : BIARequest)
    (personnel business technology recovery risk iso overlays assessment : value) : value :=
  Obj [
    "id" ::= uuidv4 env;
    "function_name" ::= functionName req;
    "function_type" ::= functionType req;
    "dri_name" ::= driName req;
    "dri_team" ::= driTeam req;
    "generated_at" ::= now_iso env;
    "status" ::= "draft";
    "version" ::= "1.0";
    "personnel_information" ::= personnel;
    "business_impact" ::= business;
    "technology_dependencies" ::= technology;
    "recovery_requirements" ::= recovery;
    "risk_compliance" ::= risk;
    "iso_22301_compliance" ::= iso;
    "regional_overlays" ::= overlays;
    "predictive_analysis" ::= predictions (autoPopulatedData req);
    "data_sources" ::= generateDataSourceSummary (autoPopulatedData req);
    "confidence_assessment" ::= assessment
  ].

(** A request for the function type platform, without overlays. *)
Definition platform_request (d : AutoPopulatedData) : BIARequest :=
  {| functionName := "PaymentsCore";
     functionType := "platform";
     driName := "A. Owner";
     driTeam := "payments";
     regionalOverlays := Undefined;
     autoPopulatedData := d |}.

Definition empty_database : Database :=
  {| bia_documents := ∅; bia_audit_log := [] |}.

(** Stand-ins for [JSON.parse] and [JSON.stringify] where neither matters. *)
Definition never_parses : string -> option value := fun _ => None.
Definition prints_braces : value -> string := fun _ => "{}".

(** A request all of whose six payload slots are absent. *)
Definition degraded_request (name dri team overlays : value) (ft : string) : BIARequest :=
  {| functionName := name;
     functionType := Str ft;
     driName := dri;
     driTeam := team;
     regionalOverlays := overlays;
     autoPopulatedData := all_absent |}.

(** The four source-derived sections when they hold placeholders only. *)
Definition placeholder_personnel : value :=
  Obj [
    "team_size" ::= "Unknown";
    "key_personnel" ::= Arr [
      Obj ["name" ::= "Tech Lead (TBD)"; "role" ::= "Technical Leadership"; "backup" ::= "Senior Engineer"];
      Obj ["name" ::= "Product Manager (TBD)"; "role" ::= "Product Strategy"; "backup" ::= "Associate PM"];
      Obj ["name" ::= "Operations Manager (TBD)"; "role" ::= "Operations"; "backup" ::= "Senior Ops"]
    ];
    "escalation_policy" ::= "Standard escalation path";
    "on_call_schedule" ::= "24/7 rotation";
    "manager_chain" ::= strs ["Team Lead"; "Manager"; "Director"; "VP"];
    "business_hours" ::= "24/7 operations";
    "confidence_score" ::= 0.5;
    "data_sources" ::= strs ["HR Systems"; "PagerDuty"];
    "auto_populated" ::= Bool true
  ].

Definition placeholder_business_impact : value :=
  Obj [
    "daily_revenue_impact" ::= "TBD";
    "monthly_revenue_impact" ::= "TBD";
    "active_customers" ::= "TBD";
    "transaction_volume" ::= Obj ["daily" ::= "TBD"; "peak_hourly" ::= "TBD"];
    "customer_segments" ::= Obj ["enterprise" ::= "TBD"; "smb" ::= "TBD"; "consumer" ::= "TBD"];
    "impact_timeline" ::= Obj [
      "1_4_hours" ::= "Minimal customer impact, <$100K revenue";
      "4_24_hours" ::= "Moderate customer impact, $100K-$1M revenue";
      "1_7_days" ::= "Significant customer impact, $1M-$10M revenue";
      "7_plus_days" ::= "Severe customer impact, >$10M revenue"
    ];
    "predictive_impact" ::= Obj [
      "twelve_month_forecast" ::= "TBD";
      "risk_level" ::= "Medium";
      "improvement_potential" ::= "TBD"
    ];
    "confidence_score" ::= 0.6;
    "data_sources" ::= strs ["Financial Systems"; "Analytics APIs"; "Rooster Predictions"];
    "auto_populated" ::= Bool true
  ].

Definition placeholder_technology : value :=
  Obj [
    "core_technologies" ::= strs ["Unknown"];
    "service_dependencies" ::= strs ["Unknown"];
    "reliability_tier" ::= "Unknown";
    "deployment_info" ::= Obj [
      "regions" ::= strs ["Unknown"];
      "replicas" ::= "Unknown";
      "auto_scaling" ::= "Unknown"
    ];
    "documentation" ::= Obj [
      "runbook_url" ::= "TBD";
      "documentation_url" ::= "TBD";
      "slack_channel" ::= "TBD"
    ];
    "confidence_score" ::= 0.7;
    "data_sources" ::= strs ["Registry (Snowflake)"; "CMDB"];
    "auto_populated" ::= Bool true
  ].

Definition placeholder_recovery : value :=
  Obj [
    "rto" ::= Obj ["current" ::= "4 hours"; "target" ::= "2 hours"; "confidence" ::= 0.7];
    "rpo" ::= Obj ["current" ::= "1 hour"; "target" ::= "30 minutes"; "confidence" ::= 0.7];
    "current_availability" ::= "99.5%";
    "sla_target" ::= "99.9%";
    "mttr" ::= "TBD";
    "recovery_timeline" ::= Obj [
      "detection" ::= "0-15 minutes";
      "initial_response" ::= "15-30 minutes";
      "mitigation" ::= "30 minutes - 2 hours";
      "full_recovery" ::= "2-4 hours"
    ];
    "scenarios" ::= Obj [
      "best_case" ::= Obj ["rto" ::= "TBD"; "rpo" ::= "TBD"; "probability" ::= "25%"];
      "most_likely" ::= Obj ["rto" ::= "TBD"; "rpo" ::= "TBD"; "probability" ::= "50%"];
      "worst_case" ::= Obj ["rto" ::= "TBD"; "rpo" ::= "TBD"; "probability" ::= "25%"]
    ];
    "confidence_score" ::= 0.7;
    "data_sources" ::= strs ["Rooster Predictions"; "Monitoring Systems"; "Historical Data"];
    "auto_populated" ::= Bool true
  ].

(** The risk assessment of the ISO 22301 section without predictions. *)
Definition placeholder_risk_assessment : value :=
  Obj [
    "overall_risk" ::= "Medium";
    "risk_factors" ::= strs ["Standard operational risks"];
    "mitigation_recommendations" ::= strs ["Standard mitigation strategies"]
  ].

(** The values [data_completeness] can take: n / 6 * 100 for n = 0 .. 6. *)
Definition completeness_levels : list value :=
  [Num 0; Num 16.666666666666664; Num 33.333333333333329; Num 50;
   Num 66.666666666666657; Num 83.333333333333343; Num 100].

(** All six sources answer at 0.9. *)
Definition all_at_nine_tenths : AutoPopulatedData :=
  {| registry := scored "confidence_score" 0.9;
     pagerDuty := scored "confidence_score" 0.9;
     hr := scored "confidence_score" 0.9;
     financial := scored "confidence_score" 0.9;
     monitoring := scored "confidence_score" 0.9;
     predictions := scored "confidence_overall" 0.9 |}.

(** Does evaluating the overlays end in a TypeError?  It does when a null
    or undefined entry is reached after well-shaped ones, and when the
    value is truthy but no array. *)
Fixpoint reaches_null_entry (overlays : list value) : bool :=
  match overlays with
  | [] => false
  | Null :: _ | Undefined :: _ => true
  | overlay :: rest => overlay_ok overlay && reaches_null_entry rest
  end.

Definition overlays_throw (regionalOverlays : value) : bool :=
  match regionalOverlays with
  | Arr overlays => reaches_null_entry overlays
  | other => truthy other
  end.

(** A request with the mock-like payloads of [two_of_six] whose second
    overlay is null. *)
Definition null_overlay_request : BIARequest :=
  {| functionName := "PaymentsCore";
     functionType := "product";
     driName := "A. Owner";
     driTeam := "payments";
     regionalOverlays := Arr [Obj ["region" ::= "eu"]; Null];
     autoPopulatedData := two_of_six |}.

(** More stand-ins for [JSON.parse]: the output is the text null, or {}. *)
Definition parses_to_null : string -> option value := fun _ => Some Null.
Definition parses_to_empty_object : string -> option value := fun _ => Some (Obj []).

(** The engine runs, writes its output file and exits with code 0. *)
Definition engine_succeeds : RoosterEnv :=
  {| date_now_input := 1726394400000;
     date_now_output := 1726394400001;
     input_timestamp := "2024-09-15T10:00:00.000Z";
     result_timestamp := "2024-09-15T10:00:03.000Z";
     write_succeeds := true;
     output_written := Some "{}";
     process_end := close 0 "" |}.

(** A directory that already holds another file. *)
Definition one_other_file : FileSystem :=
  {["/Users/mshevchik/rooster_bia/rto_rpo_predictor.py" := "# predictor"]}.

(** The function types the generate route accepts. *)
Definition function_types : list string :=
  ["product"; "platform"; "support"; "infrastructure"; "compliance"].

(** [dataSourceStatus] when every adapter answered. *)
Definition all_fulfilled : value :=
  Obj [
    "registry" ::= "fulfilled";
    "pagerDuty" ::= "fulfilled";
    "hr" ::= "fulfilled";
    "financial" ::= "fulfilled";
    "monitoring" ::= "fulfilled"
  ].

(** The assessment of the five mock payloads with the fallback predictions:
    the mean of 0.7, 0.8, 0.6, 0.75, 0.9 and 0.6, rounded. *)
Definition fallback_assessment : value :=
  Obj [
    "overall_confidence" ::= 0.73;
    "data_completeness" ::= 100;
    "confidence_level" ::= "Medium";
    "recommendations" ::= Arr []
  ].

Definition sample_check_env : DataIntegrationService.CheckEnv :=
  {| DataIntegrationService.random_exists := 0.7;
     DataIntegrationService.random_check_id := 42;
     DataIntegrationService.check_last_updated := "9/1/2024";
     DataIntegrationService.random_action := 0.2 |}.

Definition sample_generate_env : BiaController.GenerateEnv :=
  {| BiaController.registry_time := "2024-09-15T10:00:00.001Z";
     BiaController.pagerduty_time := "2024-09-15T10:00:00.002Z";
     BiaController.hr_time := "2024-09-15T10:00:00.003Z";
     BiaController.financial_time := "2024-09-15T10:00:00.004Z";
     BiaController.monitoring_time := "2024-09-15T10:00:00.005Z";
     BiaController.rooster := script_missing;
     BiaController.bia_env := sample_env;
     BiaController.fusion_check := sample_check_env;
     BiaController.responded_at := "2024-09-15T10:00:00.100Z" |}.

Definition payments_body (ft : string) (overlays : option value) : BiaController.GenerateBody :=
  {| BiaController.body_functionName := Some "PaymentsCore";
     BiaController.body_functionType := Some ft;
     BiaController.body_driName := None;
     BiaController.body_driTeam := Some "payments";
     BiaController.body_regionalOverlays := overlays |}.

(** One request to the BIA routes. *)
Inductive request : Type :=
| PostGenerate (env : BiaController.GenerateEnv) (body : BiaController.GenerateBody)
| PostApprove (env : DataIntegrationService.FusionEnv) (approvedAt : string)
    (body : BiaController.ApproveBody)
| GetById (id : string)
| GetList (filters : value).

(** The store, the pushes and the temporary directory a request leaves
    behind. *)
Definition serve (JSON_parse : string -> option value) (JSON_stringify : value -> string)
    (r : request) (s : BiaController.World * FileSystem) : BiaController.World * FileSystem :=
  match r with
  | PostGenerate env body =>
      let '(_, w, fs) :=
        BiaController.generate JSON_parse JSON_stringify env body (fst s) (snd s) in
      (w, fs)
  | PostApprove env approvedAt body =>
      (snd (BiaController.approve env approvedAt body (fst s)), snd s)
  | GetById id => (snd (BiaController.getById id (fst s)), snd s)
  | GetList filters => (snd (BiaController.listAll filters (fst s)), snd s)
  end.

Definition serve_all (JSON_parse : string -> option value) (JSON_stringify : value -> string)
    (requests : list request) (s : BiaController.World * FileSystem)
    : BiaController.World * FileSystem :=
  fold_left (fun s r => serve JSON_parse JSON_stringify r s) requests s.

(** The answer of GET /api/bia/:id when no document was found. *)
Definition not_found : BiaController.Response :=
  {| BiaController.http_status := 404;
     BiaController.json := Obj ["error" ::= "BIA not found"] |}.

(** The data sources [test-connection] knows. *)
Definition adapters : list string := ["registry"; "pagerduty"; "hr"; "financial"; "monitoring"].

(** The key under which each adapter echoes the name it was called with. *)
Definition echo_key (source : string) : string :=
  if String.eqb source "registry" then "app_name"
  else if String.eqb source "hr" then "team_name"
  else if String.eqb source "financial" then "function_name"
  else "service_name".

(** A number, boolean or array that is truthy: a function name that is
    passed on as it is and is no string. *)
Definition truthy_non_string (v : value) : bool :=
  match v with
  | Num _ | Bool _ | Arr _ => truthy v
  | _ => false
  end.

Definition is_rejected (check : option value) : bool :=
  match check with Some _ => false | None => true end.

(** Both paths of the Rooster installation are accessible. *)
Definition rooster_available (access : string -> option string) : bool :=
  match access "/Users/mshevchik/rooster_bia" with
  | None =>
      match access "/Users/mshevchik/rooster_bia/rto_rpo_predictor.py" with
      | None => true
      | Some _ => false
      end
  | Some _ => false
  end.

(** The Fusion address of a record id. *)
Definition url_of_record (record_id : value) : value :=
  match record_id with
  | Str id => Str ("https://fusion.block.xyz/bia/" ++ id)
  | _ => Undefined
  end.

(** The rows of the rule tables: what the two rule-derived sections hold for
    a function type.  A type outside the five gets the default row. *)
Record rule_row : Type := {
  row_classification : string;
  row_mtpd : string;
  row_mbco : string;
  row_resources : string;
  row_requirements : list string;
  row_data_classification : string;
  row_regulatory_impact : string
}.

Definition product_row : rule_row :=
  {| row_classification := "Critical - Customer Facing";
     row_mtpd := "2 hours";
     row_mbco := "80% capacity within MTPD";
     row_resources := "Dedicated DR site, 24/7 support";
     row_requirements := ["PCI-DSS"; "SOX Controls"; "Data Privacy"];
     row_data_classification := "PII/Financial";
     row_regulatory_impact := "High - Customer facing" |}.

Definition platform_row : rule_row :=
  {| row_classification := "Important - Business Enabling";
     row_mtpd := "4 hours";
     row_mbco := "60% capacity within MTPD";
     row_resources := "Hot standby, business hours support";
     row_requirements := ["SOX Controls"; "Data Privacy"; "Security Standards"];
     row_data_classification := "Internal/Confidential";
     row_regulatory_impact := "Medium - Internal operations" |}.

Definition support_row : rule_row :=
  {| row_classification := "Supporting - Internal Operations";
     row_mtpd := "24 hours";
     row_mbco := "50% capacity within MTPD";
     row_resources := "Workarounds, extended hours support";
     row_requirements := ["Data Privacy"; "Access Controls"];
     row_data_classification := "Internal/Confidential";
     row_regulatory_impact := "Medium - Internal operations" |}.

Definition infrastructure_row : rule_row :=
  {| row_classification := "Critical - Foundation Service";
     row_mtpd := "1 hour";
     row_mbco := "95% capacity within MTPD";
     row_resources := "Real-time replication, immediate response";
     row_requirements := ["Security Standards"; "Audit Logging"; "Change Management"];
     row_data_classification := "Internal/Confidential";
     row_regulatory_impact := "Medium - Internal operations" |}.

Definition compliance_row : rule_row :=
  {| row_classification := "Important - Regulatory Required";
     row_mtpd := "8 hours";
     row_mbco := "70% capacity within MTPD";
     row_resources := "Backup systems, priority restoration";
     row_requirements := ["All Applicable Standards"; "Regulatory Reporting"; "Audit Trail"];
     row_data_classification := "Internal/Confidential";
     row_regulatory_impact := "Medium - Internal operations" |}.

Definition default_row : rule_row :=
  {| row_classification := "To Be Determined";
     row_mtpd := "4 hours";
     row_mbco := "60% capacity within MTPD";
     row_resources := "Standard backup procedures";
     row_requirements := ["Standard Controls"];
     row_data_classification := "Internal/Confidential";
     row_regulatory_impact := "Medium - Internal operations" |}.

Definition rule_row_of (ft : string) : rule_row :=
  if String.eqb ft "product" then product_row
  else if String.eqb ft "platform" then platform_row
  else if String.eqb ft "support" then support_row
  else if String.eqb ft "infrastructure" then infrastructure_row
  else if String.eqb ft "compliance" then compliance_row
  else default_row.

(** The risk and compliance section that holds a given row. *)
Definition risk_compliance_of (row : rule_row) : value :=
  Obj [
    "compliance_requirements" ::= strs (row_requirements row);
    "data_classification" ::= row_data_classification row;
    "regulatory_impact" ::= row_regulatory_impact row;
    "security_considerations" ::= strs [
      "Data encryption in transit and at rest";
      "Access controls and authentication";
      "Audit logging and monitoring";
      "Incident response procedures"
    ];
    "confidence_score" ::= 0.8;
    "data_sources" ::= strs ["Compliance Database"; "Security Policies"];
    "auto_populated" ::= Bool true
  ].

(** The ISO 22301 section that holds a given row and risk assessment. *)
Definition iso_22301_of (env : Env) (row : rule_row) (risk_assessment : value) : value :=
  Obj [
    "business_function_classification" ::= row_classification row;
    "mtpd" ::= row_mtpd row;
    "mbco" ::= row_mbco row;
    "resource_requirements" ::= row_resources row;
    "continuity_strategies" ::= strs [
      "Automated failover procedures";
      "Geographic redundancy";
      "Data backup and recovery";
      "Alternative processing sites"
    ];
    "testing_requirements" ::= Obj [
      "frequency" ::= "Quarterly";
      "scope" ::= "Full system recovery";
      "success_criteria" ::= "RTO/RPO targets met";
      "next_test_date" ::= next_quarter env
    ];
    "risk_assessment" ::= risk_assessment;
    "confidence_score" ::= 0.85;
    "data_sources" ::= strs ["ISO 22301 Framework"; "BCM Policies"; "Rooster Analysis"];
    "auto_populated" ::= Bool true
  ].

(** An object whose own [toString] is the number 1: valid JSON that cannot
    be converted to a string. *)
Definition unprintable : value := Obj ["toString" ::= 1].

(** ** Helper lemmas *)

Example Math_round_half : Math_round 79.5 = 80 /\ Math_round (-2.5) = -2 /\
  Math_round 0.49999999999999994 = 0 /\ Math_round 2.4 = 2.
Proof. repeat split; reflexivity. Qed.

Lemma collect_scores_filter d :
  collect_scores d = List.filter truthy (map (score_read d) all_sources).
Proof.
  unfold collect_scores, push_score, score_read, all_sources; simpl.
  repeat match goal with |- context [truthy ?v] => destruct (truthy v) end;
    reflexivity.
Qed.

Lemma reduce_add_numbers (l : list float) (acc : float) :
  reduce_add (Num acc) (map Num l) = Normal (Num (fold_left PrimFloat.add l acc)).
Proof.
  revert acc; induction l as [|f l IH]; intros acc; simpl; [reflexivity|].
  apply IH.
Qed.

(** Under [reports_score], what is pushed for the sources of a list is the
    confidence of those that succeeded, in order. *)
Lemma pushed_scores d (l : list source) :
  forallb (reports_score d) l = true ->
  List.filter truthy (map (score_read d) l)
  = map Num (map (score_of d) (List.filter (succeeded d) l)).
Proof.
  induction l as [|s l IH]; simpl; [reflexivity|].
  intros H; apply andb_prop in H as [Hs Hl]; specialize (IH Hl).
  unfold reports_score in Hs.
  destruct (slot s d) eqn:Es; try discriminate.
  - assert (Er : score_read d s = Undefined) by (unfold score_read; rewrite Es; reflexivity).
    assert (Ep : succeeded d s = false) by (unfold succeeded; rewrite Es; reflexivity).
    rewrite Er, Ep; simpl; exact IH.
  - destruct (score_read d s) eqn:Er; try discriminate.
    assert (Ep : succeeded d s = true) by (unfold succeeded; rewrite Es; reflexivity).
    assert (Ef : score_of d s = f) by (unfold score_of; rewrite Er; reflexivity).
    rewrite Hs, Ep; simpl; rewrite IH, Ef; reflexivity.
Qed.

(** The summary lists the sources whose slot holds a payload, in order. *)
Lemma summary_entries d :
  generateDataSourceSummary d
  = Arr (map (summary_entry d) (List.filter (succeeded d) all_sources)).
Proof.
  unfold generateDataSourceSummary, push_source, succeeded, all_sources; simpl.
  repeat match goal with |- context [truthy ?v] => destruct (truthy v) end;
    reflexivity.
Qed.

(** The aggregator on payloads whose confidences are usable numbers. *)
Lemma calculate_on_numbers d :
  forallb (reports_score d) all_sources = true ->
  calculateConfidenceScores d
  = Normal (assessment (map (score_of d) (List.filter (succeeded d) all_sources))).
Proof.
  intros H. unfold calculateConfidenceScores.
  rewrite collect_scores_filter, (pushed_scores d all_sources H).
  generalize (map (score_of d) (List.filter (succeeded d) all_sources)); intros l.
  rewrite length_map.
  destruct l as [|f l]; [reflexivity|].
  change (0 <? length (f :: l))%nat with true; cbv iota.
  rewrite reduce_add_numbers. reflexivity.
Qed.

Lemma filter_none {A} (p : A -> bool) (l : list A) :
  forallb (fun x => negb (p x)) l = true -> List.filter p l = [].
Proof.
  induction l as [|x l IH]; simpl; [reflexivity|].
  intros H; apply andb_prop in H as [Hx Hl].
  apply negb_true_iff in Hx; rewrite Hx; auto.
Qed.

Lemma forallb_on_map {A B} (f : A -> B) (p : B -> bool) (l : list A) :
  forallb p (map f l) = forallb (fun x => p (f x)) l.
Proof. induction l as [|x l IH]; simpl; [reflexivity|]. rewrite IH; reflexivity. Qed.

(** The aggregator depends on the payloads only through the pushed scores. *)
Lemma calculate_ext d d' :
  collect_scores d = collect_scores d' ->
  calculateConfidenceScores d = calculateConfidenceScores d'.
Proof. unfold calculateConfidenceScores; intros ->; reflexivity. Qed.

Lemma score_read_set_same s v d : score_read (set_slot s v d) s = (v ?. score_key s)%js.
Proof. destruct s; reflexivity. Qed.

Lemma score_read_set_other s s' v d :
  s <> s' -> score_read (set_slot s v d) s' = score_read d s'.
Proof. destruct s, s'; intros H; try reflexivity; congruence. Qed.

Lemma slot_set_same s v d : slot s (set_slot s v d) = v.
Proof. destruct s; reflexivity. Qed.

(** ** The confidence aggregator *)

(** C3, as the code has it: with the six confidences 0.9, 0.8, 0.6, 0.75,
    0.9 and 0.82 the assessment has overall_confidence 0.8 (the mean
    0.795 rounded to two decimals) and data_completeness 100, but its
    confidence_level is "Medium": the band is taken from the unrounded mean,
    which is below 0.8.  No recommendation is made. *)
Theorem full_success_assessment :
  calculateConfidenceScores full_success
  = Normal (Obj [
      "overall_confidence" ::= 0.8;
      "data_completeness" ::= 100;
      "confidence_level" ::= "Medium";
      "recommendations" ::= Arr []
    ]).
Proof. vm_compute. reflexivity. Qed.

(** C3 as stated fails: the confidence_level of that assessment is not
    "High". *)
Lemma full_success_level_not_High :
  member "confidence_level" (calculateConfidenceScores full_success) = Normal (Str "Medium")
  /\ member "confidence_level" (calculateConfidenceScores full_success) <> Normal (Str "High").
Proof.
  assert (E : member "confidence_level" (calculateConfidenceScores full_success)
              = Normal (Str "Medium")) by (vm_compute; reflexivity).
  split; [exact E|]. rewrite E. discriminate.
Qed.

(** In whatever order the six confidences are summed, their mean stays
    below the 0.8 threshold and rounds to 0.8. *)
Lemma full_success_any_order :
  forallb (fun l => (mean l <? 0.8) && (Math_round (mean l * 100) / 100 =? 0.8))
          (permutations [0.9; 0.8; 0.6; 0.75; 0.9; 0.82]) = true.
Proof. vm_compute. reflexivity. Qed.

(** C10: when no source contributes a confidence (each slot is null or its
    payload has no truthy score), the assessment is overall_confidence 0.5,
    data_completeness 0, confidence_level "Low" and the three fixed
    recommendations. *)
Theorem no_score_assessment (d : AutoPopulatedData) :
  forallb (fun s => negb (truthy (score_read d s))) all_sources = true ->
  calculateConfidenceScores d
  = Normal (Obj [
      "overall_confidence" ::= 0.5;
      "data_completeness" ::= 0;
      "confidence_level" ::= "Low";
      "recommendations" ::= strs [
        "Verify data source connections";
        "Update missing information";
        "Schedule data validation review"
      ]
    ]).
Proof.
  intros H. unfold calculateConfidenceScores.
  rewrite collect_scores_filter.
  rewrite (filter_none truthy (map (score_read d) all_sources)).
  - vm_compute. reflexivity.
  - rewrite forallb_on_map. exact H.
Qed.

Lemma no_score_assessment_witness :
  calculateConfidenceScores all_absent
  = Normal (Obj [
      "overall_confidence" ::= 0.5;
      "data_completeness" ::= 0;
      "confidence_level" ::= "Low";
      "recommendations" ::= strs [
        "Verify data source connections";
        "Update missing information";
        "Schedule data validation review"
      ]
    ]).
Proof. apply (no_score_assessment all_absent). reflexivity. Defined.

Lemma source_eq_dec (s s' : source) : {s = s'} + {s <> s'}.
Proof. decide equality. Qed.

(** A falsy score is pushed no more than the score of a null slot. *)
Lemma unscored_like_null s v d (l : list source) :
  truthy (v ?. score_key s)%js = false ->
  List.filter truthy (map (score_read (set_slot s v d)) l)
  = List.filter truthy (map (score_read (set_slot s Null d)) l).
Proof.
  intros Hf. induction l as [|s' l IH]; simpl; [reflexivity|].
  destruct (source_eq_dec s s') as [<-|Hne].
  - rewrite !score_read_set_same, Hf. simpl. exact IH.
  - rewrite !(score_read_set_other s s') by assumption. rewrite IH. reflexivity.
Qed.

Lemma summary_lists_present d s :
  truthy (slot s d) = true ->
  exists entries, generateDataSourceSummary d = Arr entries
                  /\ In (summary_entry d s) entries.
Proof.
  intros Hp. rewrite summary_entries. eexists; split; [reflexivity|].
  apply in_map, filter_In. split; [destruct s; simpl; tauto | exact Hp].
Qed.

(** C9: a payload that is present but whose confidence is exactly 0 counts
    as absent in the assessment (its score enters neither the mean nor the
    completeness: the assessment is the one obtained with that slot null),
    while the data_sources summary still lists the source, with
    confidence 0. *)
Theorem zero_confidence_is_absent (s : source) (d : AutoPopulatedData)
    (props : list (string * value)) (z : float) :
  assoc (score_key s) props = Some (Num z) ->
  (z =? 0) = true ->
  calculateConfidenceScores (set_slot s (Obj props) d)
  = calculateConfidenceScores (set_slot s Null d)
  /\ exists entries,
       generateDataSourceSummary (set_slot s (Obj props) d) = Arr entries
       /\ In (summary_entry (set_slot s (Obj props) d) s) entries
       /\ (summary_entry (set_slot s (Obj props) d) s ?. "confidence")%js = Num z.
Proof.
  intros Hk Hz.
  assert (Hr : (Obj props ?. score_key s)%js = Num z).
  { unfold opt_field, get_member. rewrite Hk. reflexivity. }
  split.
  - apply calculate_ext. rewrite !collect_scores_filter.
    apply unscored_like_null. rewrite Hr. simpl. rewrite Hz. reflexivity.
  - destruct (summary_lists_present (set_slot s (Obj props) d) s) as (entries & He & Hin).
    { rewrite slot_set_same. reflexivity. }
    exists entries. repeat split; [exact He | exact Hin |].
    unfold summary_entry. change ((Obj ?ps ?. "confidence")%js) with (get_member ps "confidence").
    unfold get_member; simpl. rewrite score_read_set_same. exact Hr.
Qed.

Lemma zero_confidence_is_absent_witness :
  calculateConfidenceScores registry_at_zero = calculateConfidenceScores all_absent
  /\ exists entries,
       generateDataSourceSummary registry_at_zero = Arr entries
       /\ In (summary_entry registry_at_zero Registry) entries
       /\ (summary_entry registry_at_zero Registry ?. "confidence")%js = Num 0.
Proof.
  apply (zero_confidence_is_absent Registry all_absent
           ["confidence_score" ::= 0; "last_updated" ::= "2024-09-15T00:00:00.000Z"] 0);
    reflexivity.
Defined.

(** C4, as the code has it: when every source either failed (null slot) or
    delivered a payload whose confidence is a number other than 0 and NaN,
    and S is the set of sources that succeeded, then data_completeness is
    |S| / 6 * 100, overall_confidence is the mean of the confidences of the
    sources in S alone (0.5 when S is empty), rounded to two decimals, and
    the data_sources summary lists exactly the sources of S. *)
Theorem completeness_and_mean_over_succeeded (d : AutoPopulatedData) :
  forallb (reports_score d) all_sources = true ->
  member "data_completeness" (calculateConfidenceScores d)
  = Normal (Num (of_nat (length (List.filter (succeeded d) all_sources)) / 6 * 100))
  /\ member "overall_confidence" (calculateConfidenceScores d)
     = Normal (Num (Math_round
                      (mean (map (score_of d) (List.filter (succeeded d) all_sources)) * 100)
                    / 100))
  /\ generateDataSourceSummary d
     = Arr (map (summary_entry d) (List.filter (succeeded d) all_sources)).
Proof.
  intros H. rewrite (calculate_on_numbers d H), summary_entries.
  unfold assessment. rewrite length_map. repeat split.
Qed.

Lemma completeness_and_mean_over_succeeded_witness :
  member "data_completeness" (calculateConfidenceScores two_of_six)
  = Normal (Num (of_nat (length (List.filter (succeeded two_of_six) all_sources)) / 6 * 100))
  /\ member "overall_confidence" (calculateConfidenceScores two_of_six)
     = Normal (Num (Math_round
                      (mean (map (score_of two_of_six)
                                 (List.filter (succeeded two_of_six) all_sources)) * 100)
                    / 100))
  /\ generateDataSourceSummary two_of_six
     = Arr (map (summary_entry two_of_six) (List.filter (succeeded two_of_six) all_sources)).
Proof. apply (completeness_and_mean_over_succeeded two_of_six). reflexivity. Defined.

Example two_of_six_assessment :
  List.filter (succeeded two_of_six) all_sources = [HR; Monitoring]
  /\ calculateConfidenceScores two_of_six
     = Normal (Obj [
         "overall_confidence" ::= 0.75;
         "data_completeness" ::= 33.333333333333329;
         "confidence_level" ::= "Medium";
         "recommendations" ::= Arr []
       ]).
Proof. split; vm_compute; reflexivity. Qed.

(** C4 as stated fails: the registry alone succeeds, with confidence 0; one
    source of six succeeded (and is listed in the summary), yet
    data_completeness is 0 and not 1 / 6 * 100. *)
Lemma completeness_misses_zero_score :
  List.filter (succeeded registry_at_zero) all_sources = [Registry]
  /\ generateDataSourceSummary registry_at_zero
     = Arr [summary_entry registry_at_zero Registry]
  /\ member "data_completeness" (calculateConfidenceScores registry_at_zero)
     = Normal (Num 0)
  /\ (of_nat 1 / 6 * 100 =? 0) = false.
Proof. repeat split; vm_compute; reflexivity. Qed.

(** ** Section confidence *)

Lemma read_or_default d s (dflt : float) :
  reports_score d s = true ->
  (score_read d s || dflt)%js = Num (contribution d s dflt).
Proof.
  unfold reports_score, contribution, succeeded, score_of, js_or.
  destruct (slot s d) eqn:Es; try discriminate.
  - intros _. unfold score_read. rewrite Es. reflexivity.
  - destruct (score_read d s) eqn:Er; try discriminate.
    intros ->. reflexivity.
Qed.

Lemma reports_score_each d s :
  forallb (reports_score d) all_sources = true -> reports_score d s = true.
Proof.
  intros H. rewrite forallb_forall in H. apply H. destruct s; simpl; tauto.
Qed.

Lemma personnel_score d :
  reports_score d HR = true -> reports_score d PagerDuty = true ->
  member "confidence_score" (generatePersonnelSection (hr d) (pagerDuty d))
  = Normal (Num (fmin (contribution d HR 0.5) (contribution d PagerDuty 0.5))).
Proof.
  intros H1 H2. unfold generatePersonnelSection.
  change (hr d ?. "confidence_score")%js with (score_read d HR).
  change (pagerDuty d ?. "confidence_score")%js with (score_read d PagerDuty).
  rewrite (read_or_default d HR 0.5 H1), (read_or_default d PagerDuty 0.5 H2).
  reflexivity.
Qed.

Lemma recovery_score d :
  reports_score d Predictions = true -> reports_score d Monitoring = true ->
  member "confidence_score" (generateRecoverySection (predictions d) (monitoring d))
  = Normal (Num (fmin (contribution d Predictions 0.7) (contribution d Monitoring 0.7))).
Proof.
  intros H1 H2. unfold generateRecoverySection.
  change (predictions d ?. "confidence_overall")%js with (score_read d Predictions).
  change (monitoring d ?. "confidence_score")%js with (score_read d Monitoring).
  rewrite (read_or_default d Predictions 0.7 H1), (read_or_default d Monitoring 0.7 H2).
  reflexivity.
Qed.

Lemma technology_score d :
  reports_score d Registry = true ->
  member "confidence_score" (generateTechnologySection (registry d))
  = Normal (Num (contribution d Registry 0.7)).
Proof.
  intros H. unfold generateTechnologySection, member.
  change (registry d ?. "confidence_score")%js with (score_read d Registry).
  rewrite (read_or_default d Registry 0.7 H). reflexivity.
Qed.

Lemma business_impact_score d (pred : value) :
  reports_score d Financial = true ->
  member "confidence_score" (generateBusinessImpactSection (financial d) pred)
  = Normal (Num (contribution d Financial 0.6)).
Proof.
  intros H. unfold generateBusinessImpactSection.
  change (financial d ?. "confidence_score")%js with (score_read d Financial).
  rewrite (read_or_default d Financial 0.6 H). reflexivity.
Qed.

Lemma rule_derived_scores (env : Env) (ft : string) (reg pred : value) :
  member "confidence_score" (generateRiskComplianceSection reg (Str ft)) = Normal (Num 0.8)
  /\ member "confidence_score" (generateISO22301Section env (Str ft) pred) = Normal (Num 0.85).
Proof. split; reflexivity. Qed.

(** C2, as the code has it.  Let every source either have failed or have
    delivered a usable numeric confidence, and let a failed source
    contribute the default of the section.  Then the personnel section has
    the minimum of the HR and PagerDuty contributions (default 0.5), the
    recovery section the minimum of the predictions and monitoring
    contributions (default 0.7), the technology section the registry
    contribution (default 0.7), and the business-impact section, when the
    predictions are absent, the financial contribution (default 0.6).  The
    rule-derived sections have the fixed scores 0.8 and 0.85. *)
Theorem section_confidence_policy (d : AutoPopulatedData) (env : Env) (ft : string) :
  forallb (reports_score d) all_sources = true ->
  member "confidence_score" (generatePersonnelSection (hr d) (pagerDuty d))
  = Normal (Num (fmin (contribution d HR 0.5) (contribution d PagerDuty 0.5)))
  /\ member "confidence_score" (generateRecoverySection (predictions d) (monitoring d))
     = Normal (Num (fmin (contribution d Predictions 0.7) (contribution d Monitoring 0.7)))
  /\ member "confidence_score" (generateTechnologySection (registry d))
     = Normal (Num (contribution d Registry 0.7))
  /\ member "confidence_score" (generateBusinessImpactSection (financial d) Null)
     = Normal (Num (contribution d Financial 0.6))
  /\ member "confidence_score" (generateRiskComplianceSection (registry d) (Str ft))
     = Normal (Num 0.8)
  /\ member "confidence_score" (generateISO22301Section env (Str ft) (predictions d))
     = Normal (Num 0.85).
Proof.
  intros H.
  pose proof (reports_score_each d) as E.
  repeat split.
  - apply personnel_score; apply E, H.
  - apply recovery_score; apply E, H.
  - apply technology_score; apply E, H.
  - apply business_impact_score; apply E, H.
Qed.

Lemma section_confidence_policy_witness :
  member "confidence_score" (generatePersonnelSection (hr two_of_six) (pagerDuty two_of_six))
  = Normal (Num (fmin (contribution two_of_six HR 0.5) (contribution two_of_six PagerDuty 0.5)))
  /\ member "confidence_score"
       (generateRecoverySection (predictions two_of_six) (monitoring two_of_six))
     = Normal (Num (fmin (contribution two_of_six Predictions 0.7)
                         (contribution two_of_six Monitoring 0.7)))
  /\ member "confidence_score" (generateTechnologySection (registry two_of_six))
     = Normal (Num (contribution two_of_six Registry 0.7))
  /\ member "confidence_score" (generateBusinessImpactSection (financial two_of_six) Null)
     = Normal (Num (contribution two_of_six Financial 0.6))
  /\ member "confidence_score"
       (generateRiskComplianceSection (registry two_of_six) (Str "platform"))
     = Normal (Num 0.8)
  /\ member "confidence_score"
       (generateISO22301Section sample_env (Str "platform") (predictions two_of_six))
     = Normal (Num 0.85).
Proof.
  apply (section_confidence_policy two_of_six sample_env "platform"). reflexivity.
Defined.

(** The section scores when both sources of a section succeed, when one
    does, and when none does. *)
Example section_scores_by_case :
  member "confidence_score"
    (generatePersonnelSection (scored "confidence_score" 0.9) (scored "confidence_score" 0.8))
  = Normal (Num 0.8)
  /\ member "confidence_score" (generatePersonnelSection (scored "confidence_score" 0.3) Null)
     = Normal (Num 0.3)
  /\ member "confidence_score" (generatePersonnelSection Null Null) = Normal (Num 0.5)
  /\ member "confidence_score" (generateBusinessImpactSection Null Null) = Normal (Num 0.6)
  /\ member "confidence_score" (generateTechnologySection Null) = Normal (Num 0.7)
  /\ member "confidence_score" (generateRecoverySection Null Null) = Normal (Num 0.7).
Proof. repeat split; vm_compute; reflexivity. Qed.

(** C2 as stated fails.  With HR answering at 0.9 and PagerDuty failed, the
    personnel section draws from exactly one successful source and yet has
    0.5, not 0.9; and the ISO 22301 section, with its one source (the
    predictions) failed, has 0.85, outside [0.5, 0.7]. *)
Lemma single_source_not_inherited :
  List.filter (succeeded hr_only) [HR; PagerDuty] = [HR]
  /\ score_of hr_only HR = 0.9
  /\ member "confidence_score" (generatePersonnelSection (hr hr_only) (pagerDuty hr_only))
     = Normal (Num 0.5)
  /\ (0.5 =? 0.9) = false
  /\ member "confidence_score" (generateISO22301Section sample_env (Str "product") Null)
     = Normal (Num 0.85)
  /\ (0.85 <=? 0.7) = false.
Proof. repeat split; vm_compute; reflexivity. Qed.

(** The business-impact section reads the predictions but takes its
    confidence from the financial payload alone. *)
Example business_impact_ignores_predictions :
  member "confidence_score"
    (generateBusinessImpactSection (scored "confidence_score" 0.9)
                                   (scored "confidence_overall" 0.6))
  = Normal (Num 0.9).
Proof. vm_compute. reflexivity. Qed.

(** ** Rule tables *)

Lemma assoc_none (k : string) (table : list (string * value)) :
  ~ In k (map fst table) -> assoc k table = None.
Proof.
  induction table as [|[k' v] table IH]; simpl; [reflexivity|].
  intros H. destruct (String.eqb_spec k k') as [->|_]; [tauto|].
  apply IH. tauto.
Qed.

Lemma assoc_entry (k : string) (table : list (string * value)) (v : value) :
  assoc k table = Some v -> In v (map snd table).
Proof.
  induction table as [|[k' v'] table IH]; simpl; [discriminate|].
  destruct (String.eqb k k'); [intros [= ->]; auto | auto].
Qed.

(** A key that is neither in the table nor inherited gives the default. *)
Lemma index_or_default (table : list (string * value)) (dflt : value) (k : string) :
  ~ In k (map fst table) -> Object_prototype k = None ->
  (v ← index table (Str k); Normal (v || dflt)%js) = Normal dflt.
Proof.
  intros Hk Hp. unfold index, to_key, get_member; simpl.
  rewrite (assoc_none k table Hk), Hp. reflexivity.
Qed.

Lemma Object_prototype_native (k : string) (v : value) :
  Object_prototype k = Some v -> exists name, v = Native name.
Proof.
  unfold Object_prototype.
  destruct (String.eqb k "constructor"); [intros [= <-]; eauto|].
  destruct (String.eqb k "__proto__"); [intros [= <-]; eauto|].
  destruct (existsb _ _); [intros [= <-]; eauto | discriminate].
Qed.

(** A lookup with a string key always ends normally, and with a present
    value when the entries of the table and the default are present. *)
Lemma index_or_default_populated (table : list (string * value)) (dflt : value) (k : string) :
  forallb (fun v => truthy v && populated v) (map snd table) = true ->
  populated dflt = true ->
  exists v, (x ← index table (Str k); Normal (x || dflt)%js) = Normal v
            /\ populated v = true.
Proof.
  intros Ht Hp. unfold index, to_key, get_member, js_or; simpl.
  destruct (assoc k table) as [v|] eqn:Ea.
  - rewrite forallb_forall in Ht.
    destruct (andb_prop _ _ (Ht v (assoc_entry k table v Ea))) as [Hv1 Hv2].
    rewrite Hv1. eauto.
  - destruct (Object_prototype k) as [v|] eqn:Eo; simpl.
    + destruct (Object_prototype_native k v Eo) as [name ->]. simpl. eauto.
    + eauto.
Qed.

(** For a function type that is none of the five keys and no property name
    of [Object.prototype], the rule tables give their default rows. *)
Lemma unknown_function_type_defaults (k : string) :
  ~ In k ["product"; "platform"; "support"; "infrastructure"; "compliance"] ->
  Object_prototype k = None ->
  getBCMClassification (Str k) = Normal (Str "To Be Determined")
  /\ getMTPD (Str k) = Normal (Str "4 hours")
  /\ getMBCO (Str k) = Normal (Str "60% capacity within MTPD")
  /\ getResourceRequirements (Str k) = Normal (Str "Standard backup procedures")
  /\ getComplianceRequirements (Str k) = Normal (strs ["Standard Controls"]).
Proof.
  intros Hk Hp. repeat split; apply index_or_default; assumption.
Qed.

(** The same for a region code that is none of na, eu, apac. *)
Lemma unknown_region_defaults (k : string) :
  ~ In k ["na"; "eu"; "apac"] ->
  Object_prototype k = None ->
  getLegalEntity (Str k) = Normal (Str "TBD")
  /\ getRegulatoryFramework (Str k) = Normal (Str "Local Regulations")
  /\ getDataResidency (Str k) = Normal (Str "Local Requirements")
  /\ getRegionalRTO (Str k) = Normal (Str "4 hours")
  /\ getRegionalRPO (Str k) = Normal (Str "1 hour").
Proof.
  intros Hk Hp. repeat split; apply index_or_default; assumption.
Qed.

Example unknown_keys :
  getLegalEntity (Str "latam") = Normal (Str "TBD")
  /\ getBCMClassification (Str "research") = Normal (Str "To Be Determined").
Proof. split; reflexivity. Qed.

(** C5 fails on the code for a key that names a property every object
    inherits.  For the region code (or function type) "constructor" no
    lookup raises, but none returns its default row: each returns the
    built-in [Object] function, and for "toString" the inherited method. *)
Theorem inherited_key_is_not_defaulted :
  getLegalEntity (Str "constructor") = Normal (Native "Object")
  /\ getRegulatoryFramework (Str "constructor") = Normal (Native "Object")
  /\ getDataResidency (Str "constructor") = Normal (Native "Object")
  /\ getRegionalRTO (Str "constructor") = Normal (Native "Object")
  /\ getRegionalRPO (Str "constructor") = Normal (Native "Object")
  /\ getBCMClassification (Str "constructor") = Normal (Native "Object")
  /\ getMTPD (Str "constructor") = Normal (Native "Object")
  /\ getMBCO (Str "constructor") = Normal (Native "Object")
  /\ getResourceRequirements (Str "constructor") = Normal (Native "Object")
  /\ getComplianceRequirements (Str "constructor") = Normal (Native "Object")
  /\ getLegalEntity (Str "toString") = Normal (Native "Object.prototype.toString")
  /\ generateRegionalOverlays (Arr [Obj ["region" ::= "constructor"]])
     = Normal (Arr [Obj [
         "region" ::= "constructor";
         "legal_entity" ::= Native "Object";
         "regulatory_framework" ::= Native "Object";
         "data_residency" ::= Native "Object";
         "local_requirements" ::=
           strs ["Data localization"; "Local incident reporting"; "Regulatory notifications"];
         "regional_rto" ::= Native "Object";
         "regional_rpo" ::= Native "Object";
         "confidence_score" ::= 0.75;
         "auto_populated" ::= Bool true
       ]]).
Proof. repeat split; vm_compute; reflexivity. Qed.

(** ** Approval *)

Import BiaController DataIntegrationService.

(** C7, as the code has it: the approve route has no transition check.  For
    every document whose current status is draft, a request to approve it
    (with a non-empty biaId) does not fail: the handler makes the push to
    Fusion, calls updateBIAStatus and answers 200 with success: true.  The
    stored document (its status included) and the audit log are unchanged,
    since updateBIAStatus writes nothing. *)
Theorem approve_ignores_status (env : FusionEnv) (approvedAt id : string)
    (body : ApproveBody) (w : World) (doc : bia_document) :
  biaId body = Some id ->
  String.eqb id "" = false ->
  bia_documents (db w) !! id = Some doc ->
  status doc = draft ->
  approve env approvedAt body w
  = (Normal
       {| http_status := 200;
          json := Obj [
            "success" ::= Bool true;
            "fusionRecord" ::= fusionResult env (body_value (comments body));
            "approvedAt" ::= approvedAt
          ] |},
     {| db := db w;
        fusion_pushes := fusion_pushes w ++ [(Str id, body_value (comments body))] |})
  /\ bia_documents (db (snd (approve env approvedAt body w))) !! id = Some doc
  /\ bia_audit_log (db (snd (approve env approvedAt body w))) = bia_audit_log (db w).
Proof.
  intros Hid Hne Hdoc _.
  assert (E : approve env approvedAt body w
              = (Normal
                   {| http_status := 200;
                      json := Obj [
                        "success" ::= Bool true;
                        "fusionRecord" ::= fusionResult env (body_value (comments body));
                        "approvedAt" ::= approvedAt
                      ] |},
                 {| db := db w;
                    fusion_pushes := fusion_pushes w ++ [(Str id, body_value (comments body))] |})).
  { unfold approve, validationResult. rewrite Hid, Hne. reflexivity. }
  rewrite E. simpl. auto.
Qed.

Lemma approve_ignores_status_witness :
  approve sample_fusion_env "2024-09-15T10:00:02.000Z" approve_bia_1 draft_world
  = (Normal
       {| http_status := 200;
          json := Obj [
            "success" ::= Bool true;
            "fusionRecord" ::=
              fusionResult sample_fusion_env (body_value (comments approve_bia_1));
            "approvedAt" ::= "2024-09-15T10:00:02.000Z"
          ] |},
     {| db := db draft_world;
        fusion_pushes :=
          fusion_pushes draft_world ++ [(Str "bia-1", body_value (comments approve_bia_1))] |})
  /\ bia_documents
       (db (snd (approve sample_fusion_env "2024-09-15T10:00:02.000Z" approve_bia_1 draft_world)))
       !! "bia-1" = Some draft_document
  /\ bia_audit_log
       (db (snd (approve sample_fusion_env "2024-09-15T10:00:02.000Z" approve_bia_1 draft_world)))
     = bia_audit_log (db draft_world).
Proof.
  apply (approve_ignores_status sample_fusion_env "2024-09-15T10:00:02.000Z" "bia-1"
           approve_bia_1 draft_world draft_document); reflexivity.
Defined.

(** C7 as stated fails: approving the draft document bia-1 is answered with
    200 and success: true, not with an error, and a push to Fusion is made. *)
Lemma draft_approval_is_accepted :
  bia_documents (db draft_world) !! "bia-1" = Some draft_document
  /\ status draft_document = draft
  /\ fst (approve sample_fusion_env "2024-09-15T10:00:02.000Z" approve_bia_1 draft_world)
     = Normal
         {| http_status := 200;
            json := Obj [
              "success" ::= Bool true;
              "fusionRecord" ::= fusionResult sample_fusion_env "ok";
              "approvedAt" ::= "2024-09-15T10:00:02.000Z"
            ] |}
  /\ fusion_pushes
       (snd (approve sample_fusion_env "2024-09-15T10:00:02.000Z" approve_bia_1 draft_world))
     = [(Str "bia-1", Str "ok")].
Proof. repeat split; reflexivity. Qed.

(** ** Assembly *)

Ltac table_lookup :=
  match goal with
  | |- exists v, ?getter (Str ?k) = Normal v /\ populated v = true =>
      unfold getter; apply index_or_default_populated; reflexivity
  end.

Lemma function_type_lookups (ft : string) :
  (exists v, getBCMClassification (Str ft) = Normal v /\ populated v = true)
  /\ (exists v, getMTPD (Str ft) = Normal v /\ populated v = true)
  /\ (exists v, getMBCO (Str ft) = Normal v /\ populated v = true)
  /\ (exists v, getResourceRequirements (Str ft) = Normal v /\ populated v = true)
  /\ (exists v, getComplianceRequirements (Str ft) = Normal v /\ populated v = true).
Proof. repeat split; table_lookup. Qed.

Lemma region_lookups (region : string) :
  (exists v, getLegalEntity (Str region) = Normal v /\ populated v = true)
  /\ (exists v, getRegulatoryFramework (Str region) = Normal v /\ populated v = true)
  /\ (exists v, getDataResidency (Str region) = Normal v /\ populated v = true)
  /\ (exists v, getRegionalRTO (Str region) = Normal v /\ populated v = true)
  /\ (exists v, getRegionalRPO (Str region) = Normal v /\ populated v = true).
Proof. repeat split; table_lookup. Qed.

Lemma personnel_returns d :
  reports_score d HR = true -> reports_score d PagerDuty = true ->
  exists v, generatePersonnelSection (hr d) (pagerDuty d) = Normal v.
Proof.
  intros H1 H2. unfold generatePersonnelSection.
  change (hr d ?. "confidence_score")%js with (score_read d HR).
  change (pagerDuty d ?. "confidence_score")%js with (score_read d PagerDuty).
  rewrite (read_or_default d HR 0.5 H1), (read_or_default d PagerDuty 0.5 H2).
  eexists; reflexivity.
Qed.

Lemma recovery_returns d :
  reports_score d Predictions = true -> reports_score d Monitoring = true ->
  exists v, generateRecoverySection (predictions d) (monitoring d) = Normal v.
Proof.
  intros H1 H2. unfold generateRecoverySection.
  change (predictions d ?. "confidence_overall")%js with (score_read d Predictions).
  change (monitoring d ?. "confidence_score")%js with (score_read d Monitoring).
  rewrite (read_or_default d Predictions 0.7 H1), (read_or_default d Monitoring 0.7 H2).
  eexists; reflexivity.
Qed.

Lemma risk_compliance_returns (reg : value) (ft : string) :
  exists v, generateRiskComplianceSection reg (Str ft) = Normal v /\ populated v = true.
Proof.
  destruct (function_type_lookups ft) as (_ & _ & _ & _ & (c & Ec & Pc)).
  unfold generateRiskComplianceSection. rewrite Ec.
  eexists; split; [reflexivity|].
  unfold getDataClassification, getRegulatoryImpact.
  destruct (strict_eq ft "product"); simpl; rewrite Pc; reflexivity.
Qed.

Lemma iso_returns (env : Env) (ft : string) (pred : value) :
  exists v, generateISO22301Section env (Str ft) pred = Normal v
            /\ (populated (pred ?. "risk_assessment" || Null)%js = true
                \/ truthy (pred ?. "risk_assessment")%js = false ->
                populated v = true).
Proof.
  destruct (function_type_lookups ft)
    as ((c & Ec & Pc) & (m & Em & Pm) & (b & Eb & Pb) & (r & Er & Pr) & _).
  unfold generateISO22301Section. rewrite Ec, Em, Eb, Er.
  eexists; split; [reflexivity|].
  intros H. simpl. rewrite Pc, Pm, Pb, Pr. simpl.
  unfold js_or in *. destruct (truthy (pred ?. "risk_assessment")%js).
  - destruct H as [->|]; [reflexivity | discriminate].
  - reflexivity.
Qed.

Lemma overlay_returns (overlay : value) :
  overlay_ok overlay = true -> exists v, generateRegionalOverlay overlay = Normal v.
Proof.
  unfold overlay_ok, generateRegionalOverlay.
  destruct overlay as [| | | | |?|props|]; try discriminate.
  simpl. destruct (get_member props "region") as [| | | |region| | |]; try discriminate.
  intros _.
  destruct (region_lookups region)
    as ((a & Ea & _) & (b & Eb & _) & (c & Ec & _) & (e & Ee & _) & (f & Ef & _)).
  rewrite Ea, Eb, Ec, Ee, Ef. eexists; reflexivity.
Qed.

Lemma overlays_return (regionalOverlays : value) :
  overlays_ok regionalOverlays = true ->
  exists v, (if truthy regionalOverlays
             then generateRegionalOverlays regionalOverlays
             else Normal (Arr [])) = Normal v.
Proof.
  destruct regionalOverlays as [| | | | |overlays| |]; try discriminate; simpl; eauto.
  intros H.
  assert (E : exists items, map_completion generateRegionalOverlay overlays = Normal items).
  { induction overlays as [|o overlays IH]; simpl in *; [eauto|].
    apply andb_prop in H as [Ho Hl].
    destruct (overlay_returns o Ho) as [v ->].
    destruct (IH Hl) as [items ->]. simpl. eauto. }
  destruct E as [items ->]. simpl. eauto.
Qed.

(** Converting a value to a string is synchronous: it never stays pending. *)
Lemma interpolate_settles (v : value) : interpolate v <> Pending.
Proof.
  revert v. fix IH 1. intros [| |b|f|s|items|props|n]; simpl; try discriminate.
  - revert items. fix IHl 1. intros [|item rest]; [discriminate|].
    specialize (IH item). specialize (IHl rest).
    destruct (interpolate item) as [[]|e| |]; simpl; [exact IHl | discriminate.. | contradiction].
  - unfold OrdinaryToPrimitive.
    destruct (get_member props "toString"); try destruct (String.eqb _ _); try discriminate;
      destruct (get_member props "valueOf"); try destruct (String.eqb _ _); discriminate.
Qed.

Lemma loggable_interpolate (v : value) :
  loggable v = true -> interpolate v = Normal tt.
Proof.
  unfold loggable. destruct (interpolate v) as [[]| | |]; [reflexivity | discriminate..].
Qed.

(** A well-formed request yields a document: every builder returns, the
    result is the document assembled from what they return, and the store
    is left as it was. *)
Lemma generateBIA_returns (env : Env) (req : BIARequest) (db : Database) :
  request_ok req = true ->
  let d := autoPopulatedData req in
  exists personnel business technology recovery risk iso overlays assessment,
    generatePersonnelSection (hr d) (pagerDuty d) = Normal personnel
    /\ generateBusinessImpactSection (financial d) (predictions d) = Normal business
    /\ generateTechnologySection (registry d) = Normal technology
    /\ generateRecoverySection (predictions d) (monitoring d) = Normal recovery
    /\ generateRiskComplianceSection (registry d) (functionType req) = Normal risk
    /\ generateISO22301Section env (functionType req) (predictions d) = Normal iso
    /\ calculateConfidenceScores d = Normal assessment
    /\ generateBIA env req db
       = (Normal (assembled env req personnel business technology recovery
                            risk iso overlays assessment), db).
Proof.
  intros H d. unfold request_ok in H.
  apply andb_prop in H as [H Ho]. apply andb_prop in H as [H Hs].
  apply andb_prop in H as [Hn Hf].
  apply loggable_interpolate in Hn as En.
  assert (Eft : exists ft, functionType req = Str ft)
    by (destruct (functionType req); try discriminate; eauto).
  destruct Eft as [ft Eft].
  pose proof (reports_score_each d) as E. fold d in Hs.
  destruct (personnel_returns d (E HR Hs) (E PagerDuty Hs)) as [p Ep].
  destruct (recovery_returns d (E Predictions Hs) (E Monitoring Hs)) as [r Er].
  destruct (risk_compliance_returns (registry d) ft) as (k & Ek & _).
  destruct (iso_returns env ft (predictions d)) as (i & Ei & _).
  destruct (overlays_return (regionalOverlays req) Ho) as [o Eo].
  pose proof (calculate_on_numbers d Hs) as Ec.
  rewrite <- Eft in Ek, Ei.
  exists p; do 2 eexists; exists r, k, i, o; eexists.
  split; [exact Ep|]. split; [reflexivity|]. split; [reflexivity|].
  split; [exact Er|]. split; [exact Ek|]. split; [exact Ei|]. split; [exact Ec|].
  unfold generateBIA, biaDocument. fold d. rewrite En, Ep, Er, Ek, Ei, Ec.
  simpl. rewrite Eo. reflexivity.
Qed.

(** ** The predictive engine *)

Section Rooster.

Variable JSON_parse : string -> option value.
Variable JSON_stringify : value -> string.

Abbreviation generatePredictions := (RoosterService.generatePredictions JSON_parse JSON_stringify).
Abbreviation generatePredictions_try :=
  (RoosterService.generatePredictions_try JSON_parse JSON_stringify).
Abbreviation executeRoosterPython := (RoosterService.executeRoosterPython JSON_parse).

(** With a function name that can be logged and a process that ends,
    [generatePredictions] returns a value: it does not throw. *)
Lemma generatePredictions_returns env functionName inputData fs :
  loggable functionName = true ->
  process_end env <> never_closes ->
  exists v fs', generatePredictions env functionName inputData fs = (Normal v, fs').
Proof.
  intros Hl Hp. apply loggable_interpolate in Hl as El.
  unfold RoosterService.generatePredictions, RoosterService.getFallbackPredictions.
  destruct (generatePredictions_try env functionName inputData fs) as [[v|e| |] fs'] eqn:E;
    [eauto | rewrite El; simpl; eauto | |].
  all: exfalso; revert E; unfold RoosterService.generatePredictions_try; rewrite El;
    destruct inputData; simpl; try discriminate;
    unfold writeFile; destruct (write_succeeds env); try discriminate;
    unfold RoosterService.executeRoosterPython;
    destruct (process_end env) as [e|code stderr|]; try discriminate; try contradiction;
    destruct (code =? 0)%Z; try discriminate;
    unfold readFile;
    match goal with |- context [?m !! ?k] => destruct (m !! k) as [data|] end;
    simpl; try discriminate;
    destruct (JSON_parse data) as [[]|]; simpl; discriminate.
Qed.

(** A function name that cannot be logged makes [generatePredictions]
    reject: the [try] block throws at its first statement, nothing is
    written, and the fallback throws again, outside any [try]. *)
Lemma unloggable_name_rejects env functionName inputData fs e :
  interpolate functionName = Throw e ->
  generatePredictions env functionName inputData fs = (Throw e, fs).
Proof.
  intros E.
  unfold RoosterService.generatePredictions, RoosterService.generatePredictions_try,
    RoosterService.getFallbackPredictions.
  rewrite E. reflexivity.
Qed.

(** A process that never closes keeps [generatePredictions] pending: there
    is no timer. *)
Lemma hanging_process_never_returns env functionName (props : list (string * value)) fs :
  loggable functionName = true ->
  write_succeeds env = true ->
  process_end env = never_closes ->
  fst (generatePredictions env functionName (Obj props) fs) = Pending.
Proof.
  intros Hl Hw Hp. apply loggable_interpolate in Hl as El.
  unfold RoosterService.generatePredictions, RoosterService.generatePredictions_try.
  rewrite El. simpl. unfold writeFile. rewrite Hw.
  unfold RoosterService.executeRoosterPython. rewrite Hp. reflexivity.
Qed.

(** When the engine is unavailable the [try] block throws. *)
Lemma try_throws_when_unavailable env functionName inputData fs :
  loggable functionName = true ->
  unavailable JSON_parse env ->
  exists e fs', generatePredictions_try env functionName inputData fs = (Throw e, fs').
Proof.
  intros Hl Hu. apply loggable_interpolate in Hl as El.
  unfold RoosterService.generatePredictions_try. rewrite El.
  change (_ ← Normal tt; ?k) with k.
  destruct (field inputData "registryData") as [r| | |] eqn:Er; simpl.
  2: eauto.
  2, 3: destruct inputData; discriminate.
  destruct (field inputData "monitoringData") as [m| | |] eqn:Em; simpl.
  2: eauto.
  2, 3: destruct inputData; discriminate.
  unfold writeFile. destruct (write_succeeds env); [|eauto].
  unfold RoosterService.executeRoosterPython.
  destruct Hu as [e He | code stderr He Hc | stderr data He Ho Hp]; rewrite He.
  - eauto.
  - destruct (Z.eqb_spec code 0) as [->|_]; [congruence | eauto].
  - rewrite Ho. simpl. unfold readFile. rewrite lookup_insert_eq. simpl.
    rewrite Hp. eauto.
Qed.

(** C6: whenever the predictive engine is unavailable (spawn error,
    non-zero exit code, or output that does not parse) and the function name
    can be logged (every string can), [generatePredictions] returns the
    fallback prediction object instead of throwing; that object has
    confidence_overall 0.6 and a note; and a well-formed request that
    carries it yields a document, assembled as usual, whose
    predictive_analysis is that object. *)
Theorem fallback_when_unavailable (env : RoosterEnv) (functionName inputData : value)
    (fs : FileSystem) (benv : Env) (req : BIARequest) (db : Database) :
  unavailable JSON_parse env ->
  loggable functionName = true ->
  request_ok
    (with_predictions (RoosterService.fallbackPredictions (result_timestamp env)) req)
  = true ->
  (exists fs',
     generatePredictions env functionName inputData fs
     = (Normal (RoosterService.fallbackPredictions (result_timestamp env)), fs'))
  /\ (RoosterService.fallbackPredictions (result_timestamp env)
      ?. "confidence_overall")%js = Num 0.6
  /\ (RoosterService.fallbackPredictions (result_timestamp env) ?. "note")%js
     = Str "Fallback predictions used - integrate with Rooster for enhanced accuracy"
  /\ exists doc,
       generateBIA benv
         (with_predictions (RoosterService.fallbackPredictions (result_timestamp env)) req)
         db
       = (Normal doc, db)
       /\ (doc ?. "predictive_analysis")%js
          = RoosterService.fallbackPredictions (result_timestamp env)
       /\ (doc ?. "recovery_requirements" ?. "rto" ?. "current")%js = Str "45 minutes"
       /\ (doc ?. "iso_22301_compliance" ?. "risk_assessment")%js
          = (RoosterService.fallbackPredictions (result_timestamp env)
             ?. "risk_assessment")%js
       /\ In (summary_entry
                (set_slot Predictions
                   (RoosterService.fallbackPredictions (result_timestamp env))
                   (autoPopulatedData req))
                Predictions)
            (match (doc ?. "data_sources")%js with Arr entries => entries | _ => [] end).
Proof.
  intros Hu Hl Hok.
  set (fallback := RoosterService.fallbackPredictions (result_timestamp env)) in *.
  split; [|split; [reflexivity|split; [reflexivity|]]].
  - destruct (try_throws_when_unavailable env functionName inputData fs Hl Hu)
      as (e & fs' & E).
    exists fs'. unfold RoosterService.generatePredictions. rewrite E.
    unfold RoosterService.getFallbackPredictions.
    rewrite (loggable_interpolate functionName Hl). reflexivity.
  - destruct (generateBIA_returns benv _ db Hok)
      as (p & b & t & r & k & i & o & c & Ep & Eb & Et & Er & Ek & Ei & Ec & E).
    eexists; split; [exact E|].
    split; [reflexivity|].
    split.
    { revert Er. unfold generateRecoverySection; simpl.
      destruct (Math_min _ _); simpl; intros [= <-]. reflexivity. }
    split.
    { revert Ei. unfold generateISO22301Section; simpl.
      destruct (getBCMClassification _); simpl; try discriminate.
      destruct (getMTPD _); simpl; try discriminate.
      destruct (getMBCO _); simpl; try discriminate.
      destruct (getResourceRequirements _); simpl; try discriminate.
      intros [= <-]. reflexivity. }
    destruct (summary_lists_present
                (autoPopulatedData (with_predictions fallback req)) Predictions)
      as (entries & Es & Hin); [reflexivity|].
    match goal with
    | |- In _ (match ?x with _ => _ end) =>
        change x with (generateDataSourceSummary
                         (autoPopulatedData (with_predictions fallback req)))
    end.
    rewrite Es. exact Hin.
Qed.

Lemma files_differ (env : RoosterEnv) :
  RoosterService.inputFile_of env <> RoosterService.outputFile_of env.
Proof.
  unfold RoosterService.inputFile_of, RoosterService.outputFile_of, path_join.
  simpl. intros [=].
Qed.

(** On the success path both temporary files are removed. *)
Lemma cleanup_on_success (env : RoosterEnv) (functionName : value)
    (props : list (string * value)) (fs : FileSystem)
    (stderr data : string) (parsed result : value) :
  loggable functionName = true ->
  write_succeeds env = true ->
  process_end env = close 0 stderr ->
  output_written env = Some data ->
  JSON_parse data = Some parsed ->
  RoosterService.formatRoosterOutput (result_timestamp env) parsed = Normal result ->
  exists fs',
    generatePredictions env functionName (Obj props) fs = (Normal result, fs')
    /\ fs' !! RoosterService.inputFile_of env = None
    /\ fs' !! RoosterService.outputFile_of env = None.
Proof.
  intros Hl Hw He Ho Hp Hf. apply loggable_interpolate in Hl as El.
  pose proof (files_differ env) as Hd.
  unfold RoosterService.generatePredictions, RoosterService.generatePredictions_try.
  rewrite El. simpl. unfold writeFile. rewrite Hw.
  unfold RoosterService.executeRoosterPython. rewrite He, Ho. simpl.
  unfold readFile. rewrite lookup_insert_eq. simpl. rewrite Hp, Hf.
  unfold RoosterService.cleanup, unlink.
  rewrite lookup_insert_ne by congruence. rewrite lookup_insert_eq.
  rewrite lookup_delete_ne by congruence. rewrite lookup_insert_eq. simpl.
  eexists; split; [reflexivity|]. split.
  - rewrite lookup_delete_ne by congruence. apply lookup_delete_eq.
  - apply lookup_delete_eq.
Qed.

(** On every failure path after the input file was written, it is still
    there when [generatePredictions] returns. *)
Lemma input_file_survives_failure (env : RoosterEnv) (functionName : value)
    (props : list (string * value)) (fs : FileSystem) :
  loggable functionName = true ->
  write_succeeds env = true ->
  unavailable JSON_parse env ->
  is_Some (snd (generatePredictions env functionName (Obj props) fs)
             !! RoosterService.inputFile_of env).
Proof.
  intros Hl Hw Hu. apply loggable_interpolate in Hl as El.
  pose proof (files_differ env) as Hd.
  unfold RoosterService.generatePredictions, RoosterService.generatePredictions_try.
  rewrite El. simpl. unfold writeFile. rewrite Hw.
  unfold RoosterService.executeRoosterPython.
  destruct Hu as [e He | code stderr He Hc | stderr data He Ho Hp]; rewrite He.
  - destruct (output_written env); simpl;
      rewrite ?lookup_insert_ne by congruence; rewrite lookup_insert_eq; eauto.
  - destruct (Z.eqb_spec code 0) as [->|_]; [congruence|].
    destruct (output_written env); simpl;
      rewrite ?lookup_insert_ne by congruence; rewrite lookup_insert_eq; eauto.
  - rewrite Ho. simpl. unfold readFile. rewrite lookup_insert_eq. simpl. rewrite Hp.
    simpl. rewrite lookup_insert_ne by congruence. rewrite lookup_insert_eq. eauto.
Qed.

(** C8 fails on the code.  When the prediction script is missing (python3
    exits with code 2), [generatePredictions] returns the fallback object
    and the temporary input file it wrote is still in the directory: the
    clean-up is on the success path only. *)
Theorem input_file_left_behind :
  fst (generatePredictions script_missing "PaymentsCore" no_snapshots ∅)
  = Normal (RoosterService.fallbackPredictions "2024-09-15T10:00:00.050Z")
  /\ snd (generatePredictions script_missing "PaymentsCore" no_snapshots ∅)
       !! "/Users/mshevchik/rooster_bia/temp_input_1726394400000.json"
     = Some (JSON_stringify (Obj [
         "function_name" ::= "PaymentsCore";
         "registry_data" ::= Null;
         "monitoring_data" ::= Null;
         "analysis_type" ::= "comprehensive";
         "prediction_horizon" ::= "12_months";
         "scenarios" ::= strs ["best_case"; "worst_case"; "most_likely"];
         "timestamp" ::= "2024-09-15T10:00:00.000Z"
       ])).
Proof. split; vm_compute; reflexivity. Qed.

End Rooster.

Lemma fallback_when_unavailable_witness :
  (exists fs',
     RoosterService.generatePredictions never_parses prints_braces script_missing
       "PaymentsCore" no_snapshots ∅
     = (Normal (RoosterService.fallbackPredictions (result_timestamp script_missing)), fs'))
  /\ (RoosterService.fallbackPredictions (result_timestamp script_missing)
      ?. "confidence_overall")%js = Num 0.6
  /\ (RoosterService.fallbackPredictions (result_timestamp script_missing) ?. "note")%js
     = Str "Fallback predictions used - integrate with Rooster for enhanced accuracy"
  /\ exists doc,
       generateBIA sample_env
         (with_predictions
            (RoosterService.fallbackPredictions (result_timestamp script_missing))
            (platform_request all_absent))
         empty_database
       = (Normal doc, empty_database)
       /\ (doc ?. "predictive_analysis")%js
          = RoosterService.fallbackPredictions (result_timestamp script_missing)
       /\ (doc ?. "recovery_requirements" ?. "rto" ?. "current")%js = Str "45 minutes"
       /\ (doc ?. "iso_22301_compliance" ?. "risk_assessment")%js
          = (RoosterService.fallbackPredictions (result_timestamp script_missing)
             ?. "risk_assessment")%js
       /\ In (summary_entry
                (set_slot Predictions
                   (RoosterService.fallbackPredictions (result_timestamp script_missing))
                   (autoPopulatedData (platform_request all_absent)))
                Predictions)
            (match (doc ?. "data_sources")%js with Arr entries => entries | _ => [] end).
Proof.
  apply (fallback_when_unavailable never_parses prints_braces script_missing
           "PaymentsCore" no_snapshots ∅ sample_env (platform_request all_absent)
           empty_database).
  - apply (nonzero_exit never_parses script_missing 2
             "python3: can't open file 'rto_rpo_predictor.py'");
      [reflexivity | discriminate].
  - reflexivity.
  - reflexivity.
Defined.

(** ** Total degradation *)

(** For a function type that names no inherited property, the two
    rule-derived sections hold the row of that type. *)
Lemma rule_sections (env : Env) (ft : string) (reg pred : value) :
  Object_prototype ft = None ->
  generateRiskComplianceSection reg (Str ft) = Normal (risk_compliance_of (rule_row_of ft))
  /\ generateISO22301Section env (Str ft) pred
     = Normal (iso_22301_of env (rule_row_of ft)
                 (js_or (pred ?. "risk_assessment")%js placeholder_risk_assessment)).
Proof.
  intros Hp. unfold rule_row_of.
  destruct (String.eqb_spec ft "product") as [->|H1]; [split; reflexivity|].
  destruct (String.eqb_spec ft "platform") as [->|H2]; [split; reflexivity|].
  destruct (String.eqb_spec ft "support") as [->|H3]; [split; reflexivity|].
  destruct (String.eqb_spec ft "infrastructure") as [->|H4]; [split; reflexivity|].
  destruct (String.eqb_spec ft "compliance") as [->|H5]; [split; reflexivity|].
  assert (Hk : ~ In ft ["product"; "platform"; "support"; "infrastructure"; "compliance"]).
  { simpl. intros [E|[E|[E|[E|[E|[]]]]]]; congruence. }
  destruct (unknown_function_type_defaults ft Hk Hp) as (E1 & E2 & E3 & E4 & E5).
  assert (Hn : strict_eq (Str ft) (Str "product") = false).
  { simpl. destruct (String.eqb_spec ft "product"); [contradiction | reflexivity]. }
  unfold generateRiskComplianceSection, generateISO22301Section,
    getDataClassification, getRegulatoryImpact.
  rewrite E1, E2, E3, E4, E5, Hn. split; reflexivity.
Qed.

(** C1: when all six payload slots are absent, [generateBIA] still returns
    a document, for a function name that can be logged (every string can)
    and a function type that names no inherited property (each of the five
    types, and every unknown type that is no key of [Object.prototype]).
    Its personnel, business-impact, technology and recovery sections hold
    exactly the fallback placeholders; the rule-derived risk/compliance and
    ISO 22301 sections hold exactly the row of the function type, with the
    fallback risk assessment; and the confidence assessment has
    confidence_level "Low", data_completeness 0 and overall_confidence 0.5.
    The store is unchanged. *)
Theorem total_degradation (env : Env) (name dri team overlays : value) (ft : string)
    (db : Database) :
  loggable name = true ->
  Object_prototype ft = None ->
  overlays_ok overlays = true ->
  exists doc,
    generateBIA env (degraded_request name dri team overlays ft) db = (Normal doc, db)
    /\ (doc ?. "personnel_information")%js = placeholder_personnel
    /\ (doc ?. "business_impact")%js = placeholder_business_impact
    /\ (doc ?. "technology_dependencies")%js = placeholder_technology
    /\ (doc ?. "recovery_requirements")%js = placeholder_recovery
    /\ (doc ?. "risk_compliance")%js = risk_compliance_of (rule_row_of ft)
    /\ (doc ?. "iso_22301_compliance")%js
       = iso_22301_of env (rule_row_of ft) placeholder_risk_assessment
    /\ (doc ?. "confidence_assessment" ?. "confidence_level")%js = Str "Low"
    /\ (doc ?. "confidence_assessment" ?. "data_completeness")%js = Num 0
    /\ (doc ?. "confidence_assessment" ?. "overall_confidence")%js = Num 0.5.
Proof.
  intros Hl Hp Hov.
  assert (Hok : request_ok (degraded_request name dri team overlays ft) = true).
  { unfold request_ok; simpl. rewrite Hl. exact Hov. }
  destruct (generateBIA_returns env _ db Hok)
    as (p & b & t & r & k & i & o & c & Ep & Eb & Et & Er & Ek & Ei & Ec & E).
  simpl in Ep, Eb, Et, Er, Ek, Ei, Ec.
  exists (assembled env (degraded_request name dri team overlays ft) p b t r k i o c).
  split; [exact E|].
  change (generatePersonnelSection Null Null) with (Normal placeholder_personnel) in Ep.
  change (generateBusinessImpactSection Null Null)
    with (Normal placeholder_business_impact) in Eb.
  change (generateTechnologySection Null) with (Normal placeholder_technology) in Et.
  change (generateRecoverySection Null Null) with (Normal placeholder_recovery) in Er.
  injection Ep as <-. injection Eb as <-. injection Et as <-. injection Er as <-.
  destruct (rule_sections env ft Null Null Hp) as [Ek' Ei'].
  rewrite Ek' in Ek. injection Ek as <-.
  rewrite Ei' in Ei. injection Ei as <-.
  change (calculateConfidenceScores all_absent) with (Normal (assessment [])) in Ec.
  injection Ec as <-.
  repeat split; reflexivity.
Qed.

(** The same request with a function name that cannot be converted to a
    string: the log line at the start of [generateBIA] throws and no
    document is returned. *)
Example unprintable_name_aborts :
  generateBIA sample_env
    (degraded_request unprintable "A. Owner" "payments" Undefined "product")
    empty_database
  = (Throw (TypeError "Cannot convert object to primitive value"), empty_database).
Proof. reflexivity. Qed.

(** In that document the top-level predictive_analysis is null and the
    data_sources summary is empty: they mirror the slots. *)
Example degraded_document_mirrors_slots :
  member "predictive_analysis"
    (fst (generateBIA sample_env
            (degraded_request "PaymentsCore" "A. Owner" "payments" Undefined "product")
            empty_database)) = Normal Null
  /\ member "data_sources"
       (fst (generateBIA sample_env
               (degraded_request "PaymentsCore" "A. Owner" "payments" Undefined "product")
               empty_database)) = Normal (Arr []).
Proof. split; vm_compute; reflexivity. Qed.

Lemma total_degradation_witness :
  exists doc,
    generateBIA sample_env
      (degraded_request "PaymentsCore" "A. Owner" "payments" Undefined "product")
      empty_database
    = (Normal doc, empty_database)
    /\ (doc ?. "personnel_information")%js = placeholder_personnel
    /\ (doc ?. "business_impact")%js = placeholder_business_impact
    /\ (doc ?. "technology_dependencies")%js = placeholder_technology
    /\ (doc ?. "recovery_requirements")%js = placeholder_recovery
    /\ (doc ?. "risk_compliance")%js = risk_compliance_of (rule_row_of "product")
    /\ (doc ?. "iso_22301_compliance")%js
       = iso_22301_of sample_env (rule_row_of "product") placeholder_risk_assessment
    /\ (doc ?. "confidence_assessment" ?. "confidence_level")%js = Str "Low"
    /\ (doc ?. "confidence_assessment" ?. "data_completeness")%js = Num 0
    /\ (doc ?. "confidence_assessment" ?. "overall_confidence")%js = Num 0.5.
Proof.
  apply (total_degradation sample_env "PaymentsCore" "A. Owner" "payments" Undefined
           "product" empty_database); reflexivity.
Defined.

(** The four placeholder sections have no null or undefined field. *)
Example placeholders_populated :
  populated placeholder_personnel = true
  /\ populated placeholder_business_impact = true
  /\ populated placeholder_technology = true
  /\ populated placeholder_recovery = true.
Proof. repeat split; reflexivity. Qed.

(** Through the generate route the predictions slot is never null: when the
    five fetches are rejected and the engine is unavailable, the slot holds
    the fallback object, which counts as one source at 0.6. *)
Example route_total_failure (e : exn) (generated_at : string) :
  calculateConfidenceScores
    (gathered (rejected e) (rejected e) (rejected e) (rejected e) (rejected e)
       (RoosterService.fallbackPredictions generated_at))
  = Normal (Obj [
      "overall_confidence" ::= 0.6;
      "data_completeness" ::= 16.666666666666664;
      "confidence_level" ::= "Medium";
      "recommendations" ::= strs [
        "Verify data source connections";
        "Update missing information";
        "Schedule data validation review"
      ]
    ]).
Proof. reflexivity. Qed.

(** * Further properties of the code *)

(** ** The confidence aggregator, continued *)

Lemma pos_squeeze (lo hi m : positive) :
  (hi <=? lo)%positive = true -> (lo <= m)%positive -> (m < hi)%positive -> False.
Proof.
  intros H1 H2 H3. apply Pos.leb_le in H1.
  apply (Pos.lt_irrefl m).
  eapply Pos.lt_le_trans; [exact H3|]. eapply Pos.le_trans; eassumption.
Qed.

Ltac squeeze :=
  intros;
  first
    [ reflexivity
    | discriminate
    | exfalso;
      match goal with
      | Hlo : ?lo = ?m, Hhi : (?m < ?hi)%positive |- _ =>
          apply (pos_squeeze lo hi m);
          [vm_compute; reflexivity | rewrite Hlo; apply Pos.le_refl | exact Hhi]
      | Hlo : (?lo < ?m)%positive, Hhi : (?m < ?hi)%positive |- _ =>
          apply (pos_squeeze lo hi m);
          [vm_compute; reflexivity | apply Pos.lt_le_incl; exact Hlo | exact Hhi]
      | Hlo : ?m = ?lo, Hhi : (?m < ?hi)%positive |- _ =>
          apply (pos_squeeze lo hi m);
          [vm_compute; reflexivity | rewrite Hlo; apply Pos.le_refl | exact Hhi]
      end ].

(** A number that reaches 0.8 is not below 0.7. *)
Lemma high_not_below_cutoff (x : float) :
  (0.8 <=? x) = true -> (x <? 0.7) = false.
Proof.
  rewrite FloatAxioms.leb_spec, FloatAxioms.ltb_spec.
  change (Prim2SF 0.8) with (S754_finite false 7205759403792794 (-53)).
  change (Prim2SF 0.7) with (S754_finite false 6305039478318694 (-53)).
  destruct (Prim2SF x) as [s|s| |s m e]; unfold SFleb, SFltb, SFcompare;
    try (destruct s); try discriminate; try reflexivity.
  rewrite !Pos.compare_cont_spec. unfold Pos.switch_Eq.
  destruct (Z.compare_spec (-53) e) as [He|He|He];
    destruct (Z.compare_spec e (-53)) as [He'|He'|He'];
    try (exfalso; lia); try discriminate; try reflexivity.
  destruct (Pos.compare_spec 7205759403792794 m) as [Hm|Hm|Hm];
    destruct (Pos.compare_spec m 6305039478318694) as [Hm'|Hm'|Hm'];
    squeeze.
Qed.

(** A number that does not reach 0.6 is below 0.7, unless it is NaN. *)
Lemma low_below_cutoff (x : float) :
  is_nan x = false -> (0.6 <=? x) = false -> (x <? 0.7) = true.
Proof.
  unfold is_nan. rewrite FloatAxioms.eqb_spec, FloatAxioms.leb_spec, FloatAxioms.ltb_spec.
  change (Prim2SF 0.6) with (S754_finite false 5404319552844595 (-53)).
  change (Prim2SF 0.7) with (S754_finite false 6305039478318694 (-53)).
  destruct (Prim2SF x) as [s|s| |s m e]; unfold SFeqb, SFleb, SFltb, SFcompare;
    try (destruct s); try discriminate; try reflexivity.
  intros _.
  rewrite !Pos.compare_cont_spec. unfold Pos.switch_Eq.
  destruct (Z.compare_spec (-53) e) as [He|He|He];
    destruct (Z.compare_spec e (-53)) as [He'|He'|He'];
    try (exfalso; lia); try discriminate; try reflexivity.
  destruct (Pos.compare_spec 5404319552844595 m) as [Hm|Hm|Hm];
    destruct (Pos.compare_spec m 6305039478318694) as [Hm'|Hm'|Hm'];
    squeeze.
Qed.

(** Whenever the aggregator returns, its result is built from one number,
    the unrounded mean. *)
Lemma calculate_shape d c :
  calculateConfidenceScores d = Normal c ->
  exists x : float,
    c = Obj [
      "overall_confidence" ::= Num (Math_round (x * 100) / 100);
      "data_completeness" ::= Num (of_nat (length (collect_scores d)) / 6 * 100);
      "confidence_level" ::=
        (if 0.8 <=? x then "High" else if 0.6 <=? x then "Medium" else "Low");
      "recommendations" ::=
        (if x <? 0.7 then strs [
           "Verify data source connections";
           "Update missing information";
           "Schedule data validation review"
         ] else Arr [])
    ].
Proof.
  unfold calculateConfidenceScores.
  destruct (if (0 <? length (collect_scores d))%nat then _ else _) as [x| | |];
    simpl; try discriminate.
  intros [= <-]. exists x. reflexivity.
Qed.

(** X1: an assessment whose confidence_level is "High" never carries
    recommendations. *)
Theorem high_has_no_recommendations (d : AutoPopulatedData) :
  member "confidence_level" (calculateConfidenceScores d) = Normal (Str "High") ->
  member "recommendations" (calculateConfidenceScores d) = Normal (Arr []).
Proof.
  destruct (calculateConfidenceScores d) as [c| | |] eqn:E; try discriminate.
  destruct (calculate_shape d c E) as [x ->]. unfold member.
  change ((Obj ?ps ?. ?k)%js) with (get_member ps k). unfold get_member; simpl.
  destruct (0.8 <=? x) eqn:Hh.
  - rewrite (high_not_below_cutoff x Hh). reflexivity.
  - destruct (0.6 <=? x); discriminate.
Qed.

Lemma high_has_no_recommendations_witness :
  member "recommendations" (calculateConfidenceScores all_at_nine_tenths) = Normal (Arr []).
Proof. apply (high_has_no_recommendations all_at_nine_tenths). reflexivity. Defined.

Lemma nan_is_S754_nan (x : float) : is_nan x = true -> Prim2SF x = S754_nan.
Proof.
  unfold is_nan. rewrite FloatAxioms.eqb_spec.
  destruct (Prim2SF x) as [s|s| |s m e]; unfold SFeqb, SFcompare; try reflexivity;
    try (destruct s; discriminate).
  rewrite Z.compare_refl, Pos.compare_cont_spec, Pos.compare_refl.
  destruct s; discriminate.
Qed.

(** A mean that is NaN is reported as NaN. *)
Lemma rounded_nan (x : float) :
  is_nan x = true -> is_nan (Math_round (x * 100) / 100) = true.
Proof.
  intros H. apply nan_is_S754_nan in H.
  assert (Hm : Prim2SF (x * 100) = S754_nan).
  { rewrite FloatAxioms.mul_spec, H. reflexivity. }
  unfold Math_round. rewrite Hm.
  unfold is_nan. rewrite FloatAxioms.eqb_spec, FloatAxioms.div_spec, Hm. reflexivity.
Qed.

(** X2: an assessment whose confidence_level is "Low" carries the three
    fixed recommendations, unless its overall_confidence is NaN. *)
Theorem low_has_recommendations (d : AutoPopulatedData) (overall : float) :
  member "confidence_level" (calculateConfidenceScores d) = Normal (Str "Low") ->
  member "overall_confidence" (calculateConfidenceScores d) = Normal (Num overall) ->
  is_nan overall = false ->
  member "recommendations" (calculateConfidenceScores d)
  = Normal (strs [
      "Verify data source connections";
      "Update missing information";
      "Schedule data validation review"
    ]).
Proof.
  destruct (calculateConfidenceScores d) as [c| | |] eqn:E; try discriminate.
  destruct (calculate_shape d c E) as [x ->]. unfold member.
  change ((Obj ?ps ?. ?k)%js) with (get_member ps k). unfold get_member; simpl.
  intros Hl [= <-] Hn.
  assert (Hx : is_nan x = false).
  { destruct (is_nan x) eqn:Ex; [|reflexivity].
    rewrite (rounded_nan x Ex) in Hn. discriminate. }
  destruct (0.8 <=? x); [discriminate|].
  destruct (0.6 <=? x) eqn:Hm; [discriminate|].
  rewrite (low_below_cutoff x Hx Hm). reflexivity.
Qed.

Lemma low_has_recommendations_witness :
  member "recommendations" (calculateConfidenceScores all_absent)
  = Normal (strs [
      "Verify data source connections";
      "Update missing information";
      "Schedule data validation review"
    ]).
Proof. apply (low_has_recommendations all_absent 0.5); reflexivity. Defined.

Lemma filter_shorter {A} (p : A -> bool) (l : list A) :
  (length (List.filter p l) <= length l)%nat.
Proof.
  induction l as [|x l IH]; simpl; [lia|]. destruct (p x); simpl; lia.
Qed.

(** X3: whenever the aggregator returns, data_completeness is one of the
    seven values n / 6 * 100, n = 0 .. 6, where n is the number of scores
    counted. *)
Theorem completeness_is_a_sixth (d : AutoPopulatedData) (c : value) :
  calculateConfidenceScores d = Normal c ->
  (c ?. "data_completeness")%js
  = Num (of_nat (length (collect_scores d)) / 6 * 100)
  /\ (length (collect_scores d) <= 6)%nat
  /\ In (c ?. "data_completeness")%js completeness_levels.
Proof.
  intros E. destruct (calculate_shape d c E) as [x ->].
  change ((Obj ?ps ?. ?k)%js) with (get_member ps k). unfold get_member; simpl.
  assert (Hn : (length (collect_scores d) <= 6)%nat).
  { rewrite collect_scores_filter.
    etransitivity; [apply filter_shorter|]. rewrite length_map. reflexivity. }
  split; [reflexivity|]. split; [exact Hn|].
  revert Hn. generalize (length (collect_scores d)); intros n Hn.
  unfold completeness_levels.
  do 7 (destruct n as [|n]; [simpl; auto 10|]). lia.
Qed.

Lemma completeness_is_a_sixth_witness :
  (assessment [0.6; 0.9] ?. "data_completeness")%js
  = Num (of_nat (length (collect_scores two_of_six)) / 6 * 100)
  /\ (length (collect_scores two_of_six) <= 6)%nat
  /\ In (assessment [0.6; 0.9] ?. "data_completeness")%js completeness_levels.
Proof. apply (completeness_is_a_sixth two_of_six (assessment [0.6; 0.9])). reflexivity. Defined.

Lemma unsucceeded_unscored d s :
  succeeded d s = false -> truthy (score_read d s) = false.
Proof.
  unfold succeeded, score_read. destruct (slot s d); simpl; try discriminate; reflexivity.
Qed.

Lemma scores_of_succeeded d (l : list source) :
  List.filter truthy (map (score_read d) l)
  = List.filter truthy (map (score_read d) (List.filter (succeeded d) l)).
Proof.
  induction l as [|s l IH]; simpl; [reflexivity|].
  destruct (succeeded d s) eqn:Es; simpl.
  - rewrite IH. reflexivity.
  - rewrite (unsucceeded_unscored d s Es). exact IH.
Qed.

(** X4: the scores that enter the mean are exactly the truthy confidences
    shown in the data_sources summary, in the same order; so no score is
    counted for a source that the summary does not list. *)
Theorem scores_are_listed_confidences (d : AutoPopulatedData) :
  exists entries,
    generateDataSourceSummary d = Arr entries
    /\ collect_scores d
       = List.filter truthy (map (fun entry => (entry ?. "confidence")%js) entries)
    /\ (length (collect_scores d) <= length entries)%nat.
Proof.
  assert (E : collect_scores d
              = List.filter truthy
                  (map (fun entry => (entry ?. "confidence")%js)
                       (map (summary_entry d) (List.filter (succeeded d) all_sources)))).
  { rewrite collect_scores_filter, scores_of_succeeded, map_map. reflexivity. }
  rewrite summary_entries. eexists; split; [reflexivity|]. split; [exact E|].
  rewrite E. etransitivity; [apply filter_shorter|]. rewrite length_map. reflexivity.
Qed.

(** ** Regional overlays and rule tables, continued *)

Lemma overlay_item (overlay : value) :
  overlay_ok overlay = true ->
  exists item,
    generateRegionalOverlay overlay = Normal item
    /\ (item ?. "region")%js = (overlay ?. "region")%js
    /\ (item ?. "confidence_score")%js = Num 0.75.
Proof.
  unfold overlay_ok, generateRegionalOverlay.
  destruct overlay as [| | | | |?|props|]; try discriminate.
  simpl. destruct (get_member props "region") as [| | | |region| | |]; try discriminate.
  intros _.
  destruct (region_lookups region)
    as ((a & Ea & _) & (b & Eb & _) & (c & Ec & _) & (e & Ee & _) & (f & Ef & _)).
  rewrite Ea, Eb, Ec, Ee, Ef. eexists; repeat split.
Qed.

(** X5: for an array of well-shaped overlays (objects whose region is a
    string) the result has one overlay per entry, in the same order and
    with the same region, each with confidence_score 0.75. *)
Theorem overlays_keep_order (overlays : list value) :
  forallb overlay_ok overlays = true ->
  exists items,
    generateRegionalOverlays (Arr overlays) = Normal (Arr items)
    /\ length items = length overlays
    /\ map (fun item => (item ?. "region")%js) items
       = map (fun overlay => (overlay ?. "region")%js) overlays
    /\ Forall (fun item => (item ?. "confidence_score")%js = Num 0.75) items.
Proof.
  intros H.
  assert (E : exists items,
             map_completion generateRegionalOverlay overlays = Normal items
             /\ length items = length overlays
             /\ map (fun item => (item ?. "region")%js) items
                = map (fun overlay => (overlay ?. "region")%js) overlays
             /\ Forall (fun item => (item ?. "confidence_score")%js = Num 0.75) items).
  { induction overlays as [|o overlays IH]; simpl in *.
    - exists []. repeat split. constructor.
    - apply andb_prop in H as [Ho Hl].
      destruct (overlay_item o Ho) as (item & -> & Er & Ec).
      destruct (IH Hl) as (items & -> & El & Em & Ef). simpl.
      exists (item :: items). repeat split; simpl; [congruence | congruence |].
      constructor; assumption. }
  destruct E as (items & E & El & Em & Ef).
  exists items. unfold generateRegionalOverlays. rewrite E. repeat split; assumption.
Qed.

Lemma overlays_keep_order_witness :
  exists items,
    generateRegionalOverlays
      (Arr [Obj ["region" ::= "apac"; "requirements" ::= Obj []]; Obj ["region" ::= "na"]])
    = Normal (Arr items)
    /\ length items
       = length [Obj ["region" ::= "apac"; "requirements" ::= Obj []]; Obj ["region" ::= "na"]]
    /\ map (fun item => (item ?. "region")%js) items
       = map (fun overlay => (overlay ?. "region")%js)
           [Obj ["region" ::= "apac"; "requirements" ::= Obj []]; Obj ["region" ::= "na"]]
    /\ Forall (fun item => (item ?. "confidence_score")%js = Num 0.75) items.
Proof.
  apply (overlays_keep_order
           [Obj ["region" ::= "apac"; "requirements" ::= Obj []]; Obj ["region" ::= "na"]]).
  reflexivity.
Defined.

Lemma null_entry_throws (overlays : list value) :
  reaches_null_entry overlays = true ->
  exists e, map_completion generateRegionalOverlay overlays = Throw e.
Proof.
  induction overlays as [|o overlays IH]; [discriminate|].
  intros H.
  destruct o as [| | | | |?|props|]; try (eexists; reflexivity); try discriminate.
  simpl in H. apply andb_prop in H as [Ho Hl].
  destruct (overlay_returns (Obj props) Ho) as [v Ev].
  destruct (IH Hl) as [e He].
  exists e.
  change (map_completion generateRegionalOverlay (Obj props :: overlays))
    with (y ← generateRegionalOverlay (Obj props);
          ys ← map_completion generateRegionalOverlay overlays;
          Normal (y :: ys)).
  rewrite Ev, He. reflexivity.
Qed.

Lemma overlays_throw_spec (regionalOverlays : value) :
  overlays_throw regionalOverlays = true ->
  exists e, (if truthy regionalOverlays
             then generateRegionalOverlays regionalOverlays
             else Normal (Arr [])) = Throw e.
Proof.
  destruct regionalOverlays as [| |b|f|s|overlays|props|name]; simpl;
    try discriminate; try (intros ->; eauto); eauto.
  intros H. destruct (null_entry_throws overlays H) as [e ->]. simpl. eauto.
Qed.

(** X6: a request whose regionalOverlays reaches a null or undefined entry,
    or is a truthy value that is no array, makes [generateBIA] throw, however
    well the sources answered; no document is returned and the store is
    unchanged.  (The function name is any value whose conversion to a string,
    for the log line, is modelled; when that conversion throws,
    [generateBIA] throws as well.) *)
Theorem malformed_overlays_abort (env : Env) (req : BIARequest) (db : Database)
    (ft : string) :
  interpolate (functionName req) <> Unmodelled ->
  functionType req = Str ft ->
  forallb (reports_score (autoPopulatedData req)) all_sources = true ->
  overlays_throw (regionalOverlays req) = true ->
  exists e, generateBIA env req db = (Throw e, db).
Proof.
  intros Hn Eft Hs Ho.
  pose proof (reports_score_each (autoPopulatedData req)) as E.
  destruct (personnel_returns _ (E HR Hs) (E PagerDuty Hs)) as [p Ep].
  destruct (recovery_returns _ (E Predictions Hs) (E Monitoring Hs)) as [r Er].
  destruct (risk_compliance_returns (registry (autoPopulatedData req)) ft) as (k & Ek & _).
  destruct (iso_returns env ft (predictions (autoPopulatedData req))) as (i & Ei & _).
  destruct (overlays_throw_spec _ Ho) as [e Eo].
  unfold generateBIA, biaDocument.
  pose proof (interpolate_settles (functionName req)) as Hp.
  destruct (interpolate (functionName req)) as [[]|e'| |];
    [|exists e'; reflexivity | contradiction..].
  exists e. rewrite Eft, Ep, Er, Ek, Ei. simpl. rewrite Eo. reflexivity.
Qed.

Lemma malformed_overlays_abort_witness :
  exists e, generateBIA sample_env null_overlay_request empty_database
            = (Throw e, empty_database).
Proof.
  apply (malformed_overlays_abort sample_env null_overlay_request empty_database "product");
    [discriminate | reflexivity..].
Defined.

Example null_overlay_error :
  generateBIA sample_env null_overlay_request empty_database
  = (Throw (TypeError "Cannot read properties of null (reading 'region')"),
     empty_database).
Proof. vm_compute. reflexivity. Qed.

(** X7: for a function type that is none of the five defined keys and no
    property name of [Object.prototype], the two rule-derived sections hold
    the default rows: classification "To Be Determined", MTPD "4 hours",
    MBCO "60% capacity within MTPD", "Standard backup procedures",
    ["Standard Controls"], and the classification and impact of a function
    that is not a product. *)
Theorem unknown_function_type_sections (env : Env) (k : string) (reg pred : value) :
  ~ In k ["product"; "platform"; "support"; "infrastructure"; "compliance"] ->
  Object_prototype k = None ->
  member "business_function_classification" (generateISO22301Section env (Str k) pred)
  = Normal (Str "To Be Determined")
  /\ member "mtpd" (generateISO22301Section env (Str k) pred) = Normal (Str "4 hours")
  /\ member "mbco" (generateISO22301Section env (Str k) pred)
     = Normal (Str "60% capacity within MTPD")
  /\ member "resource_requirements" (generateISO22301Section env (Str k) pred)
     = Normal (Str "Standard backup procedures")
  /\ member "compliance_requirements" (generateRiskComplianceSection reg (Str k))
     = Normal (strs ["Standard Controls"])
  /\ member "data_classification" (generateRiskComplianceSection reg (Str k))
     = Normal (Str "Internal/Confidential")
  /\ member "regulatory_impact" (generateRiskComplianceSection reg (Str k))
     = Normal (Str "Medium - Internal operations").
Proof.
  intros Hk Hp.
  destruct (unknown_function_type_defaults k Hk Hp) as (E1 & E2 & E3 & E4 & E5).
  assert (Hn : strict_eq (Str k) (Str "product") = false).
  { simpl. destruct (String.eqb_spec k "product") as [->|_]; [|reflexivity].
    exfalso. apply Hk. simpl. auto. }
  unfold generateISO22301Section, generateRiskComplianceSection,
    getDataClassification, getRegulatoryImpact.
  rewrite E1, E2, E3, E4, E5, Hn. repeat split.
Qed.

Lemma unknown_function_type_sections_witness :
  member "business_function_classification"
    (generateISO22301Section sample_env (Str "research") Null)
  = Normal (Str "To Be Determined")
  /\ member "mtpd" (generateISO22301Section sample_env (Str "research") Null)
     = Normal (Str "4 hours")
  /\ member "mbco" (generateISO22301Section sample_env (Str "research") Null)
     = Normal (Str "60% capacity within MTPD")
  /\ member "resource_requirements" (generateISO22301Section sample_env (Str "research") Null)
     = Normal (Str "Standard backup procedures")
  /\ member "compliance_requirements" (generateRiskComplianceSection Null (Str "research"))
     = Normal (strs ["Standard Controls"])
  /\ member "data_classification" (generateRiskComplianceSection Null (Str "research"))
     = Normal (Str "Internal/Confidential")
  /\ member "regulatory_impact" (generateRiskComplianceSection Null (Str "research"))
     = Normal (Str "Medium - Internal operations").
Proof.
  apply (unknown_function_type_sections sample_env "research" Null Null).
  - simpl. intros [H|[H|[H|[H|[H|[]]]]]]; discriminate.
  - reflexivity.
Defined.

(** X8: an overlay whose region is a string that is none of na, eu, apac
    and no property name of [Object.prototype] gets the placeholder row:
    legal entity "TBD", "Local Regulations", "Local Requirements", RTO
    "4 hours", RPO "1 hour"; the other properties of the requested overlay
    are dropped. *)
Theorem unknown_region_overlay (props : list (string * value)) (k : string) :
  get_member props "region" = Str k ->
  ~ In k ["na"; "eu"; "apac"] ->
  Object_prototype k = None ->
  generateRegionalOverlay (Obj props)
  = Normal (Obj [
      "region" ::= k;
      "legal_entity" ::= "TBD";
      "regulatory_framework" ::= "Local Regulations";
      "data_residency" ::= "Local Requirements";
      "local_requirements" ::=
        strs ["Data localization"; "Local incident reporting"; "Regulatory notifications"];
      "regional_rto" ::= "4 hours";
      "regional_rpo" ::= "1 hour";
      "confidence_score" ::= 0.75;
      "auto_populated" ::= Bool true
    ]).
Proof.
  intros Hr Hk Hp.
  destruct (unknown_region_defaults k Hk Hp) as (E1 & E2 & E3 & E4 & E5).
  unfold generateRegionalOverlay, field. rewrite Hr.
  cbv beta iota delta [mbind completion_bind].
  rewrite E1, E2, E3, E4, E5. reflexivity.
Qed.

Lemma unknown_region_overlay_witness :
  generateRegionalOverlay (Obj ["region" ::= "latam"; "requirements" ::= Obj []])
  = Normal (Obj [
      "region" ::= "latam";
      "legal_entity" ::= "TBD";
      "regulatory_framework" ::= "Local Regulations";
      "data_residency" ::= "Local Requirements";
      "local_requirements" ::=
        strs ["Data localization"; "Local incident reporting"; "Regulatory notifications"];
      "regional_rto" ::= "4 hours";
      "regional_rpo" ::= "1 hour";
      "confidence_score" ::= 0.75;
      "auto_populated" ::= Bool true
    ]).
Proof.
  apply (unknown_region_overlay ["region" ::= "latam"; "requirements" ::= Obj []] "latam").
  - reflexivity.
  - simpl. intros [H|[H|[H|[]]]]; discriminate.
  - reflexivity.
Defined.

(** ** The predictive engine, continued *)

Section RoosterOutcomes.

Variable JSON_parse : string -> option value.
Variable JSON_stringify : value -> string.

(** With a function name that can be logged and a process that ends, the
    [try] block either throws or returns formatted output. *)
Lemma try_shape env functionName inputData fs :
  loggable functionName = true ->
  process_end env <> never_closes ->
  exists fs',
    (exists e,
       RoosterService.generatePredictions_try JSON_parse JSON_stringify
         env functionName inputData fs = (Throw e, fs'))
    \/ (exists data parsed v,
          JSON_parse data = Some parsed
          /\ RoosterService.formatRoosterOutput (result_timestamp env) parsed = Normal v
          /\ RoosterService.generatePredictions_try JSON_parse JSON_stringify
               env functionName inputData fs = (Normal v, fs')).
Proof.
  intros Hl Hends. apply loggable_interpolate in Hl as El.
  unfold RoosterService.generatePredictions_try. rewrite El.
  change (_ ← Normal tt; ?k) with k.
  destruct (field inputData "registryData") as [r| | |] eqn:Er; simpl.
  2: eauto.
  2, 3: destruct inputData; discriminate.
  destruct (field inputData "monitoringData") as [m| | |] eqn:Em; simpl.
  2: eauto.
  2, 3: destruct inputData; discriminate.
  unfold writeFile. destruct (write_succeeds env); [|eauto].
  unfold RoosterService.executeRoosterPython.
  destruct (process_end env) as [e|code stderr|]; [eauto | | contradiction].
  destruct (code =? 0)%Z; [|eauto].
  unfold readFile.
  match goal with |- context [?m !! ?k] => destruct (m !! k) as [data|] end; simpl;
    [|eauto].
  destruct (JSON_parse data) as [parsed|] eqn:Ep; [|eauto].
  destruct (RoosterService.formatRoosterOutput (result_timestamp env) parsed)
    as [v|e| |] eqn:Ef.
  - eexists. right. exists data, parsed, v. auto.
  - eauto.
  - exfalso. unfold RoosterService.formatRoosterOutput in Ef.
    destruct parsed; discriminate.
  - exfalso. unfold RoosterService.formatRoosterOutput in Ef.
    destruct parsed; discriminate.
Qed.

(** Formatted output always carries a truthy overall confidence. *)
Lemma format_confident generated_at roosterData v :
  RoosterService.formatRoosterOutput generated_at roosterData = Normal v ->
  truthy (v ?. "confidence_overall")%js = true
  /\ truthy v = true.
Proof.
  unfold RoosterService.formatRoosterOutput.
  destruct (field roosterData "current_rto"); simpl; try discriminate.
  intros [= <-]. split; [|reflexivity].
  change ((Obj ?ps ?. ?k)%js) with (get_member ps k). unfold get_member; simpl.
  unfold js_or. destruct (truthy (roosterData ?. "overall_confidence")%js) eqn:E;
    [exact E | reflexivity].
Qed.


(** X10: under the same two conditions the value [generatePredictions]
    returns has a truthy confidence_overall.  So, put into the predictions
    slot, it is listed in the data_sources summary and its confidence is
    among the scores counted: with this slot filled by the route, the list
    of scores is not empty. *)
Theorem predictions_always_counted (env : RoosterEnv) (functionName inputData : value)
    (fs : FileSystem) (d : AutoPopulatedData) :
  loggable functionName = true ->
  process_end env <> never_closes ->
  exists v,
    fst (RoosterService.generatePredictions JSON_parse JSON_stringify
           env functionName inputData fs) = Normal v
    /\ truthy (v ?. "confidence_overall")%js = true
    /\ In (v ?. "confidence_overall")%js (collect_scores (set_slot Predictions v d))
    /\ exists entries,
         generateDataSourceSummary (set_slot Predictions v d) = Arr entries
         /\ In (summary_entry (set_slot Predictions v d) Predictions) entries.
Proof.
  intros Hl Hends.
  assert (H : exists v,
             fst (RoosterService.generatePredictions JSON_parse JSON_stringify
                    env functionName inputData fs) = Normal v
             /\ truthy (v ?. "confidence_overall")%js = true
             /\ truthy v = true).
  { unfold RoosterService.generatePredictions, RoosterService.getFallbackPredictions.
    rewrite (loggable_interpolate functionName Hl).
    destruct (try_shape env functionName inputData fs Hl Hends)
      as [fs' [[e ->] | (data & parsed & v & Ep & Ef & ->)]].
    - eexists. repeat split.
    - exists v. split; [reflexivity|]. exact (format_confident _ _ _ Ef). }
  destruct H as (v & E & Hc & Hv). exists v. split; [exact E|]. split; [exact Hc|]. split.
  - rewrite collect_scores_filter. apply filter_In. split.
    + apply in_map_iff. exists Predictions. split; [reflexivity | simpl; tauto].
    + exact Hc.
  - apply summary_lists_present. exact Hv.
Qed.

(** X11: with a function name that can be logged, output that parses to
    [null] (the text null is valid JSON) makes the formatting throw, so
    [generatePredictions] returns the fallback object. *)
Theorem null_output_falls_back (env : RoosterEnv) (functionName inputData : value)
    (fs : FileSystem) (stderr data : string) :
  loggable functionName = true ->
  process_end env = close 0 stderr ->
  output_written env = Some data ->
  JSON_parse data = Some Null ->
  fst (RoosterService.generatePredictions JSON_parse JSON_stringify
         env functionName inputData fs)
  = Normal (RoosterService.fallbackPredictions (result_timestamp env)).
Proof.
  intros Hl He Ho Hp. apply loggable_interpolate in Hl as El.
  unfold RoosterService.generatePredictions, RoosterService.generatePredictions_try,
    RoosterService.getFallbackPredictions.
  rewrite El. change (_ ← Normal tt; ?k) with k.
  destruct (field inputData "registryData") as [r| | |] eqn:Er; simpl.
  2: reflexivity.
  2, 3: destruct inputData; discriminate.
  destruct (field inputData "monitoringData") as [m| | |] eqn:Em; simpl.
  2: reflexivity.
  2, 3: destruct inputData; discriminate.
  unfold writeFile. destruct (write_succeeds env); [|reflexivity].
  unfold RoosterService.executeRoosterPython. rewrite He, Ho. simpl.
  unfold readFile. rewrite lookup_insert_eq. simpl. rewrite Hp. reflexivity.
Qed.

(** X12: on the success path, with a function name that can be logged, the
    two temporary files are gone when [generatePredictions] returns, and
    every other file of the directory is as it was. *)
Theorem success_leaves_no_temp_files (env : RoosterEnv) (functionName : value)
    (props : list (string * value)) (fs : FileSystem)
    (stderr data : string) (parsed result : value) :
  loggable functionName = true ->
  write_succeeds env = true ->
  process_end env = close 0 stderr ->
  output_written env = Some data ->
  JSON_parse data = Some parsed ->
  RoosterService.formatRoosterOutput (result_timestamp env) parsed = Normal result ->
  exists fs',
    RoosterService.generatePredictions JSON_parse JSON_stringify
      env functionName (Obj props) fs = (Normal result, fs')
    /\ fs' !! RoosterService.inputFile_of env = None
    /\ fs' !! RoosterService.outputFile_of env = None
    /\ forall path,
         path <> RoosterService.inputFile_of env ->
         path <> RoosterService.outputFile_of env ->
         fs' !! path = fs !! path.
Proof.
  intros Hl Hw He Ho Hp Hf. apply loggable_interpolate in Hl as El.
  pose proof (files_differ env) as Hd.
  unfold RoosterService.generatePredictions, RoosterService.generatePredictions_try.
  rewrite El. simpl. unfold writeFile. rewrite Hw.
  unfold RoosterService.executeRoosterPython. rewrite He, Ho. simpl.
  unfold readFile. rewrite lookup_insert_eq. simpl. rewrite Hp, Hf.
  unfold RoosterService.cleanup, unlink.
  rewrite lookup_insert_ne by congruence. rewrite lookup_insert_eq.
  rewrite lookup_delete_ne by congruence. rewrite lookup_insert_eq. simpl.
  eexists; split; [reflexivity|]. split; [|split].
  - rewrite lookup_delete_ne by congruence. apply lookup_delete_eq.
  - apply lookup_delete_eq.
  - intros path H1 H2.
    rewrite !lookup_delete_ne by congruence.
    rewrite !lookup_insert_ne by congruence. reflexivity.
Qed.

End RoosterOutcomes.


Lemma predictions_always_counted_witness :
  exists v,
    fst (RoosterService.generatePredictions parses_to_empty_object prints_braces
           engine_succeeds "PaymentsCore" no_snapshots ∅) = Normal v
    /\ truthy (v ?. "confidence_overall")%js = true
    /\ In (v ?. "confidence_overall")%js (collect_scores (set_slot Predictions v all_absent))
    /\ exists entries,
         generateDataSourceSummary (set_slot Predictions v all_absent) = Arr entries
         /\ In (summary_entry (set_slot Predictions v all_absent) Predictions) entries.
Proof.
  apply (predictions_always_counted parses_to_empty_object prints_braces
           engine_succeeds "PaymentsCore" no_snapshots ∅ all_absent);
    [reflexivity | discriminate].
Defined.

Lemma null_output_falls_back_witness :
  fst (RoosterService.generatePredictions parses_to_null prints_braces
         engine_succeeds "PaymentsCore" no_snapshots ∅)
  = Normal (RoosterService.fallbackPredictions (result_timestamp engine_succeeds)).
Proof.
  apply (null_output_falls_back parses_to_null prints_braces engine_succeeds
           "PaymentsCore" no_snapshots ∅ "" "{}"); reflexivity.
Defined.

Lemma success_leaves_no_temp_files_witness :
  exists fs',
    RoosterService.generatePredictions parses_to_empty_object prints_braces
      engine_succeeds "PaymentsCore"
      (Obj ["registryData" ::= Null; "monitoringData" ::= Null]) one_other_file
    = (Normal (Obj [
         "rto_analysis" ::= Obj [
           "current_estimate" ::= "45 minutes";
           "confidence_score" ::= 0.8;
           "twelve_month_forecast" ::= "35 minutes";
           "improvement_potential" ::= "22%"
         ];
         "rpo_analysis" ::= Obj [
           "current_estimate" ::= "15 minutes";
           "confidence_score" ::= 0.75;
           "twelve_month_forecast" ::= "10 minutes";
           "improvement_potential" ::= "33%"
         ];
         "risk_assessment" ::= Obj [
           "overall_risk" ::= "Medium";
           "risk_factors" ::= strs [
             "Elevated latency trends";
             "Dependency complexity";
             "Limited redundancy"
           ];
           "mitigation_recommendations" ::= strs [
             "Implement circuit breakers";
             "Add regional failover";
             "Optimize database queries"
           ]
         ];
         "performance_predictions" ::= Obj [
           "availability_forecast" ::= "99.92%";
           "capacity_utilization" ::= "68%";
           "scaling_requirements" ::= "Moderate growth expected"
         ];
         "scenarios" ::= Obj [
           "best_case" ::=
             Obj ["rto" ::= "25 minutes"; "rpo" ::= "5 minutes"; "probability" ::= "25%"];
           "most_likely" ::=
             Obj ["rto" ::= "35 minutes"; "rpo" ::= "10 minutes"; "probability" ::= "50%"];
           "worst_case" ::=
             Obj ["rto" ::= "60 minutes"; "rpo" ::= "30 minutes"; "probability" ::= "25%"]
         ];
         "data_sources" ::= strs [
           "Historical incident data";
           "Performance metrics";
           "Dependency analysis";
           "Capacity planning models"
         ];
         "generated_at" ::= "2024-09-15T10:00:03.000Z";
         "rooster_version" ::= "2.0";
         "confidence_overall" ::= 0.82
       ]), fs')
    /\ fs' !! RoosterService.inputFile_of engine_succeeds = None
    /\ fs' !! RoosterService.outputFile_of engine_succeeds = None
    /\ forall path,
         path <> RoosterService.inputFile_of engine_succeeds ->
         path <> RoosterService.outputFile_of engine_succeeds ->
         fs' !! path = one_other_file !! path.
Proof.
  apply (success_leaves_no_temp_files parses_to_empty_object prints_braces engine_succeeds
           "PaymentsCore" ["registryData" ::= Null; "monitoringData" ::= Null]
           one_other_file "" "{}" (Obj [])); reflexivity.
Defined.

(** ** The routes *)

Lemma world_eta (w : World) : {| db := db w; fusion_pushes := fusion_pushes w |} = w.
Proof. destruct w; reflexivity. Qed.

Lemma in_function_types ft :
  In ft function_types ->
  existsb (String.eqb ft) ["product"; "platform"; "support"; "infrastructure"; "compliance"]
  = true.
Proof.
  intros H. apply existsb_exists. exists ft. split; [exact H | apply String.eqb_refl].
Qed.

Lemma not_in_function_types ft :
  ~ In ft function_types ->
  existsb (String.eqb ft) ["product"; "platform"; "support"; "infrastructure"; "compliance"]
  = false.
Proof.
  intros H. destruct (existsb _ _) eqn:E; [|reflexivity].
  apply existsb_exists in E as (x & Hx & Ex). apply String.eqb_eq in Ex. subst. contradiction.
Qed.

Lemma validate_accepts body name ft :
  body_functionName body = Some name -> name <> "" ->
  body_functionType body = Some ft -> In ft function_types ->
  (body_regionalOverlays body = None
   \/ exists overlays, body_regionalOverlays body = Some (Arr overlays)) ->
  validateGenerate body = [].
Proof.
  intros Hn Hne Ht Hin Ho. unfold validateGenerate.
  rewrite Hn, Ht, (in_function_types ft Hin).
  destruct (String.eqb_spec name "") as [->|_]; [contradiction|].
  destruct Ho as [-> | [overlays ->]]; reflexivity.
Qed.

(** The payloads of the five adapters together with the fallback
    predictions: six usable confidences. *)
Lemma gathered_with_fallback (env : GenerateEnv) (name : string) (team : option string) :
  exists r g h f m,
    getRegistryData (registry_time env) (Str name) = Normal r
    /\ getPagerDutyData (pagerduty_time env) (Str name) = Normal g
    /\ getHRData (hr_time env) (body_value team) = Normal h
    /\ getFinancialData (financial_time env) (Str name) = Normal f
    /\ getMonitoringData (monitoring_time env) (Str name) = Normal m
    /\ forall generated_at,
         let d := gathered (fulfilled r) (fulfilled g) (fulfilled h) (fulfilled f) (fulfilled m)
                    (RoosterService.fallbackPredictions generated_at) in
         forallb (reports_score d) all_sources = true
         /\ map (score_of d) (List.filter (succeeded d) all_sources)
            = [0.7; 0.8; 0.6; 0.75; 0.9; 0.6].
Proof.
  destruct team as [team|]; do 5 eexists; do 5 (split; [reflexivity|]);
    intros generated_at d; split; vm_compute; reflexivity.
Qed.

Lemma generateBIA_aborts (env : Env) (req : BIARequest) (db : Database) (ft : string) :
  loggable (functionName req) = true ->
  functionType req = Str ft ->
  forallb (reports_score (autoPopulatedData req)) all_sources = true ->
  overlays_throw (regionalOverlays req) = true ->
  exists e, generateBIA env req db = (Throw e, db).
Proof.
  intros Hl Eft Hs Ho.
  pose proof (reports_score_each (autoPopulatedData req)) as E.
  destruct (personnel_returns _ (E HR Hs) (E PagerDuty Hs)) as [p Ep].
  destruct (recovery_returns _ (E Predictions Hs) (E Monitoring Hs)) as [r Er].
  destruct (risk_compliance_returns (registry (autoPopulatedData req)) ft) as (k & Ek & _).
  destruct (iso_returns env ft (predictions (autoPopulatedData req))) as (i & Ei & _).
  destruct (overlays_throw_spec _ Ho) as [e Eo].
  exists e. unfold generateBIA, biaDocument.
  rewrite (loggable_interpolate _ Hl), Eft, Ep, Er, Ek, Ei. simpl. rewrite Eo. reflexivity.
Qed.

Lemma generateBIA_keeps_store (env : Env) (req : BIARequest) (d : Database) :
  snd (generateBIA env req d) = d.
Proof.
  unfold generateBIA, storeBIA.
  destruct (_ ← interpolate (functionName req); biaDocument env req) as [doc| | |];
    [|reflexivity..].
  destruct (id ← field doc "id"; _ ← interpolate id; Normal id); reflexivity.
Qed.

Section Routes.

Variable JSON_parse : string -> option value.
Variable JSON_stringify : value -> string.

(** X13: a generate request whose function name is missing or empty, whose
    function type is missing or none of the five, or whose regionalOverlays
    is given (not undefined) and no array, is answered 400 with a non-empty
    error list; nothing is gathered, no prediction is run and no file is
    written. *)
Theorem generate_rejects_invalid_body (env : GenerateEnv) (body : GenerateBody)
    (w : World) (fs : FileSystem) :
  (body_functionName body = None \/ body_functionName body = Some "")
  \/ (forall ft, body_functionType body = Some ft -> ~ In ft function_types)
  \/ (exists v, body_regionalOverlays body = Some v
                 /\ v <> Undefined /\ forall items, v <> Arr items) ->
  exists errors,
    errors <> []
    /\ generate JSON_parse JSON_stringify env body w fs
       = (Normal {| http_status := 400; json := Obj ["errors" ::= Arr errors] |}, w, fs).
Proof.
  intros H.
  assert (E : exists e errors, validateGenerate body = e :: errors).
  { unfold validateGenerate.
    destruct H as [[-> | ->] | [H | (v & -> & Hu & H)]].
    - simpl. eauto.
    - simpl. eauto.
    - destruct (body_functionName body) as [n|]; [destruct (String.eqb n "")|];
        (destruct (body_functionType body) as [ft|];
         [rewrite (not_in_function_types ft (H ft eq_refl))|]); simpl; eauto.
    - destruct (body_functionName body) as [n|]; [destruct (String.eqb n "")|];
        (destruct (body_functionType body) as [ft|]; [destruct (existsb _ _)|]);
        (destruct v; [contradiction|..|exfalso; eapply H; reflexivity| |]); simpl; eauto. }
  destruct E as (e & errors & E).
  exists (e :: errors). split; [discriminate|].
  unfold generate. rewrite E. reflexivity.
Qed.

Lemma fallback_run (env : GenerateEnv) (functionName inputData : value) (fs : FileSystem) :
  loggable functionName = true ->
  unavailable JSON_parse (rooster env) ->
  exists fs',
    RoosterService.generatePredictions JSON_parse JSON_stringify (rooster env)
      functionName inputData fs
    = (Normal (RoosterService.fallbackPredictions (result_timestamp (rooster env))), fs').
Proof.
  intros Hl Hu.
  destruct (try_throws_when_unavailable JSON_parse JSON_stringify (rooster env)
              functionName inputData fs Hl Hu) as (e & fs' & E).
  exists fs'. unfold RoosterService.generatePredictions. rewrite E.
  unfold RoosterService.getFallbackPredictions.
  rewrite (loggable_interpolate functionName Hl). reflexivity.
Qed.

(** X14: a valid generate request (a non-empty name, one of the five function
    types, no overlays or well-shaped ones) is answered 200 when the
    predictive engine is unavailable.  All five sources are reported
    fulfilled, the document is a draft that carries the fallback predictions,
    and its assessment is the fixed one of the mock payloads: overall
    confidence 0.73, completeness 100, level Medium, no recommendations.  The
    store and the pushes are as before. *)
Theorem generate_degrades_to_fallback (env : GenerateEnv) (body : GenerateBody)
    (name ft : string) (w : World) (fs : FileSystem) :
  body_functionName body = Some name -> name <> "" ->
  body_functionType body = Some ft -> In ft function_types ->
  (body_regionalOverlays body = None
   \/ exists overlays, body_regionalOverlays body = Some (Arr overlays)
                       /\ forallb overlay_ok overlays = true) ->
  unavailable JSON_parse (rooster env) ->
  exists bia fs',
    generate JSON_parse JSON_stringify env body w fs
    = (Normal {| http_status := 200;
                 json := Obj [
                   "success" ::= Bool true;
                   "bia" ::= bia;
                   "fusionStatus" ::= mockFusionCheck (fusion_check env);
                   "dataSourceStatus" ::= all_fulfilled;
                   "generatedAt" ::= responded_at env
                 ] |}, w, fs')
    /\ (bia ?. "status")%js = "draft"
    /\ (bia ?. "predictive_analysis")%js
       = RoosterService.fallbackPredictions (result_timestamp (rooster env))
    /\ (bia ?. "confidence_assessment")%js = fallback_assessment.
Proof.
  intros Hn Hne Ht Hin Ho Hu.
  assert (Hv : validateGenerate body = []).
  { apply (validate_accepts body name ft Hn Hne Ht Hin).
    destruct Ho as [Ho | (overlays & Ho & _)]; eauto. }
  destruct (gathered_with_fallback env name (body_driTeam body))
    as (r & g & h & f & m & Er & Eg & Eh & Ef & Em & Hd).
  unfold generate. rewrite Hv, Hn, Ht.
  cbn [body_value interpolate]. rewrite Er, Eg, Eh, Ef, Em.
  cbv beta iota delta [settle mbind mret completion_bind completion_ret].
  destruct (fallback_run env (Str name)
              (Obj ["registryData" ::= settled_value (fulfilled r);
                    "monitoringData" ::= settled_value (fulfilled m)]) fs eq_refl Hu)
    as [fs' Ep].
  rewrite Ep.
  specialize (Hd (result_timestamp (rooster env))). destruct Hd as [Hs Hl].
  match goal with |- context [generateBIA ?e ?q ?d] =>
    destruct (generateBIA_returns e q d) as
      (personnel & business & technology & recovery & risk & iso & overlays & assessment
       & _ & _ & _ & _ & _ & _ & Ea & Eb)
  end.
  { unfold request_ok. cbn [functionType autoPopulatedData regionalOverlays].
    rewrite Hs. simpl.
    destruct Ho as [-> | (overlays & -> & Ho)]; [reflexivity | exact Ho]. }
  rewrite Eb. rewrite world_eta.
  cbn [autoPopulatedData] in Ea.
  rewrite (calculate_on_numbers _ Hs), Hl in Ea.
  injection Ea as <-.
  do 2 eexists. split; [reflexivity|].
  repeat split; reflexivity.
Qed.

(** X15: validation lets a regionalOverlays array with a null entry through
    (it only asks for an array), and the request then fails: with the
    predictive engine unavailable the answer is 500 'Failed to generate BIA'
    with the message of the error, and the store is as before. *)
Theorem null_overlay_answers_500 (env : GenerateEnv) (body : GenerateBody)
    (name ft : string) (overlays : list value) (w : World) (fs : FileSystem) :
  body_functionName body = Some name -> name <> "" ->
  body_functionType body = Some ft -> In ft function_types ->
  body_regionalOverlays body = Some (Arr overlays) ->
  reaches_null_entry overlays = true ->
  unavailable JSON_parse (rooster env) ->
  validateGenerate body = []
  /\ exists message fs',
       generate JSON_parse JSON_stringify env body w fs
       = (Normal {| http_status := 500;
                    json := Obj [
                      "error" ::= "Failed to generate BIA";
                      "message" ::= Str message;
                      "timestamp" ::= responded_at env
                    ] |}, w, fs').
Proof.
  intros Hn Hne Ht Hin Ho Hr Hu.
  assert (Hv : validateGenerate body = []).
  { apply (validate_accepts body name ft Hn Hne Ht Hin). eauto. }
  split; [exact Hv|].
  destruct (gathered_with_fallback env name (body_driTeam body))
    as (r & g & h & f & m & Er & Eg & Eh & Ef & Em & Hd).
  unfold generate. rewrite Hv, Hn, Ht, Ho.
  cbn [body_value interpolate]. rewrite Er, Eg, Eh, Ef, Em.
  cbv beta iota delta [settle mbind mret completion_bind completion_ret].
  destruct (fallback_run env (Str name)
              (Obj ["registryData" ::= settled_value (fulfilled r);
                    "monitoringData" ::= settled_value (fulfilled m)]) fs eq_refl Hu)
    as [fs' Ep].
  rewrite Ep.
  specialize (Hd (result_timestamp (rooster env))). destruct Hd as [Hs _].
  match goal with |- context [generateBIA ?e ?q ?d] =>
    destruct (generateBIA_aborts e q d ft) as [e' Eb]
  end; [reflexivity | reflexivity | exact Hs | exact Hr |].
  rewrite Eb, world_eta.
  exists (exn_message e'), fs'. reflexivity.
Qed.

Lemma generate_keeps_store (env : GenerateEnv) (body : GenerateBody) (w : World)
    (fs : FileSystem) :
  db (snd (fst (generate JSON_parse JSON_stringify env body w fs))) = db w.
Proof.
  unfold generate.
  destruct (validateGenerate body); [|reflexivity].
  match goal with
  | |- context [match ?c with
                | Normal _ => _ | Throw _ => _ | Unmodelled => _ | Pending => _ end] =>
      destruct c as [[[[[r g] h] f] m]| | |]
  end; [|reflexivity..].
  destruct (RoosterService.generatePredictions _ _ _ _ _ _) as [[p| | |] fs'];
    [|reflexivity..].
  match goal with |- context [generateBIA ?e ?q ?d] =>
    pose proof (generateBIA_keeps_store e q d) as E;
    destruct (generateBIA e q d) as [[doc| | |] d'] end; simpl in E; subst d';
    [|reflexivity..].
  destruct (checkFusionRecord _ _); reflexivity.
Qed.

Lemma serve_keeps_store (r : request) (s : World * FileSystem) :
  db (fst (serve JSON_parse JSON_stringify r s)) = db (fst s).
Proof.
  destruct r as [env body|env t body|id|filters]; destruct s as [w fs]; simpl.
  - pose proof (generate_keeps_store env body w fs) as E.
    destruct (generate JSON_parse JSON_stringify env body w fs) as [[c w'] fs']. exact E.
  - unfold approve, updateBIAStatus. destruct (validationResult body); [|reflexivity].
    destruct (_ ← interpolate _; pushToFusion _ _ _); try reflexivity.
    destruct (_ ← interpolate _; _ ← interpolate _; Normal (Bool true)); reflexivity.
  - reflexivity.
  - reflexivity.
Qed.

(** X16: no sequence of requests to the BIA routes (generate, approve, get,
    list) changes the document store, and after any such sequence GET by id
    answers 404 'BIA not found' for every id (the route parameter, a string)
    and the list is empty: a generated document cannot be read back. *)
Theorem nothing_is_stored (requests : list request) (w : World) (fs : FileSystem)
    (id : string) (filters : value) :
  db (fst (serve_all JSON_parse JSON_stringify requests (w, fs))) = db w
  /\ fst (getById id (fst (serve_all JSON_parse JSON_stringify requests (w, fs))))
     = Normal not_found
  /\ fst (listAll filters (fst (serve_all JSON_parse JSON_stringify requests (w, fs))))
     = {| http_status := 200; json := Arr [] |}.
Proof.
  split; [|split; reflexivity].
  change w with (fst (w, fs)) at 2. generalize (w, fs). clear w fs.
  unfold serve_all.
  induction requests as [|r requests IH]; intros s; [reflexivity|].
  simpl. rewrite IH. apply serve_keeps_store.
Qed.

End Routes.

Lemma generate_rejects_invalid_body_witness :
  exists errors,
    errors <> []
    /\ generate never_parses prints_braces sample_generate_env
         (payments_body "finance" None) draft_world one_other_file
       = (Normal {| http_status := 400; json := Obj ["errors" ::= Arr errors] |},
          draft_world, one_other_file).
Proof.
  apply (generate_rejects_invalid_body never_parses prints_braces sample_generate_env
           (payments_body "finance" None) draft_world one_other_file).
  right; left. intros ft [= <-]. simpl.
  intros [H|[H|[H|[H|[H|[]]]]]]; discriminate.
Defined.

Lemma generate_degrades_to_fallback_witness :
  exists bia fs',
    generate never_parses prints_braces sample_generate_env
      (payments_body "platform" (Some (Arr [Obj ["region" ::= "eu"]])))
      draft_world one_other_file
    = (Normal {| http_status := 200;
                 json := Obj [
                   "success" ::= Bool true;
                   "bia" ::= bia;
                   "fusionStatus" ::= mockFusionCheck sample_check_env;
                   "dataSourceStatus" ::= all_fulfilled;
                   "generatedAt" ::= "2024-09-15T10:00:00.100Z"
                 ] |}, draft_world, fs')
    /\ (bia ?. "status")%js = "draft"
    /\ (bia ?. "predictive_analysis")%js
       = RoosterService.fallbackPredictions "2024-09-15T10:00:00.050Z"
    /\ (bia ?. "confidence_assessment")%js = fallback_assessment.
Proof.
  apply (generate_degrades_to_fallback never_parses prints_braces sample_generate_env
           (payments_body "platform" (Some (Arr [Obj ["region" ::= "eu"]])))
           "PaymentsCore" "platform" draft_world one_other_file).
  - reflexivity.
  - discriminate.
  - reflexivity.
  - simpl. tauto.
  - right. eexists. split; reflexivity.
  - eapply nonzero_exit; [reflexivity | discriminate].
Defined.

Lemma null_overlay_answers_500_witness :
  validateGenerate (payments_body "product" (Some (Arr [Obj ["region" ::= "eu"]; Null]))) = []
  /\ exists message fs',
       generate never_parses prints_braces sample_generate_env
         (payments_body "product" (Some (Arr [Obj ["region" ::= "eu"]; Null])))
         draft_world one_other_file
       = (Normal {| http_status := 500;
                    json := Obj [
                      "error" ::= "Failed to generate BIA";
                      "message" ::= Str message;
                      "timestamp" ::= "2024-09-15T10:00:00.100Z"
                    ] |}, draft_world, fs').
Proof.
  apply (null_overlay_answers_500 never_parses prints_braces sample_generate_env
           (payments_body "product" (Some (Arr [Obj ["region" ::= "eu"]; Null])))
           "PaymentsCore" "product" [Obj ["region" ::= "eu"]; Null]
           draft_world one_other_file).
  - reflexivity.
  - discriminate.
  - reflexivity.
  - simpl. tauto.
  - reflexivity.
  - reflexivity.
  - eapply nonzero_exit; [reflexivity | discriminate].
Defined.

(** X17: an approve request without a BIA id, or with an empty one, is
    answered 400 with exactly one validation error, whose message is
    'BIA ID is required'; nothing is pushed to Fusion and the store is
    untouched. *)
Theorem approve_requires_id (env : FusionEnv) (approvedAt : string) (body : ApproveBody)
    (w : World) :
  biaId body = None \/ biaId body = Some "" ->
  exists entry,
    approve env approvedAt body w
    = (Normal {| http_status := 400; json := Obj ["errors" ::= Arr [entry]] |}, w)
    /\ (entry ?. "msg")%js = "BIA ID is required".
Proof.
  intros [H | H]; unfold approve, validationResult; rewrite H;
    eexists; split; reflexivity.
Qed.

Lemma approve_requires_id_witness :
  exists entry,
    approve sample_fusion_env "2024-09-15T10:00:02.100Z"
      {| biaId := Some ""; comments := Some "ok" |} draft_world
    = (Normal {| http_status := 400; json := Obj ["errors" ::= Arr [entry]] |},
       draft_world)
    /\ (entry ?. "msg")%js = "BIA ID is required".
Proof.
  apply (approve_requires_id sample_fusion_env "2024-09-15T10:00:02.100Z"
           {| biaId := Some ""; comments := Some "ok" |} draft_world).
  right. reflexivity.
Defined.

(** ** Testing a connection *)

Import DataSourceController.

Lemma falsy_name_defaults (functionName : value) :
  truthy functionName = false -> js_or functionName "test" = "test".
Proof. intros H. unfold js_or. rewrite H. reflexivity. Qed.

Lemma truthy_name_kept (functionName : value) :
  truthy functionName = true -> js_or functionName "test" = functionName.
Proof. intros H. unfold js_or. rewrite H. reflexivity. Qed.

(** X18: testing one of the five data sources without a function name (or
    with a falsy one: the empty string, null, 0) tests it under the name
    'test': the answer is 200 and the payload echoes 'test' and carries the
    time of the call. *)
Theorem test_connection_defaults_name (last_updated timestamp source : string)
    (functionName : value) :
  In source adapters ->
  truthy functionName = false ->
  exists testResult,
    testConnection last_updated timestamp (Str source) functionName
    = Normal {| http_status := 200;
                json := Obj [
                  "success" ::= Bool true;
                  "dataSource" ::= Str source;
                  "testResult" ::= testResult;
                  "timestamp" ::= timestamp
                ] |}
    /\ (testResult ?. echo_key source)%js = "test"
    /\ (testResult ?. "last_updated")%js = last_updated.
Proof.
  intros Hs Hf. unfold testConnection. rewrite (falsy_name_defaults _ Hf).
  unfold adapters in Hs. simpl in Hs.
  destruct Hs as [<- | [<- | [<- | [<- | [<- | []]]]]];
    eexists; (split; [reflexivity|]); split; reflexivity.
Qed.

Lemma test_connection_defaults_name_witness :
  exists testResult,
    testConnection "2024-09-15T10:00:00.001Z" "2024-09-15T10:00:00.002Z" "registry" ""
    = Normal {| http_status := 200;
                json := Obj [
                  "success" ::= Bool true;
                  "dataSource" ::= "registry";
                  "testResult" ::= testResult;
                  "timestamp" ::= "2024-09-15T10:00:00.002Z"
                ] |}
    /\ (testResult ?. echo_key "registry")%js = "test"
    /\ (testResult ?. "last_updated")%js = "2024-09-15T10:00:00.001Z".
Proof.
  apply (test_connection_defaults_name "2024-09-15T10:00:00.001Z" "2024-09-15T10:00:00.002Z"
           "registry" "").
  - simpl. tauto.
  - reflexivity.
Defined.

(** X19: a function name that is a truthy number, boolean or array, and
    that can be logged, is passed to the adapter as it is.  The registry
    adapter calls toLowerCase on it, so the registry test answers 500 with
    'Failed to fetch Registry data: functionName.toLowerCase is not a
    function'; each of the other four adapters answers 200 and echoes the
    value. *)
Theorem registry_test_needs_string (last_updated timestamp : string)
    (functionName : value) :
  truthy_non_string functionName = true ->
  loggable functionName = true ->
  testConnection last_updated timestamp "registry" functionName
  = Normal {| http_status := 500;
              json := Obj [
                "success" ::= Bool false;
                "error" ::=
                  "Failed to fetch Registry data: functionName.toLowerCase is not a function";
                "timestamp" ::= timestamp
              ] |}
  /\ Forall
       (fun source : string =>
          exists testResult,
            testConnection last_updated timestamp (Str source) functionName
            = Normal {| http_status := 200;
                        json := Obj [
                          "success" ::= Bool true;
                          "dataSource" ::= Str source;
                          "testResult" ::= testResult;
                          "timestamp" ::= timestamp
                        ] |}
            /\ (testResult ?. echo_key source)%js = functionName)
       ["pagerduty"; "hr"; "financial"; "monitoring"].
Proof.
  intros Hn Hl. apply loggable_interpolate in Hl as El.
  assert (Ht : truthy functionName = true).
  { destruct functionName; try discriminate; exact Hn. }
  unfold testConnection. rewrite (truthy_name_kept _ Ht).
  split.
  - simpl. unfold getRegistryData. rewrite El.
    destruct functionName; try discriminate; reflexivity.
  - repeat constructor; simpl;
      unfold getPagerDutyData, getHRData, getFinancialData, getMonitoringData;
      rewrite El; eexists; (split; [reflexivity|]); reflexivity.
Qed.

Lemma registry_test_needs_string_witness :
  testConnection "2024-09-15T10:00:00.001Z" "2024-09-15T10:00:00.002Z" "registry" 42
  = Normal {| http_status := 500;
              json := Obj [
                "success" ::= Bool false;
                "error" ::=
                  "Failed to fetch Registry data: functionName.toLowerCase is not a function";
                "timestamp" ::= "2024-09-15T10:00:00.002Z"
              ] |}
  /\ Forall
       (fun source : string =>
          exists testResult,
            testConnection "2024-09-15T10:00:00.001Z" "2024-09-15T10:00:00.002Z"
              (Str source) 42
            = Normal {| http_status := 200;
                        json := Obj [
                          "success" ::= Bool true;
                          "dataSource" ::= Str source;
                          "testResult" ::= testResult;
                          "timestamp" ::= "2024-09-15T10:00:00.002Z"
                        ] |}
            /\ (testResult ?. echo_key source)%js = 42)
       ["pagerduty"; "hr"; "financial"; "monitoring"].
Proof.
  apply (registry_test_needs_string "2024-09-15T10:00:00.001Z" "2024-09-15T10:00:00.002Z" 42);
    reflexivity.
Defined.

(** An array that holds an object which cannot be converted to a string
    fails every test: each adapter throws at its log line. *)
Example unprintable_name_fails_every_test :
  Forall
    (fun source : string =>
       exists prefix,
         testConnection "2024-09-15T10:00:00.001Z" "2024-09-15T10:00:00.002Z"
           (Str source) (Arr [unprintable])
         = Normal {| http_status := 500;
                     json := Obj [
                       "success" ::= Bool false;
                       "error" ::=
                         (prefix ++ "Cannot convert object to primitive value")%string;
                       "timestamp" ::= "2024-09-15T10:00:00.002Z"
                     ] |})
    adapters.
Proof.
  repeat constructor.
  - exists "Failed to fetch Registry data: ". reflexivity.
  - exists "Failed to fetch PagerDuty data: ". reflexivity.
  - exists "Failed to fetch HR data: ". reflexivity.
  - exists "Failed to fetch Financial data: ". reflexivity.
  - exists "Failed to fetch Monitoring data: ". reflexivity.
Qed.

(** X20: a dataSource that is not exactly one of 'registry', 'pagerduty',
    'hr', 'financial', 'monitoring' (another string, another case, no string
    at all, or missing) is answered 400 'Invalid data source', whatever the
    function name. *)
Theorem unknown_source_rejected (last_updated timestamp : string)
    (dataSource functionName : value) :
  (forall source, In source adapters -> dataSource <> Str source) ->
  testConnection last_updated timestamp dataSource functionName
  = Normal {| http_status := 400; json := Obj ["error" ::= "Invalid data source"] |}.
Proof.
  intros H. unfold testConnection.
  assert (E : forall source, In source adapters -> strict_eq dataSource (Str source) = false).
  { intros source Hs. specialize (H source Hs).
    destruct dataSource; try reflexivity. simpl.
    destruct (String.eqb_spec s source) as [->|_]; [contradiction | reflexivity]. }
  rewrite !E by (unfold adapters; simpl; tauto). reflexivity.
Qed.

Lemma unknown_source_rejected_witness :
  testConnection "2024-09-15T10:00:00.001Z" "2024-09-15T10:00:00.002Z" "Registry" "PaymentsCore"
  = Normal {| http_status := 400; json := Obj ["error" ::= "Invalid data source"] |}.
Proof.
  apply (unknown_source_rejected "2024-09-15T10:00:00.001Z" "2024-09-15T10:00:00.002Z"
           "Registry" "PaymentsCore").
  intros source Hs. simpl in Hs.
  destruct Hs as [<- | [<- | [<- | [<- | [<- | []]]]]]; discriminate.
Defined.

(** ** Health *)

Import HealthController.

(** X21: for the six settled checks, the overall health of the data sources
    is 'healthy' exactly when at most two of them were rejected and
    'degraded' exactly when three or more were; it is never 'error'. *)
Theorem at_most_two_failures_stay_healthy (c0 c1 c2 c3 c4 c5 : option value) :
  ((summarizeHealth [c0; c1; c2; c3; c4; c5] ?. "overall")%js = "healthy"
   <-> (length (List.filter is_rejected [c0; c1; c2; c3; c4; c5]) <= 2)%nat)
  /\ ((summarizeHealth [c0; c1; c2; c3; c4; c5] ?. "overall")%js = "degraded"
      <-> (3 <= length (List.filter is_rejected [c0; c1; c2; c3; c4; c5]))%nat).
Proof.
  split.
  - destruct c0, c1, c2, c3, c4, c5; simpl; split; intros H; try reflexivity; try lia;
      try discriminate.
  - destruct c0, c1, c2, c3, c4, c5; simpl; split; intros H; try reflexivity; try lia;
      try discriminate.
Qed.

(** X22: the health route follows the Rooster installation alone.  The data
    sources always report 'healthy'; the answer is 200 'healthy' when both
    Rooster paths are accessible and 503 'degraded' with the engine
    'unavailable' otherwise.  The readiness probe answers 200 with
    ready: true in either case. *)
Theorem health_follows_rooster (info : ProcessInfo) (timestamp failed_at : string)
    (access : string -> option string) (t0 t1 t2 t3 t4 t5 tr : string) :
  (exists r,
     healthRoute info timestamp failed_at access t0 t1 t2 t3 t4 t5 tr = Normal r
     /\ http_status r = (if rooster_available access then 200 else 503)%Z
     /\ (json r ?. "status")%js
        = Str (if rooster_available access then "healthy" else "degraded")
     /\ (json r ?. "services" ?. "data_sources" ?. "overall")%js = "healthy"
     /\ (json r ?. "services" ?. "rooster_engine" ?. "status")%js
        = Str (if rooster_available access then "healthy" else "unavailable"))
  /\ readinessRoute timestamp access t0 tr
     = {| http_status := 200;
          json := Obj ["ready" ::= Bool true; "timestamp" ::= timestamp; "checks" ::= 2] |}.
Proof.
  split; [|reflexivity].
  unfold healthRoute, health, RoosterService.getServiceHealth, rooster_available.
  change (path_join "/Users/mshevchik/rooster_bia" "rto_rpo_predictor.py")
    with "/Users/mshevchik/rooster_bia/rto_rpo_predictor.py".
  destruct (access "/Users/mshevchik/rooster_bia") as [m1|];
    [|destruct (access "/Users/mshevchik/rooster_bia/rto_rpo_predictor.py") as [m2|]];
    eexists; (split; [reflexivity|]); repeat split; reflexivity.
Qed.

(** ** The record of a push *)

(** X23: for a BIA id that can be logged (every string can), [pushToFusion]
    returns a record whose record id and Fusion URL come from two separate
    random draws: the URL is the address of the returned record_id exactly
    when the two draws coincide.  The BIA id does not enter the record:
    pushing any other id that can be logged gives the same record. *)
Theorem fusion_url_follows_second_draw (env : FusionEnv) (biaId comments : value) :
  loggable biaId = true ->
  exists record,
    pushToFusion env biaId comments = Normal record
    /\ ((record ?. "fusion_url")%js = url_of_record (record ?. "record_id")%js
        <-> random_record env = random_url env)
    /\ forall otherId,
         loggable otherId = true -> pushToFusion env otherId comments = Normal record.
Proof.
  intros Hl. exists (fusionResult env comments).
  split; [|split].
  - unfold pushToFusion. rewrite (loggable_interpolate biaId Hl). reflexivity.
  - change (fusionResult env comments ?. "fusion_url")%js
      with (Str ("https://fusion.block.xyz/bia/BIA-" ++ pretty (random_url env))).
    change (url_of_record (fusionResult env comments ?. "record_id")%js)
      with (Str ("https://fusion.block.xyz/bia/" ++ ("BIA-" ++ pretty (random_record env)))).
    change ("https://fusion.block.xyz/bia/" ++ ("BIA-" ++ pretty (random_record env)))
      with ("https://fusion.block.xyz/bia/BIA-" ++ pretty (random_record env)).
    split.
    + intros [= H]. apply (inj (String.app _)) in H. apply (inj pretty) in H. congruence.
    + intros ->. reflexivity.
  - intros otherId Ho. unfold pushToFusion.
    rewrite (loggable_interpolate otherId Ho). reflexivity.
Qed.

Lemma fusion_url_follows_second_draw_witness :
  exists record,
    pushToFusion sample_fusion_env "bia-1" "ok" = Normal record
    /\ ((record ?. "fusion_url")%js = url_of_record (record ?. "record_id")%js
        <-> random_record sample_fusion_env = random_url sample_fusion_env)
    /\ forall otherId,
         loggable otherId = true
         -> pushToFusion sample_fusion_env otherId "ok" = Normal record.
Proof.
  apply (fusion_url_follows_second_draw sample_fusion_env "bia-1" "ok"). reflexivity.
Defined.
